(** * go-cpms: the OCPP central system, its store and its command service

    A shallow embedding of [internal/ocpp/central_system.go],
    [internal/ocpp/logger.go], the PostgreSQL store ([db] package), the
    [models] package, the [service] package, the REST handlers ([handlers]
    package) with the command routes of [internal/api/router.go], and the
    [config] package, with the properties the specification states about
    them and further properties read off the code.

    Conventions.
    - Go's [int] is a 64-bit two's complement integer: values are in [Z] and
      the one place that does arithmetic ([generateTransactionID]) wraps.
    - [time.Time] is an instant in [Z]; [0] is the zero time ([IsZero]).
    - [float64] is Rocq's primitive binary64 [float].
    - A store method that returns [(T, error)] returns a sum (exactly one of
      the two is non-nil in the source); a method that returns [error]
      returns an option; a protocol handler returns its pair
      [(confirmation, err)] as a pair of options, [None] for nil.
    - Library functions whose results depend on a text format
      ([json.Marshal] of a message, [fmt.Sscanf], [strconv.Atoi],
      [time.Parse], the JSON decoder of a request body) are parameters,
      given as type classes.
    - The process state (database, transaction id counter, clock, error log)
      is threaded through a state monad [M].  The database's verdict on each
      statement (accepted, or rejected: deadline exceeded, connection lost, a
      constraint of the schema) is read from an oracle in the state, so every
      theorem quantifies over every pattern of store failures.  The
      rejections that the data of the program itself decide are part of the
      statements: a second INSERT under a primary key of [transactions], a
      meter stop outside the range of its INTEGER column, and the foreign
      keys of [meter_values], into which the handlers write constants of
      their own (transaction id 0 for a request that has none, connector 0
      for the data of a StopTransaction).  The other foreign keys (of
      [connectors], [transactions] and [ocpp_messages] to the charge point
      of the connection, of [transactions] to its connector) are verdicts
      of the oracle.
    - The store calls a handler makes itself carry the one context it
      creates with a deadline of five seconds (the audit logger makes a
      context of its own for each record); a deadline that passes is the
      oracle rejecting the call under way and the later calls under that
      context ([deadline_passes]). *)

From Stdlib Require Import ZArith String Ascii List Bool Lia Floats Sorted.
From stdpp Require Import base option gmap strings list sorting.

Local Open Scope string_scope.
Local Open Scope list_scope.
Local Open Scope Z_scope.

(** ** Go basics *)

Definition Time : Type := Z.
Definition time_zero : Time := 0.
Definition IsZero (t : Time) : bool := t =? 0.

Definition int_min : Z := - 2 ^ 63.
Definition int_max : Z := 2 ^ 63 - 1.

(** Two's complement wrap-around of Go's 64-bit [int]. *)
Definition wrap_int (z : Z) : Z := (z + 2 ^ 63) mod 2 ^ 64 - 2 ^ 63.

(** [int(x.Int32)]: the value of a 32-bit integer read back as an [int]. *)
Definition wrap_int32 (z : Z) : Z := (z + 2 ^ 31) mod 2 ^ 32 - 2 ^ 31.

(** The range of PostgreSQL's [INTEGER]. *)
Definition int4_range (z : Z) : bool := (- 2 ^ 31 <=? z) && (z <=? 2 ^ 31 - 1).

Inductive error : Type :=
| ErrNoRows                          (* QueryRow(...).Scan found no row *)
| ErrDatabase                        (* the database rejected the call *)
| ErrUniqueViolation                 (* INSERT on an existing primary key *)
| ErrOutOfRange                      (* value does not fit the column type *)
| ErrForeignKey                      (* the row refers to a row that is not there *)
| ErrMarshal                         (* json.Marshal failed *)
| ErrScan                            (* fmt.Sscanf found no number *)
| Errorf (format arg : string)       (* fmt.Errorf(format, arg) *)
| ErrTransport (s : string).         (* an error of the OCPP transport *)

(** ** Package models *)

Module ChargePoint.
Record t : Type := mk {
  ID : string;
  Vendor : string;
  Model : string;
  SerialNumber : string;
  FirmwareVersion : string;
  LastHeartbeat : Time;
  RegistrationStatus : string;
  ConnectedSince : Time;
  IsConnected : bool;
  CreatedAt : Time;
  UpdatedAt : Time }.

(** Assignments to a field through the pointer. *)
Definition set_ID (v : string) (cp : t) : t :=
  mk v (Vendor cp) (Model cp) (SerialNumber cp) (FirmwareVersion cp)
    (LastHeartbeat cp) (RegistrationStatus cp) (ConnectedSince cp) (IsConnected cp)
    (CreatedAt cp) (UpdatedAt cp).
Definition set_ConnectedSince (v : Time) (cp : t) : t :=
  mk (ID cp) (Vendor cp) (Model cp) (SerialNumber cp) (FirmwareVersion cp)
    (LastHeartbeat cp) (RegistrationStatus cp) v (IsConnected cp) (CreatedAt cp)
    (UpdatedAt cp).
Definition set_IsConnected (v : bool) (cp : t) : t :=
  mk (ID cp) (Vendor cp) (Model cp) (SerialNumber cp) (FirmwareVersion cp)
    (LastHeartbeat cp) (RegistrationStatus cp) (ConnectedSince cp) v (CreatedAt cp)
    (UpdatedAt cp).
Definition set_CreatedAt (v : Time) (cp : t) : t :=
  mk (ID cp) (Vendor cp) (Model cp) (SerialNumber cp) (FirmwareVersion cp)
    (LastHeartbeat cp) (RegistrationStatus cp) (ConnectedSince cp) (IsConnected cp) v
    (UpdatedAt cp).
Definition set_UpdatedAt (v : Time) (cp : t) : t :=
  mk (ID cp) (Vendor cp) (Model cp) (SerialNumber cp) (FirmwareVersion cp)
    (LastHeartbeat cp) (RegistrationStatus cp) (ConnectedSince cp) (IsConnected cp)
    (CreatedAt cp) v.
End ChargePoint.

Module Connector.
Record t : Type := mk {
  ID : Z;
  ChargePointID : string;
  Status : string;
  ErrorCode : string;
  CreatedAt : Time;
  UpdatedAt : Time }.
End Connector.

Module Transaction.
Record t : Type := mk {
  ID : Z;
  ChargePointID : string;
  ConnectorID : Z;
  IdTag : string;
  StartTime : Time;
  EndTime : Time;
  MeterStart : Z;
  MeterStop : Z;
  Status : string;
  CreatedAt : Time;
  UpdatedAt : Time }.
End Transaction.

Module OCPPMessage.
Record t : Type := mk {
  ID : Z;
  ChargePointID : string;
  MessageType : string;
  Action : string;
  RequestID : string;
  Payload : string;
  Direction : string;
  Timestamp : Time }.
End OCPPMessage.

Module MeterValue.
Record t : Type := mk {
  ID : Z;
  TransactionID : Z;
  ChargePointID : string;
  ConnectorID : Z;
  Timestamp : Time;
  Value : float;
  Unit : string;
  Measurand : string;
  CreatedAt : Time }.

Definition set_TransactionID (v : Z) (mv : t) : t :=
  mk (ID mv) v (ChargePointID mv) (ConnectorID mv) (Timestamp mv) (Value mv) (Unit mv)
    (Measurand mv) (CreatedAt mv).
End MeterValue.

(** ** The persisted schema (migrations/schema.sql)

    A table with a primary key is a finite map from the key to the row.
    A row of [charge_points] has the columns of [ChargePoint.t]; the store
    writes every one of them from a Go value, never NULL.  The nullable
    columns the store leaves out of an INSERT are options. *)

Module TransactionRow.
Record t : Type := mk {
  id : Z;
  charge_point_id : string;
  connector_id : Z;
  id_tag : string;
  start_time : Time;
  end_time : option Time;      (* TIMESTAMP WITH TIME ZONE, nullable *)
  meter_start : Z;
  meter_stop : option Z;       (* INTEGER, nullable *)
  status : string;
  created_at : Time;
  updated_at : Time }.
End TransactionRow.

Module OCPPMessageRow.
Record t : Type := mk {
  charge_point_id : string;
  message_type : string;
  action : string;
  request_id : string;
  payload : string;            (* JSONB: the JSON text that was sent *)
  direction : string;
  timestamp : Time }.
End OCPPMessageRow.

Module MeterValueRow.
Record t : Type := mk {
  transaction_id : option Z;   (* INTEGER REFERENCES transactions(id), nullable *)
  charge_point_id : string;
  connector_id : Z;
  timestamp : Time;
  value : float;
  unit : string;
  measurand : string;
  created_at : Time }.
End MeterValueRow.

Record DB : Type := mkDB {
  charge_points : gmap string ChargePoint.t;
  connectors : gmap (string * Z) Connector.t;
  transactions : gmap Z TransactionRow.t;
  ocpp_messages : list OCPPMessageRow.t;
  meter_values : list MeterValueRow.t }.

Definition empty_db : DB := mkDB ∅ ∅ ∅ [] [].

Definition set_charge_points (f : gmap string ChargePoint.t → gmap string ChargePoint.t) (d : DB) : DB :=
  mkDB (f (charge_points d)) (connectors d) (transactions d) (ocpp_messages d) (meter_values d).
Definition set_connectors (f : gmap (string * Z) Connector.t → gmap (string * Z) Connector.t) (d : DB) : DB :=
  mkDB (charge_points d) (f (connectors d)) (transactions d) (ocpp_messages d) (meter_values d).
Definition set_transactions (f : gmap Z TransactionRow.t → gmap Z TransactionRow.t) (d : DB) : DB :=
  mkDB (charge_points d) (connectors d) (f (transactions d)) (ocpp_messages d) (meter_values d).
Definition set_ocpp_messages (f : list OCPPMessageRow.t → list OCPPMessageRow.t) (d : DB) : DB :=
  mkDB (charge_points d) (connectors d) (transactions d) (f (ocpp_messages d)) (meter_values d).
Definition set_meter_values (f : list MeterValueRow.t → list MeterValueRow.t) (d : DB) : DB :=
  mkDB (charge_points d) (connectors d) (transactions d) (ocpp_messages d) (f (meter_values d)).

(** Whether a keyed table holds a row under the key. *)
Definition on_file `{Countable K} {A} (table : gmap K A) (key : K) : bool :=
  match table !! key with Some _ => true | None => false end.

(** ** The process state and its monad *)

(** An entry logged at level Error: the message and the error attached. *)
Definition LogEntry : Type := (string * error)%type.

Record World : Type := mkWorld {
  db : DB;                     (* the PostgreSQL database behind the pool *)
  lastTransactionID : Z;       (* var lastTransactionID, package ocpp *)
  now : nat → Time;            (* what the k-th time.Now() returns *)
  tick : nat;                  (* how many time.Now() calls were made *)
  faults : nat → bool;         (* whether the database rejects the k-th call *)
  calls : nat;                 (* how many database calls were made *)
  errlog : list LogEntry }.    (* logrus entries at level Error *)

Definition M (A : Type) : Type := World → World * A.

#[global] Instance M_ret : MRet M := λ A a w, (w, a).
#[global] Instance M_bind : MBind M :=
  λ A B k m w, let (w', a) := m w in k a w'.
#[global] Instance M_fmap : FMap M :=
  λ A B f m w, let (w', a) := m w in (w', f a).

(** [for _, x := range l { body }] *)
Fixpoint for_range {A} (l : list A) (body : A → M unit) : M unit :=
  match l with
  | [] => mret tt
  | x :: l' => body x;; for_range l' body
  end.

Definition time_Now : M Time :=
  λ w, (mkWorld (db w) (lastTransactionID w) (now w) (S (tick w)) (faults w) (calls w) (errlog w),
        now w (tick w)).

Definition logrus_Error (msg : string) (e : error) : M unit :=
  λ w, (mkWorld (db w) (lastTransactionID w) (now w) (tick w) (faults w) (calls w)
          (errlog w ++ [(msg, e)]), tt).

Definition next_call (w : World) : World :=
  mkWorld (db w) (lastTransactionID w) (now w) (tick w) (faults w) (S (calls w)) (errlog w).

Definition set_db (d : DB) (w : World) : World :=
  mkWorld d (lastTransactionID w) (now w) (tick w) (faults w) (calls w) (errlog w).

(** [pool.Exec(ctx, query, args...)]: the database rejects the call, or runs
    the statement, which itself fails or yields the new database. *)
Definition Exec (stmt : DB → error + DB) : M (option error) :=
  λ w, if faults w (calls w) then (next_call w, Some ErrDatabase)
       else match stmt (db w) with
            | inl e => (next_call w, Some e)
            | inr d => (set_db d (next_call w), None)
            end.

(** [pool.QueryRow(ctx, query, args...).Scan(...)] of a query that selects
    one row: an error, or the row. *)
Definition QueryRow {A} (q : DB → option A) : M (error + A) :=
  λ w, if faults w (calls w) then (next_call w, inl ErrDatabase)
       else match q (db w) with
            | None => (next_call w, inl ErrNoRows)
            | Some a => (next_call w, inr a)
            end.

(** [pool.Query(ctx, query, args...)], the scan of every row and
    [rows.Err()]: an error of one of them, or the rows the query selects, in
    its order. *)
Definition Query {A} (q : DB → list A) : M (error + list A) :=
  λ w, if faults w (calls w) then (next_call w, inl ErrDatabase)
       else (next_call w, inr (q (db w))).

(** ** encoding/json on a Go string

    [json.Marshal] of a string yields the text between double quotes, with
    the quote and the backslash escaped by a backslash, newline, carriage
    return and tab as [\n], [\r], [\t], and the other control bytes and the
    HTML characters [<], [>], [&] as [\u00xx].  Bytes from 0x80 on stand for
    themselves (the strings marshalled here are JSON texts, valid UTF-8). *)

Definition quote_char : ascii := ascii_of_nat 34.
Definition backslash_char : ascii := ascii_of_nat 92.

Definition hex_digit (n : nat) : ascii :=
  nth n (list_ascii_of_string "0123456789abcdef") "0"%char.

Definition json_escape (c : ascii) : string :=
  let n := nat_of_ascii c in
  if (n =? 34)%nat then String backslash_char (String quote_char EmptyString)
  else if (n =? 92)%nat then String backslash_char (String backslash_char EmptyString)
  else if (n =? 10)%nat then "\n"
  else if (n =? 13)%nat then "\r"
  else if (n =? 9)%nat then "\t"
  else if (n <? 32)%nat || (n =? 60)%nat || (n =? 62)%nat || (n =? 38)%nat
       then "\u00" +:+ String (hex_digit (n / 16)) (String (hex_digit (n mod 16)) EmptyString)
  else String c EmptyString.

Fixpoint json_escape_string (s : string) : string :=
  match s with
  | EmptyString => EmptyString
  | String c s' => json_escape c +:+ json_escape_string s'
  end.

Definition json_Marshal_string (s : string) : string :=
  String quote_char (json_escape_string s +:+ String quote_char EmptyString).

(** ** Package db: the PostgreSQL store

    Each [sql_*] function is the statement of the method of the same name, as
    a function on the database. *)

Module db.
Import ChargePoint.

(** INSERT INTO charge_points ... ON CONFLICT (id) DO UPDATE SET ...:
    on a conflict [connected_since] takes the new value only when the row
    has [is_connected = FALSE] and the new [is_connected] is TRUE, and
    [created_at] is kept. *)
Definition upsert_charge_point (cp : ChargePoint.t) (m : gmap string ChargePoint.t)
    : gmap string ChargePoint.t :=
  match m !! ID cp with
  | None => <[ID cp := cp]> m
  | Some old =>
      <[ID cp := ChargePoint.mk (ID cp) (Vendor cp) (Model cp) (SerialNumber cp)
                   (FirmwareVersion cp) (LastHeartbeat cp) (RegistrationStatus cp)
                   (if negb (IsConnected old) && IsConnected cp
                    then ConnectedSince cp else ConnectedSince old)
                   (IsConnected cp) (CreatedAt old) (UpdatedAt cp)]> m
  end.

Definition sql_SaveChargePoint (cp : ChargePoint.t) (d : DB) : error + DB :=
  inr (set_charge_points (upsert_charge_point cp) d).

(** [if cp.CreatedAt.IsZero() { cp.CreatedAt = now }; cp.UpdatedAt = now] *)
Definition stamp (now : Time) (cp : ChargePoint.t) : ChargePoint.t :=
  set_UpdatedAt now (if IsZero (CreatedAt cp) then set_CreatedAt now cp else cp).

Definition SaveChargePoint (cp : ChargePoint.t) : M (option error) :=
  now ← time_Now;
  Exec (sql_SaveChargePoint (stamp now cp)).

(** SELECT ... FROM charge_points WHERE id = $1: the [id] column of the
    row found is the key it was selected by. *)
Definition GetChargePoint (id : string) : M (error + ChargePoint.t) :=
  QueryRow (λ d, set_ID id <$> charge_points d !! id).

(** INSERT INTO connectors ... ON CONFLICT (charge_point_id, id) DO UPDATE
    SET status, error_code, updated_at.  (Whether the charge point the row
    refers to is on file is a verdict of the oracle.) *)
Definition sql_SaveConnector (c : Connector.t) (d : DB) : error + DB :=
  let k := (Connector.ChargePointID c, Connector.ID c) in
  inr (set_connectors (λ m,
    match m !! k with
    | None => <[k := c]> m
    | Some old =>
        <[k := Connector.mk (Connector.ID old) (Connector.ChargePointID old)
                 (Connector.Status c) (Connector.ErrorCode c)
                 (Connector.CreatedAt old) (Connector.UpdatedAt c)]> m
    end) d).

Definition SaveConnector (c : Connector.t) : M (option error) :=
  now ← time_Now;
  let created := if IsZero (Connector.CreatedAt c) then now else Connector.CreatedAt c in
  Exec (sql_SaveConnector
          (Connector.mk (Connector.ID c) (Connector.ChargePointID c) (Connector.Status c)
             (Connector.ErrorCode c) created now)).

(** INSERT INTO transactions (...) VALUES (...): [id] is the primary key;
    [end_time] and [meter_stop] are not among the columns and stay NULL.
    (Whether the charge point and the connector the row refers to are on
    file is a verdict of the oracle.) *)
Definition sql_StartTransaction (tx : Transaction.t) (d : DB) : error + DB :=
  match transactions d !! Transaction.ID tx with
  | Some _ => inl ErrUniqueViolation
  | None =>
      inr (set_transactions
             (insert (Transaction.ID tx)
                (TransactionRow.mk (Transaction.ID tx) (Transaction.ChargePointID tx)
                   (Transaction.ConnectorID tx) (Transaction.IdTag tx)
                   (Transaction.StartTime tx) None (Transaction.MeterStart tx) None
                   (Transaction.Status tx) (Transaction.CreatedAt tx)
                   (Transaction.UpdatedAt tx))) d)
  end.

Definition StartTransaction (tx : Transaction.t) : M (option error) :=
  now ← time_Now;
  let created := if IsZero (Transaction.CreatedAt tx) then now else Transaction.CreatedAt tx in
  Exec (sql_StartTransaction
          (Transaction.mk (Transaction.ID tx) (Transaction.ChargePointID tx)
             (Transaction.ConnectorID tx) (Transaction.IdTag tx) (Transaction.StartTime tx)
             (Transaction.EndTime tx) (Transaction.MeterStart tx) (Transaction.MeterStop tx)
             (Transaction.Status tx) created now)).

(** UPDATE transactions SET end_time = $1, meter_stop = $2,
    status = 'Completed', updated_at = $3 WHERE id = $4.
    [meter_stop] is an INTEGER column: a value outside its range is an
    error.  A statement that matches no row succeeds. *)
Definition complete_transaction (id : Z) (endTime : Time) (meterStop : Z) (updated : Time)
    (m : gmap Z TransactionRow.t) : gmap Z TransactionRow.t :=
  match m !! id with
  | None => m
  | Some r =>
      <[id := TransactionRow.mk (TransactionRow.id r) (TransactionRow.charge_point_id r)
                (TransactionRow.connector_id r) (TransactionRow.id_tag r)
                (TransactionRow.start_time r) (Some endTime)
                (TransactionRow.meter_start r) (Some meterStop)
                "Completed" (TransactionRow.created_at r) updated]> m
  end.

Definition sql_StopTransaction (id : Z) (endTime : Time) (meterStop : Z) (updated : Time)
    (d : DB) : error + DB :=
  if int4_range meterStop
  then inr (set_transactions (complete_transaction id endTime meterStop updated) d)
  else inl ErrOutOfRange.

Definition StopTransaction (id : Z) (endTime : Time) (meterStop : Z) : M (option error) :=
  now ← time_Now;
  Exec (sql_StopTransaction id endTime meterStop now).

(** SELECT ... FROM transactions WHERE id = $1, with [end_time] scanned
    into a [sql.NullTime] and [meter_stop] into a [sql.NullInt32]. *)
Definition scan_Transaction (r : TransactionRow.t) : Transaction.t :=
  Transaction.mk (TransactionRow.id r) (TransactionRow.charge_point_id r)
    (TransactionRow.connector_id r) (TransactionRow.id_tag r)
    (TransactionRow.start_time r)
    (match TransactionRow.end_time r with Some t => t | None => time_zero end)
    (TransactionRow.meter_start r)
    (match TransactionRow.meter_stop r with Some v => wrap_int32 v | None => 0 end)
    (TransactionRow.status r) (TransactionRow.created_at r) (TransactionRow.updated_at r).

Definition GetTransaction (id : Z) : M (error + Transaction.t) :=
  r ← QueryRow (λ d, transactions d !! id);
  match r with
  | inl e => mret (inl e)
  | inr row => mret (inr (scan_Transaction row))
  end.

(** INSERT INTO ocpp_messages (charge_point_id, message_type, action,
    request_id, payload, direction, timestamp) VALUES (...).  (Whether the
    charge point the row refers to is on file is a verdict of the
    oracle.) *)
Definition sql_LogOCPPMessage (msg : OCPPMessage.t) (payload : string) (d : DB) : error + DB :=
  inr (set_ocpp_messages (λ l, l ++
    [OCPPMessageRow.mk (OCPPMessage.ChargePointID msg) (OCPPMessage.MessageType msg)
       (OCPPMessage.Action msg) (OCPPMessage.RequestID msg) payload
       (OCPPMessage.Direction msg) (OCPPMessage.Timestamp msg)]) d).

(** [msg.Payload] is a string: [json.Marshal] of it cannot fail, so the
    method's error branch (payload replaced by an empty object) is dead. *)
Definition LogOCPPMessage (msg : OCPPMessage.t) : M (option error) :=
  let payload := json_Marshal_string (OCPPMessage.Payload msg) in
  Exec (sql_LogOCPPMessage msg payload).

(** INSERT INTO meter_values (transaction_id, charge_point_id,
    connector_id, timestamp, value, unit, measurand, created_at). *)
Definition meter_value_row (mv : MeterValue.t) (created : Time) : MeterValueRow.t :=
  MeterValueRow.mk (Some (MeterValue.TransactionID mv)) (MeterValue.ChargePointID mv)
    (MeterValue.ConnectorID mv) (MeterValue.Timestamp mv) (MeterValue.Value mv)
    (MeterValue.Unit mv) (MeterValue.Measurand mv) created.

(** The foreign keys of [meter_values]: [transaction_id] REFERENCES
    transactions(id), which NULL would satisfy, but the method sends the
    integer of the Go value whatever it is; [charge_point_id] REFERENCES
    charge_points(id); and (charge_point_id, connector_id) REFERENCES
    connectors(charge_point_id, id). *)
Definition meter_value_references (mv : MeterValue.t) (d : DB) : bool :=
  on_file (transactions d) (MeterValue.TransactionID mv)
  && on_file (charge_points d) (MeterValue.ChargePointID mv)
  && on_file (connectors d) (MeterValue.ChargePointID mv, MeterValue.ConnectorID mv).

Definition sql_SaveMeterValue (mv : MeterValue.t) (created : Time) (d : DB) : error + DB :=
  if meter_value_references mv d
  then inr (set_meter_values (λ l, l ++ [meter_value_row mv created]) d)
  else inl ErrForeignKey.

Definition SaveMeterValue (mv : MeterValue.t) : M (option error) :=
  now ← time_Now;
  Exec (sql_SaveMeterValue mv now).

(** UPDATE charge_points SET is_connected = true, connected_since = $1,
    updated_at = $2 WHERE id = $3, or, when [connected] is false,
    SET is_connected = false, updated_at = $1 WHERE id = $2. *)
Definition mark_connection (id : string) (connected : bool) (now : Time)
    (m : gmap string ChargePoint.t) : gmap string ChargePoint.t :=
  match m !! id with
  | None => m
  | Some r =>
      if connected then
        <[id := ChargePoint.mk (ID r) (Vendor r) (Model r) (SerialNumber r)
                  (FirmwareVersion r) (LastHeartbeat r) (RegistrationStatus r)
                  now true (CreatedAt r) now]> m
      else
        <[id := ChargePoint.mk (ID r) (Vendor r) (Model r) (SerialNumber r)
                  (FirmwareVersion r) (LastHeartbeat r) (RegistrationStatus r)
                  (ConnectedSince r) false (CreatedAt r) now]> m
  end.

Definition sql_UpdateChargePointConnection (id : string) (connected : bool) (now : Time)
    (d : DB) : error + DB :=
  inr (set_charge_points (mark_connection id connected now) d).

Definition UpdateChargePointConnection (id : string) (connected : bool) : M (option error) :=
  now ← time_Now;
  Exec (sql_UpdateChargePointConnection id connected now).

(** UPDATE charge_points SET last_heartbeat = $1, updated_at = $1
    WHERE id = $2. *)
Definition touch_heartbeat (id : string) (now : Time) (m : gmap string ChargePoint.t)
    : gmap string ChargePoint.t :=
  match m !! id with
  | None => m
  | Some r =>
      <[id := ChargePoint.mk (ID r) (Vendor r) (Model r) (SerialNumber r)
                (FirmwareVersion r) now (RegistrationStatus r)
                (ConnectedSince r) (IsConnected r) (CreatedAt r) now]> m
  end.

Definition sql_UpdateHeartbeat (id : string) (now : Time) (d : DB) : error + DB :=
  inr (set_charge_points (touch_heartbeat id now) d).

Definition UpdateHeartbeat (id : string) : M (option error) :=
  now ← time_Now;
  Exec (sql_UpdateHeartbeat id now).
(** SELECT ... FROM charge_points ORDER BY created_at DESC.  Among rows of
    equal [created_at] the database is free to choose the order; the one
    taken here is that of a merge sort of the table. *)
Definition created_at_desc (a b : ChargePoint.t) : Prop := CreatedAt b ≤ CreatedAt a.

#[global] Instance created_at_desc_dec : RelDecision created_at_desc :=
  λ a b, Z_le_dec (CreatedAt b) (CreatedAt a).

Definition select_charge_points (d : DB) : list ChargePoint.t :=
  merge_sort created_at_desc ((λ kv, set_ID kv.1 kv.2) <$> map_to_list (charge_points d)).

Definition GetAllChargePoints : M (error + list ChargePoint.t) :=
  Query select_charge_points.

(** SELECT ... FROM connectors WHERE charge_point_id = $1 ORDER BY id: the
    [charge_point_id] and [id] columns of a row are the key it is stored
    under. *)
Definition connector_of (kv : string * Z * Connector.t) : Connector.t :=
  Connector.mk kv.1.2 kv.1.1 (Connector.Status kv.2) (Connector.ErrorCode kv.2)
    (Connector.CreatedAt kv.2) (Connector.UpdatedAt kv.2).

Definition id_asc (a b : Connector.t) : Prop := Connector.ID a ≤ Connector.ID b.

#[global] Instance id_asc_dec : RelDecision id_asc :=
  λ a b, Z_le_dec (Connector.ID a) (Connector.ID b).

Definition select_connectors (chargePointID : string) (d : DB) : list Connector.t :=
  merge_sort id_asc
    (connector_of <$> filter (λ kv, kv.1.1 = chargePointID) (map_to_list (connectors d))).

Definition GetConnectors (chargePointID : string) : M (error + list Connector.t) :=
  Query (select_connectors chargePointID).
End db.

(** ** The OCPP 1.6 messages (ocpp-go), with the fields the handlers read *)

Module SampledValue.
Record t : Type := mk { Value : string; Measurand : string; Unit : string }.
End SampledValue.

Module SampleSet.           (* types.MeterValue *)
Record t : Type := mk { Timestamp : Time; SampledValue : list SampledValue.t }.
End SampleSet.

Module IdTagInfo.
Record t : Type := mk { Status : string }.
End IdTagInfo.

Definition AuthorizationStatusAccepted : string := "Accepted".
Definition RegistrationStatusAccepted : string := "Accepted".
Definition DataTransferStatusAccepted : string := "Accepted".

Module BootNotificationRequest.
Record t : Type := mk {
  ChargePointVendor : string;
  ChargePointModel : string;
  ChargePointSerialNumber : string;
  FirmwareVersion : string }.
End BootNotificationRequest.

Module BootNotificationConfirmation.
Record t : Type := mk { CurrentTime : Time; Interval : Z; Status : string }.
End BootNotificationConfirmation.

Module HeartbeatConfirmation.
Record t : Type := mk { CurrentTime : Time }.
End HeartbeatConfirmation.

Module StatusNotificationRequest.
Record t : Type := mk { ConnectorId : Z; Status : string; ErrorCode : string }.
End StatusNotificationRequest.

Module MeterValuesRequest.
Record t : Type := mk {
  ConnectorId : Z;
  TransactionId : option Z;          (* *int, nil when absent *)
  MeterValue : list SampleSet.t }.
End MeterValuesRequest.

Module StartTransactionRequest.
Record t : Type := mk { ConnectorId : Z; IdTag : string; Timestamp : Time; MeterStart : Z }.
End StartTransactionRequest.

Module StartTransactionConfirmation.
Record t : Type := mk { IdTagInfo : IdTagInfo.t; TransactionId : Z }.
End StartTransactionConfirmation.

Module StopTransactionRequest.
Record t : Type := mk {
  TransactionId : Z;
  Timestamp : Time;
  MeterStop : Z;
  TransactionData : list SampleSet.t }.
End StopTransactionRequest.

Module DataTransferRequest.
Record t : Type := mk { VendorId : string; MessageId : string }.
End DataTransferRequest.

(** The closed set of inbound actions and of their confirmations. *)
Inductive Request : Type :=
| ReqBootNotification (r : BootNotificationRequest.t)
| ReqHeartbeat
| ReqStatusNotification (r : StatusNotificationRequest.t)
| ReqMeterValues (r : MeterValuesRequest.t)
| ReqStartTransaction (r : StartTransactionRequest.t)
| ReqStopTransaction (r : StopTransactionRequest.t)
| ReqAuthorize (IdTag : string)
| ReqDataTransfer (r : DataTransferRequest.t)
| ReqDiagnosticsStatusNotification (Status : string)
| ReqFirmwareStatusNotification (Status : string).

Inductive Confirmation : Type :=
| ConfBootNotification (c : BootNotificationConfirmation.t)
| ConfHeartbeat (c : HeartbeatConfirmation.t)
| ConfStatusNotification
| ConfMeterValues
| ConfStartTransaction (c : StartTransactionConfirmation.t)
| ConfStopTransaction
| ConfAuthorize (IdTagInfo : IdTagInfo.t)
| ConfDataTransfer (Status : string)
| ConfDiagnosticsStatusNotification
| ConfFirmwareStatusNotification.

(** What the logger is handed as [payload interface{}]. *)
Inductive Payload : Type :=
| PRequest (r : Request)
| PConfirmation (c : Confirmation).

(** The two library functions whose results depend on text formats:
    [json.Marshal] of a protocol message and
    [fmt.Sscanf(s, "%f", &f)]. *)
Class Runtime : Type := {
  json_Marshal : Payload → option string;
  Sscanf_f : string → option float }.

Record Config : Type := mkConfig {
  ServerPort : Z;
  OCPPPath : string;
  HeartbeatInterval : Z }.

(** ** Package ocpp *)

Module ocpp.
Section ocpp.
Context {RT : Runtime}.

(** *** logger.go *)

Definition logMessage (chargePointID messageType action requestID : string)
    (payload : Payload) (direction : string) : M unit :=
  payloadJSON ← match json_Marshal payload with
                | Some b => mret b
                | None =>
                    logrus_Error "Failed to marshal OCPP message payload" ErrMarshal;;
                    mret "{}"
                end;
  now ← time_Now;
  let msg := OCPPMessage.mk 0 chargePointID messageType action requestID
               payloadJSON direction now in
  err ← db.LogOCPPMessage msg;
  match err with
  | Some e => logrus_Error "Failed to log OCPP message" e
  | None => mret tt
  end.

Definition LogRequest (chargePointID action requestID : string) (payload : Payload)
    (direction : string) : M unit :=
  logMessage chargePointID "Request" action requestID payload direction.

Definition LogResponse (chargePointID action requestID : string) (payload : Payload)
    (direction : string) : M unit :=
  logMessage chargePointID "Response" action requestID payload direction.

(** *** central_system.go *)

Definition lastTransactionID_init : Z := 1000.

Definition generateTransactionID : M Z :=
  λ w, let n := wrap_int (lastTransactionID w + 1) in
       (mkWorld (db w) n (now w) (tick w) (faults w) (calls w) (errlog w), n).

Definition parseFloat64 (s : string) : float * option error :=
  match Sscanf_f s with
  | Some f => (f, None)
  | None => (0%float, Some ErrScan)
  end.

Definition log_if_error (msg : string) (err : option error) : M unit :=
  match err with
  | Some e => logrus_Error msg e
  | None => mret tt
  end.

Definition handleNewChargePoint (id : string) : M unit :=
  r ← db.GetChargePoint id;
  chargePoint ← match r with
                | inl _ =>
                    now ← time_Now;
                    mret (ChargePoint.mk id "Unknown" "Unknown" "" "" time_zero
                            "Pending" now true time_zero time_zero)
                | inr cp =>
                    let cp1 := ChargePoint.set_IsConnected true cp in
                    now ← time_Now;
                    mret (ChargePoint.set_ConnectedSince now cp1)
                end;
  err ← db.SaveChargePoint chargePoint;
  log_if_error "Failed to save charge point" err.

Definition handleChargePointDisconnected (id : string) : M unit :=
  err ← db.UpdateChargePointConnection id false;
  log_if_error "Failed to update charge point connection status" err.

Section handlers.
Variable config : Config.

Definition OnBootNotification (chargePointID : string) (request : BootNotificationRequest.t)
    : M (option BootNotificationConfirmation.t * option error) :=
  LogRequest chargePointID "BootNotification" ""
    (PRequest (ReqBootNotification request)) "Inbound";;
  lastHeartbeat ← time_Now;
  connectedSince ← time_Now;
  let chargePoint :=
    ChargePoint.mk chargePointID
      (BootNotificationRequest.ChargePointVendor request)
      (BootNotificationRequest.ChargePointModel request)
      (BootNotificationRequest.ChargePointSerialNumber request)
      (BootNotificationRequest.FirmwareVersion request)
      lastHeartbeat RegistrationStatusAccepted connectedSince true
      time_zero time_zero in
  err ← db.SaveChargePoint chargePoint;
  log_if_error "Failed to save charge point" err;;
  currentTime ← time_Now;
  let conf := BootNotificationConfirmation.mk currentTime (HeartbeatInterval config)
                RegistrationStatusAccepted in
  LogResponse chargePointID "BootNotification" ""
    (PConfirmation (ConfBootNotification conf)) "Outbound";;
  mret (Some conf, None).

Definition OnHeartbeat (chargePointID : string)
    : M (option HeartbeatConfirmation.t * option error) :=
  LogRequest chargePointID "Heartbeat" "" (PRequest ReqHeartbeat) "Inbound";;
  err ← db.UpdateHeartbeat chargePointID;
  log_if_error "Failed to update heartbeat" err;;
  currentTime ← time_Now;
  let conf := HeartbeatConfirmation.mk currentTime in
  LogResponse chargePointID "Heartbeat" "" (PConfirmation (ConfHeartbeat conf)) "Outbound";;
  mret (Some conf, None).

Definition OnStatusNotification (chargePointID : string)
    (request : StatusNotificationRequest.t) : M (option unit * option error) :=
  LogRequest chargePointID "StatusNotification" ""
    (PRequest (ReqStatusNotification request)) "Inbound";;
  let connector :=
    Connector.mk (StatusNotificationRequest.ConnectorId request) chargePointID
      (StatusNotificationRequest.Status request)
      (StatusNotificationRequest.ErrorCode request) time_zero time_zero in
  err ← db.SaveConnector connector;
  log_if_error "Failed to save connector status" err;;
  LogResponse chargePointID "StatusNotification" ""
    (PConfirmation ConfStatusNotification) "Outbound";;
  mret (Some tt, None).

(** The body of the two nested loops of [OnMeterValues]: the row built
    for one sample of one sample set. *)
Definition meter_value_of (chargePointID : string) (request : MeterValuesRequest.t)
    (meterValue : SampleSet.t) (sampledValue : SampledValue.t) : MeterValue.t :=
  let measurand := if String.eqb (SampledValue.Measurand sampledValue) ""
                   then "Energy.Active.Import.Register"
                   else SampledValue.Measurand sampledValue in
  let unit := if String.eqb (SampledValue.Unit sampledValue) ""
              then "Wh" else SampledValue.Unit sampledValue in
  let value := match parseFloat64 (SampledValue.Value sampledValue) with
               | (v, None) => v
               | (_, Some _) => 0%float
               end in
  let mv := MeterValue.mk 0 0 chargePointID (MeterValuesRequest.ConnectorId request)
              (SampleSet.Timestamp meterValue) value unit measurand time_zero in
  match MeterValuesRequest.TransactionId request with
  | Some id => MeterValue.set_TransactionID id mv
  | None => mv
  end.

Definition OnMeterValues (chargePointID : string) (request : MeterValuesRequest.t)
    : M (option unit * option error) :=
  LogRequest chargePointID "MeterValues" "" (PRequest (ReqMeterValues request)) "Inbound";;
  for_range (MeterValuesRequest.MeterValue request) (λ meterValue,
    for_range (SampleSet.SampledValue meterValue) (λ sampledValue,
      err ← db.SaveMeterValue (meter_value_of chargePointID request meterValue sampledValue);
      log_if_error "Failed to save meter value" err));;
  LogResponse chargePointID "MeterValues" "" (PConfirmation ConfMeterValues) "Outbound";;
  mret (Some tt, None).

Definition OnStartTransaction (chargePointID : string) (request : StartTransactionRequest.t)
    : M (option StartTransactionConfirmation.t * option error) :=
  LogRequest chargePointID "StartTransaction" ""
    (PRequest (ReqStartTransaction request)) "Inbound";;
  id ← generateTransactionID;
  let transaction :=
    Transaction.mk id chargePointID (StartTransactionRequest.ConnectorId request)
      (StartTransactionRequest.IdTag request) (StartTransactionRequest.Timestamp request)
      time_zero (StartTransactionRequest.MeterStart request) 0 "InProgress"
      time_zero time_zero in
  err ← db.StartTransaction transaction;
  log_if_error "Failed to save transaction" err;;
  let idTagInfo := IdTagInfo.mk AuthorizationStatusAccepted in
  let conf := StartTransactionConfirmation.mk idTagInfo (Transaction.ID transaction) in
  LogResponse chargePointID "StartTransaction" ""
    (PConfirmation (ConfStartTransaction conf)) "Outbound";;
  mret (Some conf, None).

(** The row built for one sample of the [TransactionData] of a
    StopTransaction request. *)
Definition stop_meter_value_of (chargePointID : string) (request : StopTransactionRequest.t)
    (meterValue : SampleSet.t) (sampledValue : SampledValue.t) : MeterValue.t :=
  let measurand := if String.eqb (SampledValue.Measurand sampledValue) ""
                   then "Energy.Active.Import.Register"
                   else SampledValue.Measurand sampledValue in
  let unit := if String.eqb (SampledValue.Unit sampledValue) ""
              then "Wh" else SampledValue.Unit sampledValue in
  let value := match parseFloat64 (SampledValue.Value sampledValue) with
               | (v, None) => v
               | (_, Some _) => 0%float
               end in
  MeterValue.mk 0 (StopTransactionRequest.TransactionId request) chargePointID 0
    (SampleSet.Timestamp meterValue) value unit measurand time_zero.

Definition OnStopTransaction (chargePointID : string) (request : StopTransactionRequest.t)
    : M (option unit * option error) :=
  LogRequest chargePointID "StopTransaction" ""
    (PRequest (ReqStopTransaction request)) "Inbound";;
  err ← db.StopTransaction (StopTransactionRequest.TransactionId request)
          (StopTransactionRequest.Timestamp request)
          (StopTransactionRequest.MeterStop request);
  log_if_error "Failed to update transaction" err;;
  for_range (StopTransactionRequest.TransactionData request) (λ meterValue,
    for_range (SampleSet.SampledValue meterValue) (λ sampledValue,
      err ← db.SaveMeterValue
              (stop_meter_value_of chargePointID request meterValue sampledValue);
      log_if_error "Failed to save transaction meter value" err));;
  LogResponse chargePointID "StopTransaction" ""
    (PConfirmation ConfStopTransaction) "Outbound";;
  mret (Some tt, None).

Definition OnAuthorize (chargePointID : string) (IdTag : string)
    : M (option IdTagInfo.t * option error) :=
  LogRequest chargePointID "Authorize" "" (PRequest (ReqAuthorize IdTag)) "Inbound";;
  let idTagInfo := IdTagInfo.mk AuthorizationStatusAccepted in
  LogResponse chargePointID "Authorize" "" (PConfirmation (ConfAuthorize idTagInfo))
    "Outbound";;
  mret (Some idTagInfo, None).

Definition OnDataTransfer (chargePointID : string) (request : DataTransferRequest.t)
    : M (option string * option error) :=
  LogRequest chargePointID "DataTransfer" "" (PRequest (ReqDataTransfer request)) "Inbound";;
  let conf := DataTransferStatusAccepted in
  LogResponse chargePointID "DataTransfer" "" (PConfirmation (ConfDataTransfer conf))
    "Outbound";;
  mret (Some conf, None).

Definition OnDiagnosticsStatusNotification (chargePointID : string) (Status : string)
    : M (option unit * option error) :=
  LogRequest chargePointID "DiagnosticsStatusNotification" ""
    (PRequest (ReqDiagnosticsStatusNotification Status)) "Inbound";;
  LogResponse chargePointID "DiagnosticsStatusNotification" ""
    (PConfirmation ConfDiagnosticsStatusNotification) "Outbound";;
  mret (Some tt, None).

Definition OnFirmwareStatusNotification (chargePointID : string) (Status : string)
    : M (option unit * option error) :=
  LogRequest chargePointID "FirmwareStatusNotification" ""
    (PRequest (ReqFirmwareStatusNotification Status)) "Inbound";;
  LogResponse chargePointID "FirmwareStatusNotification" ""
    (PConfirmation ConfFirmwareStatusNotification) "Outbound";;
  mret (Some tt, None).

(** The transport hands each decoded inbound action to its handler and
    sends back the confirmation the handler returns. *)
Definition confirm {A} (f : A → Confirmation) (r : option A * option error)
    : option Confirmation * option error :=
  (f <$> r.1, r.2).

Definition handle (chargePointID : string) (req : Request)
    : M (option Confirmation * option error) :=
  match req with
  | ReqBootNotification r =>
      confirm ConfBootNotification <$> OnBootNotification chargePointID r
  | ReqHeartbeat =>
      confirm ConfHeartbeat <$> OnHeartbeat chargePointID
  | ReqStatusNotification r =>
      confirm (λ _, ConfStatusNotification) <$> OnStatusNotification chargePointID r
  | ReqMeterValues r =>
      confirm (λ _, ConfMeterValues) <$> OnMeterValues chargePointID r
  | ReqStartTransaction r =>
      confirm ConfStartTransaction <$> OnStartTransaction chargePointID r
  | ReqStopTransaction r =>
      confirm (λ _, ConfStopTransaction) <$> OnStopTransaction chargePointID r
  | ReqAuthorize idTag =>
      confirm ConfAuthorize <$> OnAuthorize chargePointID idTag
  | ReqDataTransfer r =>
      confirm ConfDataTransfer <$> OnDataTransfer chargePointID r
  | ReqDiagnosticsStatusNotification st =>
      confirm (λ _, ConfDiagnosticsStatusNotification)
        <$> OnDiagnosticsStatusNotification chargePointID st
  | ReqFirmwareStatusNotification st =>
      confirm (λ _, ConfFirmwareStatusNotification)
        <$> OnFirmwareStatusNotification chargePointID st
  end.

(** What the transport delivers to the central system, one event at a
    time: connection lifecycle notifications and inbound actions. *)
Inductive Event : Type :=
| Connect (id : string)
| Disconnect (id : string)
| Inbound (id : string) (req : Request).

Definition deliver (ev : Event) : M (option Confirmation) :=
  match ev with
  | Connect id => handleNewChargePoint id;; mret None
  | Disconnect id => handleChargePointDisconnected id;; mret None
  | Inbound id req => r ← handle id req; mret r.1
  end.

Fixpoint deliver_all (evs : list Event) : M (list (option Confirmation)) :=
  match evs with
  | [] => mret []
  | ev :: evs' => c ← deliver ev; cs ← deliver_all evs'; mret (c :: cs)
  end.
End handlers.
End ocpp.
End ocpp.

(** *** Concurrent calls of [generateTransactionID]

    Each device connection is served by its own goroutine and
    [lastTransactionID] is a plain package variable, so the reads and writes
    of concurrent calls interleave.  One call makes three accesses:
    [lastTransactionID++] reads the variable and then writes the sum, and
    [return lastTransactionID] reads it again. *)

Module race.
Inductive pc : Type :=
| Enter                    (* before lastTransactionID++ *)
| Loaded (tmp : Z)         (* the variable was read *)
| Stored                   (* tmp + 1 was written *)
| Returned (id : Z).       (* the variable was read again and returned *)

Definition access (g : Z) (p : pc) : Z * pc :=
  match p with
  | Enter => (g, Loaded g)
  | Loaded tmp => (wrap_int (tmp + 1), Stored)
  | Stored => (g, Returned g)
  | Returned id => (g, Returned id)
  end.

Record State : Type := mk {
  shared : Z;                (* lastTransactionID *)
  goroutines : list pc }.    (* one entry per StartTransaction in flight *)

(** Goroutine [i] makes its next access. *)
Definition step (i : nat) (s : State) : State :=
  match goroutines s !! i with
  | Some p => let (g, p') := access (shared s) p in mk g (<[i := p']> (goroutines s))
  | None => s
  end.

Definition run (schedule : list nat) (s : State) : State :=
  fold_left (λ s i, step i s) schedule s.

Definition start (g : Z) (n : nat) : State := mk g (replicate n Enter).

Definition result (p : pc) : option Z :=
  match p with Returned id => Some id | _ => None end.

Definition results (s : State) : list (option Z) := result <$> goroutines s.

(** The schedule that serializes [n] calls: each goroutine makes its three
    accesses before the next one starts. *)
Definition serial (n : nat) : list nat := flat_map (λ i, [i; i; i]) (seq 0 n).
End race.

(** ** Package service: the outbound commands *)

Module service.
(** The request an outbound call carries. *)
Inductive Command : Type :=
| CmdReset (resetType : string)
| CmdChangeAvailability (connectorId : Z) (availabilityType : string)
| CmdUnlockConnector (connectorId : Z)
| CmdRemoteStartTransaction (idTag : string) (connectorId : option Z)
| CmdRemoteStopTransaction (transactionId : Z)
| CmdTriggerMessage (requestedMessage : string) (connectorId : option Z)
| CmdGetDiagnostics (location : string) (startTime stopTime : option Time)
| CmdUpdateFirmware (location : string) (retrieveDate : Time)
| CmdClearCache
| CmdGetConfiguration (keys : list string)
| CmdChangeConfiguration (key value : string).

Definition ResetTypeHard : string := "Hard".
Definition ResetTypeSoft : string := "Soft".
Definition AvailabilityTypeOperative : string := "Operative".
Definition AvailabilityTypeInoperative : string := "Inoperative".
Definition HeartbeatFeatureName : string := "Heartbeat".
Definition StatusNotificationFeatureName : string := "StatusNotification".

(** The continuation a method hands to the transport: called with the
    error of the call, nil when a confirmation arrived, it logs. *)
Definition Callback : Type := option error → M unit.

Definition callback (failed : string) : Callback :=
  λ err, match err with
         | Some e => logrus_Error failed e
         | None => mret tt
         end.

(** A call that reached the transport: the target device and the request. *)
Definition Sent : Type := (string * Command)%type.

Section service.
(** [s.centralSystem.OcppServer]: the state of the transport and its
    outbound call, which returns the error it reports synchronously. *)
Context {T : Type}.
Variable OcppServer : string → Command → Callback → T → T * option error.

(** A method runs on the transport's state and on the record of the
    calls made to the transport so far. *)
Definition Svc (A : Type) : Type := T * list Sent → (T * list Sent) * A.

Definition call (chargePointID : string) (cmd : Command) (cb : Callback)
    : Svc (option error) :=
  λ s, let (t', r) := OcppServer chargePointID cmd cb s.1 in
       ((t', s.2 ++ [(chargePointID, cmd)]), r).

Definition fail (e : error) : Svc (option error) := λ s, (s, Some e).

Definition ResetChargePoint (chargePointID resetType : string) : Svc (option error) :=
  if String.eqb resetType "Hard" then
    call chargePointID (CmdReset ResetTypeHard) (callback "Reset request failed")
  else if String.eqb resetType "Soft" then
    call chargePointID (CmdReset ResetTypeSoft) (callback "Reset request failed")
  else fail (Errorf "invalid reset type: %s" resetType).

Definition ChangeAvailability (chargePointID : string) (connectorID : Z)
    (availabilityType : string) : Svc (option error) :=
  if String.eqb availabilityType "Operative" then
    call chargePointID (CmdChangeAvailability connectorID AvailabilityTypeOperative)
      (callback "Change availability request failed")
  else if String.eqb availabilityType "Inoperative" then
    call chargePointID (CmdChangeAvailability connectorID AvailabilityTypeInoperative)
      (callback "Change availability request failed")
  else fail (Errorf "invalid availability type: %s" availabilityType).

Definition UnlockConnector (chargePointID : string) (connectorID : Z) : Svc (option error) :=
  call chargePointID (CmdUnlockConnector connectorID)
    (callback "Unlock connector request failed").

(** The request built first (connector id only when positive) is not the
    one sent: the option passed to the transport sets the connector id
    whatever its value. *)
Definition RemoteStartTransaction (chargePointID : string) (connectorID : Z)
    (idTag : string) : Svc (option error) :=
  call chargePointID (CmdRemoteStartTransaction idTag (Some connectorID))
    (callback "Remote start transaction request failed").

Definition RemoteStopTransaction (chargePointID : string) (transactionID : Z)
    : Svc (option error) :=
  call chargePointID (CmdRemoteStopTransaction transactionID)
    (callback "Remote stop transaction request failed").

Definition TriggerHeartbeat (chargePointID : string) : Svc (option error) :=
  call chargePointID (CmdTriggerMessage HeartbeatFeatureName None)
    (callback "Trigger heartbeat request failed").

Definition TriggerStatusNotification (chargePointID : string) (connectorID : Z)
    : Svc (option error) :=
  call chargePointID
    (CmdTriggerMessage StatusNotificationFeatureName
       (if 0 <? connectorID then Some connectorID else None))
    (callback "Trigger status notification request failed").

Definition GetDiagnostics (chargePointID location : string) (startTime stopTime : Time)
    : Svc (option error) :=
  call chargePointID
    (CmdGetDiagnostics location
       (if IsZero startTime then None else Some startTime)
       (if IsZero stopTime then None else Some stopTime))
    (callback "Get diagnostics request failed").

Definition UpdateFirmware (chargePointID location : string) (retrieveDate : Time)
    : Svc (option error) :=
  call chargePointID (CmdUpdateFirmware location retrieveDate)
    (callback "Update firmware request failed").

Definition ClearCache (chargePointID : string) : Svc (option error) :=
  call chargePointID CmdClearCache (callback "Clear cache request failed").

Definition GetConfiguration (chargePointID : string) (keys : list string)
    : Svc (option error) :=
  call chargePointID (CmdGetConfiguration keys)
    (callback "Get configuration request failed").

Definition ChangeConfiguration (chargePointID key value : string) : Svc (option error) :=
  call chargePointID (CmdChangeConfiguration key value)
    (callback "Change configuration request failed").

(** The command paths of the service, one per method. *)
Inductive Invocation : Type :=
| InvReset (resetType : string)
| InvChangeAvailability (connectorID : Z) (availabilityType : string)
| InvUnlockConnector (connectorID : Z)
| InvRemoteStartTransaction (connectorID : Z) (idTag : string)
| InvRemoteStopTransaction (transactionID : Z)
| InvTriggerHeartbeat
| InvTriggerStatusNotification (connectorID : Z)
| InvGetDiagnostics (location : string) (startTime stopTime : Time)
| InvUpdateFirmware (location : string) (retrieveDate : Time)
| InvClearCache
| InvGetConfiguration (keys : list string)
| InvChangeConfiguration (key value : string).

Definition invoke (chargePointID : string) (inv : Invocation) : Svc (option error) :=
  match inv with
  | InvReset rt => ResetChargePoint chargePointID rt
  | InvChangeAvailability c a => ChangeAvailability chargePointID c a
  | InvUnlockConnector c => UnlockConnector chargePointID c
  | InvRemoteStartTransaction c tag => RemoteStartTransaction chargePointID c tag
  | InvRemoteStopTransaction tx => RemoteStopTransaction chargePointID tx
  | InvTriggerHeartbeat => TriggerHeartbeat chargePointID
  | InvTriggerStatusNotification c => TriggerStatusNotification chargePointID c
  | InvGetDiagnostics l a b => GetDiagnostics chargePointID l a b
  | InvUpdateFirmware l d => UpdateFirmware chargePointID l d
  | InvClearCache => ClearCache chargePointID
  | InvGetConfiguration ks => GetConfiguration chargePointID ks
  | InvChangeConfiguration k v => ChangeConfiguration chargePointID k v
  end.
End service.

(** The arguments a method checks itself: the reset type and the
    availability type. *)
Definition valid_argument (inv : Invocation) : bool :=
  match inv with
  | InvReset rt => String.eqb rt "Hard" || String.eqb rt "Soft"
  | InvChangeAvailability _ a => String.eqb a "Operative" || String.eqb a "Inoperative"
  | _ => true
  end.

(** The request a command path sends when its argument is valid. *)
Definition request_of (inv : Invocation) : Command :=
  match inv with
  | InvReset rt => CmdReset rt
  | InvChangeAvailability c a => CmdChangeAvailability c a
  | InvUnlockConnector c => CmdUnlockConnector c
  | InvRemoteStartTransaction c tag => CmdRemoteStartTransaction tag (Some c)
  | InvRemoteStopTransaction tx => CmdRemoteStopTransaction tx
  | InvTriggerHeartbeat => CmdTriggerMessage "Heartbeat" None
  | InvTriggerStatusNotification c =>
      CmdTriggerMessage "StatusNotification" (if 0 <? c then Some c else None)
  | InvGetDiagnostics l a b =>
      CmdGetDiagnostics l (if IsZero a then None else Some a)
        (if IsZero b then None else Some b)
  | InvUpdateFirmware l d => CmdUpdateFirmware l d
  | InvClearCache => CmdClearCache
  | InvGetConfiguration ks => CmdGetConfiguration ks
  | InvChangeConfiguration k v => CmdChangeConfiguration k v
  end.

(** Modelled from the spec: the Transport of section 6, which the
    repository takes from the ocpp-go library: a directory of the
    connected devices and an outbound call that fails at once when the
    target is not in the directory and otherwise accepts the call, to
    confirm it to the continuation later. *)
Record Transport : Type := mkTransport {
  directory : list string;
  outstanding : list (string * Command * Callback) }.

Definition transport_call (chargePointID : string) (cmd : Command) (cb : Callback)
    (t : Transport) : Transport * option error :=
  if existsb (String.eqb chargePointID) (directory t)
  then (mkTransport (directory t) (outstanding t ++ [(chargePointID, cmd, cb)]), None)
  else (t, Some (ErrTransport "charge point is not connected")).

(** Modelled from the spec as well (sections 4.2 and 6): the transport
    confirms an outstanding call, the [k]-th, to its continuation with the
    outcome of the call: nil when the confirmation of the device arrived,
    the error when the call failed or timed out.  The call is outstanding no
    more. *)
Definition transport_complete (k : nat) (outcome : option error) (t : Transport)
    : Transport * M unit :=
  match outstanding t !! k with
  | Some (_, _, cb) => (mkTransport (directory t) (delete k (outstanding t)), cb outcome)
  | None => (t, mret tt)
  end.

(** The queries of the service are those of the store. *)
Definition GetChargePoints : M (error + list ChargePoint.t) := db.GetAllChargePoints.

Definition GetChargePoint (id : string) : M (error + ChargePoint.t) := db.GetChargePoint id.

Definition GetConnectors (chargePointID : string) : M (error + list Connector.t) :=
  db.GetConnectors chargePointID.

Definition GetTransaction (id : Z) : M (error + Transaction.t) := db.GetTransaction id.
End service.

(** ** strconv and time

    [strconv.Atoi]: the integer a string denotes, or the reason it denotes
    none.  [time.Parse(time.RFC3339, s)]: the instant, or nothing when the
    string is not in the layout. *)

Module strconv.
Inductive NumError : Type := ErrSyntax | ErrRange.
End strconv.

Class Strconv : Type := {
  Atoi : string → strconv.NumError + Z;
  time_Parse_RFC3339 : string → option Time }.

(** ** Package config *)

Module config.
Record t : Type := mk {
  ServerPort : Z;
  APIPort : Z;
  OCPPPath : string;
  DBHost : string;
  DBPort : Z;
  DBUser : string;
  DBPassword : string;
  DBName : string;
  DBSSLMode : string;
  HeartbeatInterval : Z;
  LogLevel : string }.

(** [fmt.Errorf(format, err)] for the error of an [Atoi] of [num]. *)
Inductive LoadError : Type :=
| Errorf (format : string) (num : string) (err : strconv.NumError).

(** The environment of the process, after [godotenv.Load] has added the
    variables of the .env file: [os.LookupEnv] is a lookup in it. *)
Definition Env : Type := gmap string string.

Definition getEnv (env : Env) (key fallback : string) : string :=
  match env !! key with
  | Some value => value
  | None => fallback
  end.

Section config.
Context {SC : Strconv}.

Definition LoadConfig (env : Env) : LoadError + t :=
  match Atoi (getEnv env "SERVER_PORT" "8887") with
  | inl err => inl (Errorf "invalid SERVER_PORT: %v" (getEnv env "SERVER_PORT" "8887") err)
  | inr serverPort =>
  match Atoi (getEnv env "API_PORT" "8888") with
  | inl err => inl (Errorf "invalid API_PORT: %v" (getEnv env "API_PORT" "8888") err)
  | inr apiPort =>
  match Atoi (getEnv env "DB_PORT" "5432") with
  | inl err => inl (Errorf "invalid DB_PORT: %v" (getEnv env "DB_PORT" "5432") err)
  | inr dbPort =>
  match Atoi (getEnv env "HEARTBEAT_INTERVAL" "600") with
  | inl err =>
      inl (Errorf "invalid HEARTBEAT_INTERVAL: %v" (getEnv env "HEARTBEAT_INTERVAL" "600") err)
  | inr heartbeatInterval =>
      inr (mk serverPort apiPort (getEnv env "OCPP_PATH" "/ocpp")
             (getEnv env "DB_HOST" "localhost") dbPort
             (getEnv env "DB_USER" "postgres") (getEnv env "DB_PASSWORD" "postgres")
             (getEnv env "DB_NAME" "cpms") (getEnv env "DB_SSL_MODE" "disable")
             heartbeatInterval (getEnv env "LOG_LEVEL" "info"))
  end end end end.
End config.

(** The fields the central system reads through its [*config.Config]. *)
Definition central_system (c : t) : Config :=
  mkConfig (ServerPort c) (OCPPPath c) (HeartbeatInterval c).
End config.

(** ** Package handlers: the REST API *)

Module handlers.
Definition StatusOK : Z := 200.
Definition StatusBadRequest : Z := 400.
Definition StatusNotFound : Z := 404.
Definition StatusInternalServerError : Z := 500.

(** What a response carries in its [Data interface{}]. *)
Inductive Data : Type :=
| DataChargePoints (chargePoints : list ChargePoint.t)
| DataChargePoint (chargePoint : ChargePoint.t)
| DataConnectors (connectors : list Connector.t)
| DataTransaction (transaction : Transaction.t).

Module Response.
Record t : Type := mk { Success : bool; Message : string; Data : option Data }.
End Response.

Module ErrorResponse.
Record t : Type := mk { Success : bool; Error : string }.
End ErrorResponse.

(** What a handler leaves in its [http.ResponseWriter]: the Content-Type
    header, the status code and the value it encodes as the body. *)
Inductive Body : Type :=
| BodyResponse (response : Response.t)
| BodyErrorResponse (response : ErrorResponse.t).

Record HTTPResponse : Type := mkHTTPResponse {
  ContentType : string;
  StatusCode : Z;
  ResponseBody : Body }.

Definition sendResponse (response : Response.t) : HTTPResponse :=
  mkHTTPResponse "application/json" StatusOK (BodyResponse response).

Definition sendErrorResponse (message : string) (statusCode : Z) : HTTPResponse :=
  mkHTTPResponse "application/json" statusCode
    (BodyErrorResponse (ErrorResponse.mk false message)).

(** What a handler reads of its [*http.Request]: the URL parameters of the
    route ([chi.URLParam]) and the body. *)
Record HTTPRequest : Type := mkHTTPRequest {
  URLParam : string → string;
  RequestBody : string }.

(** The structs the handlers decode the body into. *)
Module ResetBody.
Record t : Type := mk { Type_ : string }.
End ResetBody.

Module ChangeAvailabilityBody.
Record t : Type := mk { ConnectorID : Z; Type_ : string }.
End ChangeAvailabilityBody.

Module UnlockConnectorBody.
Record t : Type := mk { ConnectorID : Z }.
End UnlockConnectorBody.

Module RemoteStartTransactionBody.
Record t : Type := mk { ConnectorID : Z; IdTag : string }.
End RemoteStartTransactionBody.

Module RemoteStopTransactionBody.
Record t : Type := mk { TransactionID : Z }.
End RemoteStopTransactionBody.

Module GetDiagnosticsBody.
Record t : Type := mk { Location : string; StartTime : string; StopTime : string }.
End GetDiagnosticsBody.

Module UpdateFirmwareBody.
Record t : Type := mk { Location : string; RetrieveDate : string }.
End UpdateFirmwareBody.

Module GetConfigurationBody.
Record t : Type := mk { Keys : list string }.
End GetConfigurationBody.

Module ChangeConfigurationBody.
Record t : Type := mk { Key : string; Value : string }.
End ChangeConfigurationBody.

(** [json.NewDecoder(r.Body).Decode(&req)] for each of the structs: the
    struct decoded, or nothing when the decoder returns an error. *)
Class Decoder : Type := {
  Decode_Reset : string → option ResetBody.t;
  Decode_ChangeAvailability : string → option ChangeAvailabilityBody.t;
  Decode_UnlockConnector : string → option UnlockConnectorBody.t;
  Decode_RemoteStartTransaction : string → option RemoteStartTransactionBody.t;
  Decode_RemoteStopTransaction : string → option RemoteStopTransactionBody.t;
  Decode_GetDiagnostics : string → option GetDiagnosticsBody.t;
  Decode_UpdateFirmware : string → option UpdateFirmwareBody.t;
  Decode_GetConfiguration : string → option GetConfigurationBody.t;
  Decode_ChangeConfiguration : string → option ChangeConfigurationBody.t }.

(** A store method's [(pointer, error)] as the handler tests it. *)
Definition pointer_and_error {A} (r : error + A) : option A * option error :=
  match r with
  | inl err => (None, Some err)
  | inr a => (Some a, None)
  end.

Section handlers.
Context {T : Type} {SC : Strconv} {DC : Decoder}.
Variable OcppServer : string → service.Command → service.Callback → T → T * option error.

(** A handler runs on the state of the process and on that of the
    transport, with the record of the calls made to it. *)
Definition State : Type := (World * (T * list service.Sent))%type.

Definition Api (A : Type) : Type := State → State * A.

#[global] Instance Api_ret : MRet Api := λ A a s, (s, a).
#[global] Instance Api_bind : MBind Api :=
  λ A B k m s, let (s', a) := m s in k a s'.

Definition on_process {A} (m : M A) : Api A :=
  λ s, let (w', a) := m s.1 in ((w', s.2), a).

Definition on_transport {A} (m : service.Svc A) : Api A :=
  λ s, let (t', a) := m s.2 in ((s.1, t'), a).

(** The end of every command handler:
    [if err := h.cpms.X(...); err != nil { logrus...Error(failed);
    sendErrorResponse(w, failed, 500); return }
    sendResponse(w, Response{Success: true, Message: sent})]. *)
Definition command (failed sent : string) (method : service.Svc (option error))
    : Api HTTPResponse :=
  err ← on_transport method;
  match err with
  | Some e =>
      on_process (logrus_Error failed e);;
      mret (sendErrorResponse failed StatusInternalServerError)
  | None => mret (sendResponse (Response.mk true sent None))
  end.

Definition GetChargePoints (r : HTTPRequest) : Api HTTPResponse :=
  res ← on_process service.GetChargePoints;
  match res with
  | inl err =>
      on_process (logrus_Error "Failed to get charge points" err);;
      mret (sendErrorResponse "Failed to get charge points" StatusInternalServerError)
  | inr chargePoints =>
      mret (sendResponse (Response.mk true "" (Some (DataChargePoints chargePoints))))
  end.

Definition GetChargePoint (r : HTTPRequest) : Api HTTPResponse :=
  let id := URLParam r "id" in
  if String.eqb id "" then
    mret (sendErrorResponse "Charge point ID is required" StatusBadRequest)
  else
    res ← on_process (service.GetChargePoint id);
    match pointer_and_error res with
    | (_, Some err) =>
        on_process (logrus_Error "Failed to get charge point" err);;
        mret (sendErrorResponse "Failed to get charge point" StatusInternalServerError)
    | (None, None) => mret (sendErrorResponse "Charge point not found" StatusNotFound)
    | (Some chargePoint, None) =>
        mret (sendResponse (Response.mk true "" (Some (DataChargePoint chargePoint))))
    end.

Definition GetConnectors (r : HTTPRequest) : Api HTTPResponse :=
  let id := URLParam r "id" in
  if String.eqb id "" then
    mret (sendErrorResponse "Charge point ID is required" StatusBadRequest)
  else
    res ← on_process (service.GetConnectors id);
    match res with
    | inl err =>
        on_process (logrus_Error "Failed to get connectors" err);;
        mret (sendErrorResponse "Failed to get connectors" StatusInternalServerError)
    | inr connectors =>
        mret (sendResponse (Response.mk true "" (Some (DataConnectors connectors))))
    end.

Definition Reset (r : HTTPRequest) : Api HTTPResponse :=
  let id := URLParam r "id" in
  if String.eqb id "" then
    mret (sendErrorResponse "Charge point ID is required" StatusBadRequest)
  else match Decode_Reset (RequestBody r) with
  | None => mret (sendErrorResponse "Invalid request body" StatusBadRequest)
  | Some req =>
      if negb (String.eqb (ResetBody.Type_ req) "Hard")
         && negb (String.eqb (ResetBody.Type_ req) "Soft")
      then mret (sendErrorResponse "Type must be 'Hard' or 'Soft'" StatusBadRequest)
      else command "Failed to reset charge point" "Reset command sent"
             (service.ResetChargePoint OcppServer id (ResetBody.Type_ req))
  end.

Definition ChangeAvailability (r : HTTPRequest) : Api HTTPResponse :=
  let id := URLParam r "id" in
  if String.eqb id "" then
    mret (sendErrorResponse "Charge point ID is required" StatusBadRequest)
  else match Decode_ChangeAvailability (RequestBody r) with
  | None => mret (sendErrorResponse "Invalid request body" StatusBadRequest)
  | Some req =>
      if ChangeAvailabilityBody.ConnectorID req <? 0 then
        mret (sendErrorResponse "ConnectorID must be non-negative" StatusBadRequest)
      else if negb (String.eqb (ChangeAvailabilityBody.Type_ req) "Operative")
              && negb (String.eqb (ChangeAvailabilityBody.Type_ req) "Inoperative")
      then mret (sendErrorResponse "Type must be 'Operative' or 'Inoperative'"
                   StatusBadRequest)
      else command "Failed to change availability" "Change availability command sent"
             (service.ChangeAvailability OcppServer id
                (ChangeAvailabilityBody.ConnectorID req) (ChangeAvailabilityBody.Type_ req))
  end.

Definition UnlockConnector (r : HTTPRequest) : Api HTTPResponse :=
  let id := URLParam r "id" in
  if String.eqb id "" then
    mret (sendErrorResponse "Charge point ID is required" StatusBadRequest)
  else match Decode_UnlockConnector (RequestBody r) with
  | None => mret (sendErrorResponse "Invalid request body" StatusBadRequest)
  | Some req =>
      if UnlockConnectorBody.ConnectorID req <=? 0 then
        mret (sendErrorResponse "ConnectorID must be positive" StatusBadRequest)
      else command "Failed to unlock connector" "Unlock connector command sent"
             (service.UnlockConnector OcppServer id (UnlockConnectorBody.ConnectorID req))
  end.

Definition RemoteStartTransaction (r : HTTPRequest) : Api HTTPResponse :=
  let id := URLParam r "id" in
  if String.eqb id "" then
    mret (sendErrorResponse "Charge point ID is required" StatusBadRequest)
  else match Decode_RemoteStartTransaction (RequestBody r) with
  | None => mret (sendErrorResponse "Invalid request body" StatusBadRequest)
  | Some req =>
      if RemoteStartTransactionBody.ConnectorID req <=? 0 then
        mret (sendErrorResponse "ConnectorID must be positive" StatusBadRequest)
      else if String.eqb (RemoteStartTransactionBody.IdTag req) "" then
        mret (sendErrorResponse "IdTag is required" StatusBadRequest)
      else command "Failed to start transaction" "Remote start transaction command sent"
             (service.RemoteStartTransaction OcppServer id
                (RemoteStartTransactionBody.ConnectorID req)
                (RemoteStartTransactionBody.IdTag req))
  end.

Definition RemoteStopTransaction (r : HTTPRequest) : Api HTTPResponse :=
  let id := URLParam r "id" in
  if String.eqb id "" then
    mret (sendErrorResponse "Charge point ID is required" StatusBadRequest)
  else match Decode_RemoteStopTransaction (RequestBody r) with
  | None => mret (sendErrorResponse "Invalid request body" StatusBadRequest)
  | Some req =>
      if RemoteStopTransactionBody.TransactionID req <=? 0 then
        mret (sendErrorResponse "TransactionID must be positive" StatusBadRequest)
      else command "Failed to stop transaction" "Remote stop transaction command sent"
             (service.RemoteStopTransaction OcppServer id
                (RemoteStopTransactionBody.TransactionID req))
  end.

Definition TriggerHeartbeat (r : HTTPRequest) : Api HTTPResponse :=
  let id := URLParam r "id" in
  if String.eqb id "" then
    mret (sendErrorResponse "Charge point ID is required" StatusBadRequest)
  else command "Failed to trigger heartbeat" "Trigger heartbeat command sent"
         (service.TriggerHeartbeat OcppServer id).

Definition GetTransaction (r : HTTPRequest) : Api HTTPResponse :=
  let idStr := URLParam r "id" in
  if String.eqb idStr "" then
    mret (sendErrorResponse "Transaction ID is required" StatusBadRequest)
  else match Atoi idStr with
  | inl _ => mret (sendErrorResponse "Invalid transaction ID" StatusBadRequest)
  | inr id =>
      res ← on_process (service.GetTransaction id);
      match pointer_and_error res with
      | (_, Some err) =>
          on_process (logrus_Error "Failed to get transaction" err);;
          mret (sendErrorResponse "Failed to get transaction" StatusInternalServerError)
      | (None, None) => mret (sendErrorResponse "Transaction not found" StatusNotFound)
      | (Some transaction, None) =>
          mret (sendResponse (Response.mk true "" (Some (DataTransaction transaction))))
      end
  end.

Definition GetDiagnostics (r : HTTPRequest) : Api HTTPResponse :=
  let id := URLParam r "id" in
  if String.eqb id "" then
    mret (sendErrorResponse "Charge point ID is required" StatusBadRequest)
  else match Decode_GetDiagnostics (RequestBody r) with
  | None => mret (sendErrorResponse "Invalid request body" StatusBadRequest)
  | Some req =>
      if String.eqb (GetDiagnosticsBody.Location req) "" then
        mret (sendErrorResponse "Location is required" StatusBadRequest)
      else
        match (if String.eqb (GetDiagnosticsBody.StartTime req) "" then Some time_zero
               else time_Parse_RFC3339 (GetDiagnosticsBody.StartTime req)) with
        | None =>
            mret (sendErrorResponse "Invalid startTime format, use RFC3339" StatusBadRequest)
        | Some startTime =>
            match (if String.eqb (GetDiagnosticsBody.StopTime req) "" then Some time_zero
                   else time_Parse_RFC3339 (GetDiagnosticsBody.StopTime req)) with
            | None =>
                mret (sendErrorResponse "Invalid stopTime format, use RFC3339"
                        StatusBadRequest)
            | Some stopTime =>
                command "Failed to get diagnostics" "Get diagnostics command sent"
                  (service.GetDiagnostics OcppServer id (GetDiagnosticsBody.Location req)
                     startTime stopTime)
            end
        end
  end.

Definition UpdateFirmware (r : HTTPRequest) : Api HTTPResponse :=
  let id := URLParam r "id" in
  if String.eqb id "" then
    mret (sendErrorResponse "Charge point ID is required" StatusBadRequest)
  else match Decode_UpdateFirmware (RequestBody r) with
  | None => mret (sendErrorResponse "Invalid request body" StatusBadRequest)
  | Some req =>
      if String.eqb (UpdateFirmwareBody.Location req) "" then
        mret (sendErrorResponse "Location is required" StatusBadRequest)
      else if String.eqb (UpdateFirmwareBody.RetrieveDate req) "" then
        mret (sendErrorResponse "RetrieveDate is required" StatusBadRequest)
      else match time_Parse_RFC3339 (UpdateFirmwareBody.RetrieveDate req) with
      | None =>
          mret (sendErrorResponse "Invalid retrieveDate format, use RFC3339"
                  StatusBadRequest)
      | Some retrieveDate =>
          command "Failed to update firmware" "Update firmware command sent"
            (service.UpdateFirmware OcppServer id (UpdateFirmwareBody.Location req)
               retrieveDate)
      end
  end.

Definition ClearCache (r : HTTPRequest) : Api HTTPResponse :=
  let id := URLParam r "id" in
  if String.eqb id "" then
    mret (sendErrorResponse "Charge point ID is required" StatusBadRequest)
  else command "Failed to clear cache" "Clear cache command sent"
         (service.ClearCache OcppServer id).

Definition GetConfiguration (r : HTTPRequest) : Api HTTPResponse :=
  let id := URLParam r "id" in
  if String.eqb id "" then
    mret (sendErrorResponse "Charge point ID is required" StatusBadRequest)
  else match Decode_GetConfiguration (RequestBody r) with
  | None => mret (sendErrorResponse "Invalid request body" StatusBadRequest)
  | Some req =>
      command "Failed to get configuration" "Get configuration command sent"
        (service.GetConfiguration OcppServer id (GetConfigurationBody.Keys req))
  end.

Definition ChangeConfiguration (r : HTTPRequest) : Api HTTPResponse :=
  let id := URLParam r "id" in
  if String.eqb id "" then
    mret (sendErrorResponse "Charge point ID is required" StatusBadRequest)
  else match Decode_ChangeConfiguration (RequestBody r) with
  | None => mret (sendErrorResponse "Invalid request body" StatusBadRequest)
  | Some req =>
      if String.eqb (ChangeConfigurationBody.Key req) "" then
        mret (sendErrorResponse "Key is required" StatusBadRequest)
      else command "Failed to change configuration" "Change configuration command sent"
             (service.ChangeConfiguration OcppServer id (ChangeConfigurationBody.Key req)
                (ChangeConfigurationBody.Value req))
  end.

(** The routes of the API (router.go) that send a command to a charge
    point, each with its handler. *)
Inductive CommandRoute : Type :=
| POST_reset
| POST_availability
| POST_unlock
| POST_starttransaction
| POST_stoptransaction
| POST_heartbeat
| POST_diagnostics
| POST_firmware
| POST_clearcache
| POST_configuration
| PUT_configuration.

Definition command_handler (route : CommandRoute) : HTTPRequest → Api HTTPResponse :=
  match route with
  | POST_reset => Reset
  | POST_availability => ChangeAvailability
  | POST_unlock => UnlockConnector
  | POST_starttransaction => RemoteStartTransaction
  | POST_stoptransaction => RemoteStopTransaction
  | POST_heartbeat => TriggerHeartbeat
  | POST_diagnostics => GetDiagnostics
  | POST_firmware => UpdateFirmware
  | POST_clearcache => ClearCache
  | POST_configuration => GetConfiguration
  | PUT_configuration => ChangeConfiguration
  end.
End handlers.
End handlers.

(** ** Running a computation *)

Definition exec {A} (m : M A) (w : World) : World := (m w).1.
Definition eval {A} (m : M A) (w : World) : A := (m w).2.

(** A projection of the state that a computation leaves as it found it. *)
Definition preserves {A B} (f : World → B) (m : M A) : Prop :=
  ∀ w, f (exec m w) = f w.

(** ** What the calls leave behind *)

(** The database after a call that the database rejects ([rejected]) or
    runs, and the error the call returns. *)
Definition Exec_db (rejected : bool) (stmt : DB → error + DB) (d : DB) : DB :=
  if rejected then d else match stmt d with inr d' => d' | inl _ => d end.

Definition Exec_err (rejected : bool) (stmt : DB → error + DB) (d : DB) : option error :=
  if rejected then Some ErrDatabase
  else match stmt d with inl e => Some e | inr _ => None end.

(** The entries [log_if_error] adds to the error log. *)
Definition errs (msg : string) (err : option error) : list LogEntry :=
  match err with Some e => [(msg, e)] | None => [] end.

(** The JSON text [logMessage] computes for a payload, and what it logs when
    the payload does not marshal. *)
Definition payloadJSON `{Runtime} (p : Payload) : string :=
  match json_Marshal p with Some b => b | None => "{}" end.

Definition marshal_errs `{Runtime} (p : Payload) : list LogEntry :=
  match json_Marshal p with
  | Some _ => []
  | None => [("Failed to marshal OCPP message payload", ErrMarshal)]
  end.

(** The record the connection handler saves: built from the outcome of its
    read, then stamped by the store. *)
Definition connect_record (id : string) (w : World) : ChargePoint.t :=
  db.stamp (now w (S (tick w)))
    match eval (db.GetChargePoint id) w with
    | inl _ =>
        ChargePoint.mk id "Unknown" "Unknown" "" "" time_zero "Pending"
          (now w (tick w)) true time_zero time_zero
    | inr cp =>
        ChargePoint.set_ConnectedSince (now w (tick w)) (ChargePoint.set_IsConnected true cp)
    end.

Definition append_meter_values (rows : list MeterValueRow.t) (d : DB) : DB :=
  set_meter_values (λ l, l ++ rows) d.

(** The error of a [SaveMeterValue] call: the database rejects the call, or
    runs the INSERT, which fails when the row refers to a row that is not on
    file. *)
Definition save_err (rejected references : bool) : option error :=
  if rejected then Some ErrDatabase
  else if references then None else Some ErrForeignKey.

(** The rows a loop of [SaveMeterValue] calls appends to the database [d]:
    the call for a value reads the clock and is the next database call; the
    row is appended unless the call fails. *)
Fixpoint saved_rows (d : DB) (n : nat → Time) (t : nat) (f : nat → bool) (c : nat)
    (mvs : list MeterValue.t) : list MeterValueRow.t :=
  match mvs with
  | [] => []
  | mv :: mvs' =>
      (if f c || negb (db.meter_value_references mv d) then []
       else [db.meter_value_row mv (n t)])
      ++ saved_rows d n (S t) f (S c) mvs'
  end.

(** The entries the loop logs, one per call that fails. *)
Fixpoint save_errs (d : DB) (msg : string) (f : nat → bool) (c : nat)
    (mvs : list MeterValue.t) : list LogEntry :=
  match mvs with
  | [] => []
  | mv :: mvs' =>
      errs msg (save_err (f c) (db.meter_value_references mv d))
      ++ save_errs d msg f (S c) mvs'
  end.

(** The errors a log holds under a message, oldest first. *)
Definition logged (msg : string) (log : list LogEntry) : list error :=
  snd <$> filter (λ entry, entry.1 = msg) log.

(** ** The vocabulary of the specification *)

(** The stored [connectedSince] of no charge point changes from [m] to [m'],
    except where the charge point goes from not connected to connected; no
    row is removed. *)
Definition connectedSince_kept (m m' : gmap string ChargePoint.t) : Prop :=
  ∀ id row, m !! id = Some row →
    ∃ row', m' !! id = Some row'
      ∧ (ChargePoint.ConnectedSince row' ≠ ChargePoint.ConnectedSince row →
         ChargePoint.IsConnected row = false ∧ ChargePoint.IsConnected row' = true).

(** The samples of a MeterValues request, in order: every sample of every
    sample set, with the set it belongs to; and the row to append for a
    sample: measurand and unit with their defaults when absent, the value
    parsed from the sample or 0.0 when it does not parse. *)
Definition samples (sets : list SampleSet.t) : list (SampleSet.t * SampledValue.t) :=
  flat_map (λ set, map (pair set) (SampleSet.SampledValue set)) sets.

Definition expected_row `{Runtime} (chargePointID : string) (request : MeterValuesRequest.t)
    (s : SampleSet.t * SampledValue.t) (created : Time) : MeterValueRow.t :=
  MeterValueRow.mk
    (Some (default 0 (MeterValuesRequest.TransactionId request)))
    chargePointID
    (MeterValuesRequest.ConnectorId request)
    (SampleSet.Timestamp s.1)
    (match Sscanf_f (SampledValue.Value s.2) with Some v => v | None => 0%float end)
    (if decide (SampledValue.Unit s.2 = "") then "Wh" else SampledValue.Unit s.2)
    (if decide (SampledValue.Measurand s.2 = "")
     then "Energy.Active.Import.Register" else SampledValue.Measurand s.2)
    created.

(** What the rows of a MeterValues request refer to is on file: the
    transaction the request names, or transaction 0 when it names none, the
    charge point, and the connector of the request. *)
Definition meter_values_references (chargePointID : string) (request : MeterValuesRequest.t)
    (d : DB) : bool :=
  on_file (transactions d) (default 0 (MeterValuesRequest.TransactionId request))
  && on_file (charge_points d) chargePointID
  && on_file (connectors d) (chargePointID, MeterValuesRequest.ConnectorId request).

(** The same for the transaction data of a StopTransaction request: its
    transaction, the charge point, and connector 0 of the charge point. *)
Definition transaction_data_references (chargePointID : string)
    (request : StopTransactionRequest.t) (d : DB) : bool :=
  on_file (transactions d) (StopTransactionRequest.TransactionId request)
  && on_file (charge_points d) chargePointID
  && on_file (connectors d) (chargePointID, 0).

(** The deadline of a handler's context passes during its database call
    number [k]: the handler hands the one context it made to each of its
    calls, so that call fails and so do the [n] calls that follow it under
    the same context. *)
Definition deadline_passes (w : World) (k n : nat) : Prop :=
  ∀ j, (k ≤ j ≤ k + n)%nat → faults w j = true.

(** The confirmation each action is answered with: a function of the
    request, the configuration, the transaction counter and the clock only;
    [t] is the number of clock readings made before the handler runs. *)
Definition confirmation_of (config : Config) (req : Request)
    (l : Z) (n : nat → Time) (t : nat) : Confirmation :=
  match req with
  | ReqBootNotification _ =>
      ConfBootNotification
        (BootNotificationConfirmation.mk (n (4 + t)%nat) (HeartbeatInterval config) "Accepted")
  | ReqHeartbeat => ConfHeartbeat (HeartbeatConfirmation.mk (n (2 + t)%nat))
  | ReqStatusNotification _ => ConfStatusNotification
  | ReqMeterValues _ => ConfMeterValues
  | ReqStartTransaction _ =>
      ConfStartTransaction
        (StartTransactionConfirmation.mk (IdTagInfo.mk "Accepted") (wrap_int (l + 1)))
  | ReqStopTransaction _ => ConfStopTransaction
  | ReqAuthorize _ => ConfAuthorize (IdTagInfo.mk "Accepted")
  | ReqDataTransfer _ => ConfDataTransfer "Accepted"
  | ReqDiagnosticsStatusNotification _ => ConfDiagnosticsStatusNotification
  | ReqFirmwareStatusNotification _ => ConfFirmwareStatusNotification
  end.

(** The action name a handler logs its request and confirmation under. *)
Definition action_name (req : Request) : string :=
  match req with
  | ReqBootNotification _ => "BootNotification"
  | ReqHeartbeat => "Heartbeat"
  | ReqStatusNotification _ => "StatusNotification"
  | ReqMeterValues _ => "MeterValues"
  | ReqStartTransaction _ => "StartTransaction"
  | ReqStopTransaction _ => "StopTransaction"
  | ReqAuthorize _ => "Authorize"
  | ReqDataTransfer _ => "DataTransfer"
  | ReqDiagnosticsStatusNotification _ => "DiagnosticsStatusNotification"
  | ReqFirmwareStatusNotification _ => "FirmwareStatusNotification"
  end.

(** The transaction ids a run of events issued, oldest first. *)
Definition issued_ids (confs : list (option Confirmation)) : list Z :=
  omap (λ c, match c with
             | Some (ConfStartTransaction c) => Some (StartTransactionConfirmation.TransactionId c)
             | _ => None
             end) confs.

(** How many of the [k] database calls from the [c]-th on are rejected. *)
Fixpoint rejected (f : nat → bool) (c k : nat) : nat :=
  match k with
  | O => O
  | S k' => (if f c then 1 else 0) + rejected f (S c) k'
  end.

(** A computation logs its persistence failures: it leaves the verdicts of
    the database alone, and it extends the error log by at least one entry
    per database call of its own that the database rejected. *)
Definition logs_failures {A} (m : M A) : Prop :=
  ∀ w, let w' := exec m w in
    faults w' = faults w
    ∧ (calls w ≤ calls w')%nat
    ∧ ∃ entries, errlog w' = errlog w ++ entries
        ∧ (rejected (faults w) (calls w) (calls w' - calls w) ≤ length entries)%nat.

(** A store method: one database call, nothing logged, and an error
    returned when the database rejects the call. *)
Definition store_method (op : M (option error)) : Prop :=
  ∀ w, faults (exec op w) = faults w
    ∧ calls (exec op w) = S (calls w)
    ∧ errlog (exec op w) = errlog w
    ∧ (faults w (calls w) = true → is_Some (eval op w)).

(** ** Invariants of the store and of the transaction counter *)

(** Every record of the first database is on record in the second, with
    the data that is written once: the creation time of a charge point and of
    a connector, and the device, connector, tag, start time, meter start and
    creation time of a transaction; and the audit log and the meter values
    of the second extend those of the first at the end. *)
Definition retains (d d' : DB) : Prop :=
  (∀ id row, charge_points d !! id = Some row →
     ∃ row', charge_points d' !! id = Some row'
       ∧ ChargePoint.CreatedAt row' = ChargePoint.CreatedAt row)
  ∧ (∀ k row, connectors d !! k = Some row →
       ∃ row', connectors d' !! k = Some row'
         ∧ Connector.CreatedAt row' = Connector.CreatedAt row)
  ∧ (∀ id row, transactions d !! id = Some row →
       ∃ row', transactions d' !! id = Some row'
         ∧ TransactionRow.charge_point_id row' = TransactionRow.charge_point_id row
         ∧ TransactionRow.connector_id row' = TransactionRow.connector_id row
         ∧ TransactionRow.id_tag row' = TransactionRow.id_tag row
         ∧ TransactionRow.start_time row' = TransactionRow.start_time row
         ∧ TransactionRow.meter_start row' = TransactionRow.meter_start row
         ∧ TransactionRow.created_at row' = TransactionRow.created_at row)
  ∧ ocpp_messages d `prefix_of` ocpp_messages d'
  ∧ meter_values d `prefix_of` meter_values d'.

(** A computation that leaves a database that retains the one it found. *)
Definition keeps_records {A} (m : M A) : Prop :=
  ∀ w, retains (db w) (db (exec m w)).

(** How many of the events are StartTransaction requests. *)
Definition starts (evs : list ocpp.Event) : nat :=
  length (filter (λ ev, match ev with
                        | ocpp.Inbound _ (ReqStartTransaction _) => true
                        | _ => false
                        end = true) evs).

(** How many of the goroutines have written the counter. *)
Definition stores (ps : list race.pc) : Z :=
  Z.of_nat (length (filter (λ p, match p with
                                 | race.Stored | race.Returned _ => true
                                 | _ => false
                                 end = true) ps)).

(** What holds of the goroutines [ps] and the counter [shared] of a run that
    started at [g]: the counter and every value read from it lie between [g]
    and [g] plus the number of writes made, and above [g] once a write was
    made. *)
Definition within (g : Z) (shared : Z) (ps : list race.pc) : Prop :=
  g ≤ shared ≤ g + stores ps
  ∧ (0 < stores ps → g < shared)
  ∧ Forall (λ p, match p with
                 | race.Loaded tmp => g ≤ tmp ≤ g + stores ps
                 | race.Returned id => g < id ≤ g + stores ps
                 | _ => True
                 end) ps.

(** ** Inputs for examples *)

(** A stand-in for the two library functions in examples: every message
    marshals to an empty object, and a string scans as a number when it is a
    nonempty run of decimal digits. *)
Fixpoint scan_digits (s : string) (acc : Z) : option Z :=
  match s with
  | EmptyString => Some acc
  | String c s' =>
      let n := nat_of_ascii c in
      if (48 <=? n)%nat && (n <=? 57)%nat
      then scan_digits s' (10 * acc + Z.of_nat (n - 48))
      else None
  end.

Definition example_runtime : Runtime := {|
  json_Marshal := λ _, Some "{}";
  Sscanf_f := λ s, match s with
                   | EmptyString => None
                   | _ => (λ z, PrimFloat.of_uint63 (Uint63.of_Z z)) <$> scan_digits s 0
                   end |}.

Definition example_config : Config := mkConfig 8887 "/ocpp" 600.

(** A clock that advances by one second per reading. *)
Definition example_clock (k : nat) : Time := 1700000000 + Z.of_nat k.

(** A fresh process on an empty database that accepts every call. *)
Definition fresh_world : World :=
  mkWorld empty_db 1000 example_clock 0 (λ _, false) 0 [].

(** The charge point CP-1 of vendor Acme, accepted, not connected. *)
Definition acme_charge_point : ChargePoint.t :=
  ChargePoint.mk "CP-1" "Acme" "X1" "SN-1" "1.0" 1690000000 "Accepted" 1690000000 false
    1680000000 1690000000.

(** A process whose database holds CP-1 and whose first database call is
    rejected (the connection to the database was lost, say), the later ones
    being accepted. *)
Definition world_with_acme : World :=
  mkWorld (mkDB {[ "CP-1" := acme_charge_point ]} ∅ ∅ [] []) 1000 example_clock 0
    (λ k, Nat.eqb k 0) 0 [].

(** A process that has CP-1 on file and nothing else, and whose database
    accepts every call. *)
Definition world_with_charge_point : World :=
  mkWorld (mkDB {[ "CP-1" := acme_charge_point ]} ∅ ∅ [] []) 1000 example_clock 0
    (λ _, false) 0 [].

(** The connectors 1 and 2 of CP-1. *)
Definition connector_1 : Connector.t :=
  Connector.mk 1 "CP-1" "Available" "NoError" 1680000100 1690000100.

Definition connector_2 : Connector.t :=
  Connector.mk 2 "CP-1" "Charging" "NoError" 1680000200 1690000200.

(** A process with CP-1 and its two connectors on file and the transaction
    1001 in progress on connector 1. *)
Definition transaction_1001 : TransactionRow.t :=
  TransactionRow.mk 1001 "CP-1" 1 "TAG1" 1700000000 None 100 None "InProgress"
    1700000000 1700000000.

Definition world_with_transaction : World :=
  mkWorld
    (mkDB {[ "CP-1" := acme_charge_point ]}
       {[ ("CP-1", 1) := connector_1; ("CP-1", 2) := connector_2 ]}
       {[ 1001 := transaction_1001 ]} [] [])
    1001 example_clock 0 (λ _, false) 0 [].

Definition stop_1001 : StopTransactionRequest.t :=
  StopTransactionRequest.mk 1001 1700003600 250 [].

(** A MeterValues request without a transaction id: two sample sets, with a
    sample that names its unit and measurand, a sample with neither, and a
    sample whose value is not a number. *)
Definition meter_values_request : MeterValuesRequest.t :=
  MeterValuesRequest.mk 1 None
    [ SampleSet.mk 1700000100
        [ SampledValue.mk "1200" "Power.Active.Import" "W";
          SampledValue.mk "42" "" "" ];
      SampleSet.mk 1700000200
        [ SampledValue.mk "n/a" "" "" ] ].

Definition boot_acme : BootNotificationRequest.t :=
  BootNotificationRequest.mk "Acme" "X1" "SN-1" "1.0".

(** A stand-in for [strconv.Atoi] and [time.Parse] in examples: a nonempty
    run of decimal digits is the number it spells (the instant that many
    seconds after the zero time), anything else is a syntax error. *)
Definition example_strconv : Strconv := {|
  Atoi := λ s, match s with
               | EmptyString => inl strconv.ErrSyntax
               | _ => match scan_digits s 0 with
                      | Some z => inr z
                      | None => inl strconv.ErrSyntax
                      end
               end;
  time_Parse_RFC3339 := λ s, match s with
                             | EmptyString => None
                             | _ => scan_digits s 0
                             end |}.

(** The process of [world_with_transaction] started again: the counter is
    back at its initial value while transaction 1001 is on file. *)
Definition restarted_world : World :=
  mkWorld (db world_with_transaction) ocpp.lastTransactionID_init example_clock 0
    (λ _, false) 0 [].

Definition start_request : StartTransactionRequest.t :=
  StartTransactionRequest.mk 1 "TAG1" 1700000000 100.

Definition status_request : StatusNotificationRequest.t :=
  StatusNotificationRequest.mk 1 "Charging" "NoError".

(** A transaction record as a caller may pass it to the store, with an end
    time and a meter stop the insert does not write. *)
Definition transaction_1002 : Transaction.t :=
  Transaction.mk 1002 "CP-1" 2 "TAG2" 1700000500 1700009999 40 777 "InProgress" 0 0.

Definition globex_charge_point : ChargePoint.t :=
  ChargePoint.mk "CP-2" "Globex" "G2" "SN-2" "2.0" 0 "Pending" 0 true 0 0.

(** A second stop of transaction 1001, a stop whose meter stop is the first
    integer beyond INTEGER, and a stop of a transaction that is not on file,
    with two samples of transaction data. *)
Definition stop_1001_again : StopTransactionRequest.t :=
  StopTransactionRequest.mk 1001 1700007200 300 [].

Definition stop_1001_beyond : StopTransactionRequest.t :=
  StopTransactionRequest.mk 1001 1700003600 (2 ^ 31) [].

Definition stop_4711 : StopTransactionRequest.t :=
  StopTransactionRequest.mk 4711 1700003600 250
    [ SampleSet.mk 1700003500
        [ SampledValue.mk "250" "" ""; SampledValue.mk "16" "Current.Import" "A" ] ].

(** A process that has the connectors 2 and 1 of CP-1 and the connector 1 of
    CP-2 on file, and the charge points CP-1 and CP-2, and no transaction. *)
Definition world_with_connectors : World :=
  mkWorld
    (mkDB {[ "CP-1" := acme_charge_point; "CP-2" := globex_charge_point ]}
       {[ ("CP-1", 2) := connector_2; ("CP-1", 1) := connector_1;
          ("CP-2", 1) := Connector.mk 1 "CP-2" "Faulted" "GroundFailure" 0 0 ]}
       ∅ [] [])
    1000 example_clock 0 (λ _, false) 0 [].

(** A request of the API whose route parameter [id] is the one given, with
    an empty body, and a transport that no call was made to. *)
Definition request_for (id : string) : handlers.HTTPRequest :=
  handlers.mkHTTPRequest (λ key, if String.eqb key "id" then id else "") "".

Definition idle_transport : unit * list service.Sent := (tt, []).

(** Environments: one that sets the heartbeat interval, and one whose
    server port is set but empty. *)
Definition example_env : config.Env := {[ "HEARTBEAT_INTERVAL" := "300" ]}.

Definition empty_port_env : config.Env := {[ "SERVER_PORT" := "" ]}.

(** The process of [world_with_acme] when the deadline of the connection
    handler passes during its read: the read and the save that follows it
    under the same context are rejected. *)
Definition world_with_acme_past_deadline : World :=
  mkWorld (db world_with_acme) 1000 example_clock 0 (λ k, (k <? 2)%nat) 0 [].

(** A process that has on file what meter values can refer to: CP-1, its
    connector 0 (the charge point as a whole) and its connector 1, the
    transaction 1001 and a transaction with the id 0. *)
Definition world_with_references : World :=
  mkWorld
    (mkDB {[ "CP-1" := acme_charge_point ]}
       {[ ("CP-1", 0) := Connector.mk 0 "CP-1" "Available" "NoError" 1680000000 1690000000;
          ("CP-1", 1) := connector_1 ]}
       {[ 0 := TransactionRow.mk 0 "CP-1" 1 "TAG0" 1690000000 None 0 None "InProgress"
                 1690000000 1690000000;
          1001 := transaction_1001 ]}
       [] [])
    1001 example_clock 0 (λ _, false) 0 [].

(** A stop of transaction 1001 with two samples of transaction data. *)
Definition stop_1001_with_data : StopTransactionRequest.t :=
  StopTransactionRequest.mk 1001 1700003600 250
    [ SampleSet.mk 1700003500
        [ SampledValue.mk "250" "" ""; SampledValue.mk "16" "Current.Import" "A" ] ].

(** A fresh process whose database accepts the second call and rejects the
    others, as it does the two audit records around the update of a charge
    point that is not on file. *)
Definition world_rejecting_audit : World :=
  mkWorld empty_db 1000 example_clock 0 (λ k, negb (Nat.eqb k 1)) 0 [].

(** A runtime whose [json.Marshal] and [fmt.Sscanf] always fail. *)
Definition failing_runtime : Runtime := {|
  json_Marshal := λ _, None;
  Sscanf_f := λ _, None |}.

(** * Properties *)

Lemma run_bind {A B} (m : M A) (k : A → M B) w :
  (m ≫= k) w = k (eval m w) (exec m w).
Proof. unfold mbind, M_bind, eval, exec. destruct (m w); reflexivity. Qed.

Lemma exec_bind {A B} (m : M A) (k : A → M B) w :
  exec (m ≫= k) w = exec (k (eval m w)) (exec m w).
Proof. unfold exec at 1. rewrite run_bind. reflexivity. Qed.

Lemma eval_bind {A B} (m : M A) (k : A → M B) w :
  eval (m ≫= k) w = eval (k (eval m w)) (exec m w).
Proof. unfold eval at 1. rewrite run_bind. reflexivity. Qed.

Lemma exec_ret {A} (a : A) w : exec (mret a) w = w.
Proof. reflexivity. Qed.

Lemma eval_ret {A} (a : A) w : eval (mret a) w = a.
Proof. reflexivity. Qed.

Lemma exec_fmap {A B} (f : A → B) (m : M A) w : exec (f <$> m) w = exec m w.
Proof. unfold exec, fmap, M_fmap. destruct (m w); reflexivity. Qed.

Lemma eval_fmap {A B} (f : A → B) (m : M A) w : eval (f <$> m) w = f (eval m w).
Proof. unfold eval, fmap, M_fmap. destruct (m w); reflexivity. Qed.

Lemma preserves_ret {A B} (f : World → B) (a : A) : preserves f (mret a).
Proof. intros w. reflexivity. Qed.

Lemma preserves_bind {A B C} (f : World → C) (m : M A) (k : A → M B) :
  preserves f m → (∀ a, preserves f (k a)) → preserves f (m ≫= k).
Proof. intros Hm Hk w. rewrite exec_bind, Hk, Hm. reflexivity. Qed.

Lemma preserves_fmap {A B C} (f : World → C) (g : A → B) (m : M A) :
  preserves f m → preserves f (g <$> m).
Proof. intros Hm w. rewrite exec_fmap. apply Hm. Qed.

Lemma preserves_for_range {A C} (f : World → C) (l : list A) (body : A → M unit) :
  (∀ x, preserves f (body x)) → preserves f (for_range l body).
Proof.
  intros Hb. induction l as [|x l IH]; simpl.
  - apply preserves_ret.
  - apply preserves_bind; auto.
Qed.

Lemma preserves_time_Now {B} (f : World → B) :
  (∀ w k, f (mkWorld (db w) (lastTransactionID w) (now w) k (faults w) (calls w) (errlog w)) = f w) →
  preserves f time_Now.
Proof. intros H w. apply H. Qed.

Lemma preserves_logrus_Error {B} (f : World → B) msg e :
  (∀ w l, f (mkWorld (db w) (lastTransactionID w) (now w) (tick w) (faults w) (calls w) l) = f w) →
  preserves f (logrus_Error msg e).
Proof. intros H w. apply H. Qed.

Lemma preserves_Exec_db {B} (g : DB → B) stmt :
  (∀ d d', stmt d = inr d' → g d' = g d) →
  preserves (λ w, g (db w)) (Exec stmt).
Proof.
  intros H w. unfold exec, Exec.
  destruct (faults w (calls w)); [reflexivity|].
  destruct (stmt (db w)) eqn:E; [reflexivity|]. cbn. apply H. exact E.
Qed.

Lemma preserves_QueryRow_db {A B} (g : DB → B) (q : DB → option A) :
  preserves (λ w, g (db w)) (QueryRow q).
Proof.
  intros w. unfold exec, QueryRow.
  destruct (faults w (calls w)); [reflexivity|]. destruct (q (db w)); reflexivity.
Qed.

Lemma preserves_Exec {B} (f : World → B) stmt :
  (∀ w d, f (set_db d (next_call w)) = f w) →
  (∀ w, f (next_call w) = f w) →
  preserves f (Exec stmt).
Proof.
  intros H1 H2 w. unfold exec, Exec.
  destruct (faults w (calls w)); [apply H2|].
  destruct (stmt (db w)); [apply H2 | apply H1].
Qed.

Lemma preserves_QueryRow {A B} (f : World → B) (q : DB → option A) :
  (∀ w, f (next_call w) = f w) →
  preserves f (QueryRow q).
Proof.
  intros H w. unfold exec, QueryRow.
  destruct (faults w (calls w)); [apply H|]. destruct (q (db w)); apply H.
Qed.

(** ** Symbolic runs of the primitives *)

Lemma run_bind_pair {A B} (m : M A) (k : A → M B) w :
  (m ≫= k) w = k (m w).2 (m w).1.
Proof. unfold mbind, M_bind. destruct (m w); reflexivity. Qed.

Lemma run_fmap_pair {A B} (g : A → B) (m : M A) w :
  (g <$> m) w = ((m w).1, g (m w).2).
Proof. unfold fmap, M_fmap. destruct (m w); reflexivity. Qed.

Lemma run_ret {A} (a : A) w : (mret a : M A) w = (w, a).
Proof. reflexivity. Qed.

Lemma time_Now_run d l n t f c e :
  time_Now (mkWorld d l n t f c e) = (mkWorld d l n (S t) f c e, n t).
Proof. reflexivity. Qed.

Lemma logrus_Error_run msg x d l n t f c e :
  logrus_Error msg x (mkWorld d l n t f c e) = (mkWorld d l n t f c (e ++ [(msg, x)]), tt).
Proof. reflexivity. Qed.

Lemma Exec_run stmt d l n t f c e :
  Exec stmt (mkWorld d l n t f c e) =
    (mkWorld (Exec_db (f c) stmt d) l n t f (S c) e, Exec_err (f c) stmt d).
Proof.
  unfold Exec, Exec_db, Exec_err, next_call, set_db; cbn.
  destruct (f c); [reflexivity|]. destruct (stmt d); reflexivity.
Qed.

Lemma QueryRow_run {A} (q : DB → option A) d l n t f c e :
  QueryRow q (mkWorld d l n t f c e) =
    (mkWorld d l n t f (S c) e,
     if f c then inl ErrDatabase
     else match q d with None => inl ErrNoRows | Some a => inr a end).
Proof.
  unfold QueryRow, next_call; cbn.
  destruct (f c); [reflexivity|]. destruct (q d); reflexivity.
Qed.

Lemma log_if_error_run msg err d l n t f c e :
  ocpp.log_if_error msg err (mkWorld d l n t f c e) =
    (mkWorld d l n t f c (e ++ errs msg err), tt).
Proof.
  destruct err; cbn; [reflexivity|]. rewrite app_nil_r. reflexivity.
Qed.

Ltac run_primitives :=
  repeat first
    [ rewrite run_bind_pair
    | rewrite run_fmap_pair
    | rewrite run_ret
    | rewrite time_Now_run
    | rewrite logrus_Error_run
    | rewrite Exec_run
    | rewrite QueryRow_run
    | rewrite log_if_error_run
    | progress cbn beta iota zeta delta [fst snd] ].

(** ** Symbolic runs of the store methods *)

Lemma SaveChargePoint_run cp d l n t f c e :
  db.SaveChargePoint cp (mkWorld d l n t f c e) =
    (mkWorld (Exec_db (f c) (db.sql_SaveChargePoint (db.stamp (n t) cp)) d) l n (S t) f (S c) e,
     Exec_err (f c) (db.sql_SaveChargePoint (db.stamp (n t) cp)) d).
Proof. unfold db.SaveChargePoint. run_primitives. reflexivity. Qed.

Lemma GetChargePoint_run id d l n t f c e :
  db.GetChargePoint id (mkWorld d l n t f c e) =
    (mkWorld d l n t f (S c) e,
     if f c then inl ErrDatabase
     else match ChargePoint.set_ID id <$> charge_points d !! id with
          | None => inl ErrNoRows
          | Some a => inr a
          end).
Proof. unfold db.GetChargePoint. run_primitives. reflexivity. Qed.

Lemma SaveConnector_run k d l n t f c e :
  db.SaveConnector k (mkWorld d l n t f c e) =
    let stmt := db.sql_SaveConnector
                   (Connector.mk (Connector.ID k) (Connector.ChargePointID k)
                      (Connector.Status k) (Connector.ErrorCode k)
                      (if IsZero (Connector.CreatedAt k) then n t else Connector.CreatedAt k)
                      (n t)) in
    (mkWorld (Exec_db (f c) stmt d) l n (S t) f (S c) e, Exec_err (f c) stmt d).
Proof. unfold db.SaveConnector. run_primitives. reflexivity. Qed.

Lemma StartTransaction_run tx d l n t f c e :
  db.StartTransaction tx (mkWorld d l n t f c e) =
    let stmt := db.sql_StartTransaction
                   (Transaction.mk (Transaction.ID tx) (Transaction.ChargePointID tx)
                      (Transaction.ConnectorID tx) (Transaction.IdTag tx)
                      (Transaction.StartTime tx) (Transaction.EndTime tx)
                      (Transaction.MeterStart tx) (Transaction.MeterStop tx)
                      (Transaction.Status tx)
                      (if IsZero (Transaction.CreatedAt tx) then n t
                       else Transaction.CreatedAt tx)
                      (n t)) in
    (mkWorld (Exec_db (f c) stmt d) l n (S t) f (S c) e, Exec_err (f c) stmt d).
Proof. unfold db.StartTransaction. run_primitives. reflexivity. Qed.

Lemma StopTransaction_run id endTime meterStop d l n t f c e :
  db.StopTransaction id endTime meterStop (mkWorld d l n t f c e) =
    (mkWorld (Exec_db (f c) (db.sql_StopTransaction id endTime meterStop (n t)) d)
       l n (S t) f (S c) e,
     Exec_err (f c) (db.sql_StopTransaction id endTime meterStop (n t)) d).
Proof. unfold db.StopTransaction. run_primitives. reflexivity. Qed.

Lemma GetTransaction_run id d l n t f c e :
  db.GetTransaction id (mkWorld d l n t f c e) =
    (mkWorld d l n t f (S c) e,
     if f c then inl ErrDatabase
     else match transactions d !! id with
          | None => inl ErrNoRows
          | Some row => inr (db.scan_Transaction row)
          end).
Proof.
  unfold db.GetTransaction. run_primitives.
  destruct (f c); [reflexivity|]. destruct (transactions d !! id); reflexivity.
Qed.

Lemma SaveMeterValue_run mv d l n t f c e :
  db.SaveMeterValue mv (mkWorld d l n t f c e) =
    (mkWorld (Exec_db (f c) (db.sql_SaveMeterValue mv (n t)) d) l n (S t) f (S c) e,
     Exec_err (f c) (db.sql_SaveMeterValue mv (n t)) d).
Proof. unfold db.SaveMeterValue. run_primitives. reflexivity. Qed.

Lemma UpdateChargePointConnection_run id connected d l n t f c e :
  db.UpdateChargePointConnection id connected (mkWorld d l n t f c e) =
    (mkWorld (Exec_db (f c) (db.sql_UpdateChargePointConnection id connected (n t)) d)
       l n (S t) f (S c) e,
     Exec_err (f c) (db.sql_UpdateChargePointConnection id connected (n t)) d).
Proof. unfold db.UpdateChargePointConnection. run_primitives. reflexivity. Qed.

Lemma UpdateHeartbeat_run id d l n t f c e :
  db.UpdateHeartbeat id (mkWorld d l n t f c e) =
    (mkWorld (Exec_db (f c) (db.sql_UpdateHeartbeat id (n t)) d) l n (S t) f (S c) e,
     Exec_err (f c) (db.sql_UpdateHeartbeat id (n t)) d).
Proof. unfold db.UpdateHeartbeat. run_primitives. reflexivity. Qed.

Lemma LogOCPPMessage_run msg d l n t f c e :
  db.LogOCPPMessage msg (mkWorld d l n t f c e) =
    let stmt := db.sql_LogOCPPMessage msg (json_Marshal_string (OCPPMessage.Payload msg)) in
    (mkWorld (Exec_db (f c) stmt d) l n t f (S c) e, Exec_err (f c) stmt d).
Proof. unfold db.LogOCPPMessage. run_primitives. reflexivity. Qed.

Lemma generateTransactionID_run d l n t f c e :
  ocpp.generateTransactionID (mkWorld d l n t f c e) =
    (mkWorld d (wrap_int (l + 1)) n t f c e, wrap_int (l + 1)).
Proof. reflexivity. Qed.

Ltac run :=
  repeat first
    [ rewrite run_bind_pair
    | rewrite generateTransactionID_run
    | rewrite run_fmap_pair
    | rewrite run_ret
    | rewrite time_Now_run
    | rewrite logrus_Error_run
    | rewrite log_if_error_run
    | rewrite SaveChargePoint_run
    | rewrite GetChargePoint_run
    | rewrite SaveConnector_run
    | rewrite StartTransaction_run
    | rewrite StopTransaction_run
    | rewrite GetTransaction_run
    | rewrite SaveMeterValue_run
    | rewrite UpdateChargePointConnection_run
    | rewrite UpdateHeartbeat_run
    | rewrite LogOCPPMessage_run
    | progress cbn beta iota zeta delta [fst snd] ].

Lemma charge_points_Exec_db_log rejected msg payload d :
  charge_points (Exec_db rejected (db.sql_LogOCPPMessage msg payload) d) = charge_points d.
Proof. destruct rejected; reflexivity. Qed.

Lemma charge_points_Exec_db_save rejected cp d :
  charge_points (Exec_db rejected (db.sql_SaveChargePoint cp) d) =
    if rejected then charge_points d else db.upsert_charge_point cp (charge_points d).
Proof. destruct rejected; reflexivity. Qed.

Lemma stamp_ID now cp : ChargePoint.ID (db.stamp now cp) = ChargePoint.ID cp.
Proof. unfold db.stamp. destruct (IsZero _); reflexivity. Qed.

Lemma stamp_IsConnected now cp :
  ChargePoint.IsConnected (db.stamp now cp) = ChargePoint.IsConnected cp.
Proof. unfold db.stamp. destruct (IsZero _); reflexivity. Qed.

(** The row an accepted upsert leaves under the id of the record. *)
Lemma upsert_charge_point_lookup cp m :
  ∃ row, db.upsert_charge_point cp m !! ChargePoint.ID cp = Some row
    ∧ ChargePoint.Vendor row = ChargePoint.Vendor cp
    ∧ ChargePoint.Model row = ChargePoint.Model cp
    ∧ ChargePoint.SerialNumber row = ChargePoint.SerialNumber cp
    ∧ ChargePoint.FirmwareVersion row = ChargePoint.FirmwareVersion cp
    ∧ ChargePoint.LastHeartbeat row = ChargePoint.LastHeartbeat cp
    ∧ ChargePoint.RegistrationStatus row = ChargePoint.RegistrationStatus cp
    ∧ ChargePoint.IsConnected row = ChargePoint.IsConnected cp.
Proof.
  unfold db.upsert_charge_point.
  destruct (m !! ChargePoint.ID cp); rewrite lookup_insert_eq;
    eexists; (split; [reflexivity|]); cbn; auto 10.
Qed.

Section session.
Context {RT : Runtime}.
Import ocpp.

Lemma logMessage_run chargePointID messageType action requestID payload direction
    d l n t f c e :
  logMessage chargePointID messageType action requestID payload direction
    (mkWorld d l n t f c e) =
  (let msg := OCPPMessage.mk 0 chargePointID messageType action requestID
                (payloadJSON payload) direction (n t) in
   let stmt := db.sql_LogOCPPMessage msg (json_Marshal_string (payloadJSON payload)) in
   mkWorld (Exec_db (f c) stmt d) l n (S t) f (S c)
     ((e ++ marshal_errs payload) ++ errs "Failed to log OCPP message" (Exec_err (f c) stmt d)),
   tt).
Proof.
  unfold logMessage, payloadJSON, marshal_errs.
  destruct (json_Marshal payload); run; cbn [OCPPMessage.Payload];
    destruct (Exec_err _ _ _); run_primitives; cbn [errs]; rewrite ?app_nil_r;
    reflexivity.
Qed.

Ltac run_handler :=
  unfold exec, eval, LogRequest, LogResponse;
  repeat first [ rewrite logMessage_run | progress run ].

(** *** BootNotification *)

(** C6. For every BootNotification request and every state, the handler
    returns the confirmation that carries the server time read for it, the
    configured heartbeat interval and status Accepted, with a nil error; and
    when the database accepts the upsert, the stored charge point has the
    vendor, model, serial number and firmware version of the request,
    registration status Accepted, the heartbeat time read by the handler, and
    is connected. *)
Theorem OnBootNotification_upserts_identity_and_accepts
    (config : Config) (chargePointID : string) (request : BootNotificationRequest.t)
    (w : World) :
  eval (OnBootNotification config chargePointID request) w =
    (Some (BootNotificationConfirmation.mk (now w (4 + tick w)%nat)
             (HeartbeatInterval config) "Accepted"), None)
  ∧ (faults w (S (calls w)) = false →
     ∃ row, charge_points (db (exec (OnBootNotification config chargePointID request) w))
              !! chargePointID = Some row
       ∧ ChargePoint.Vendor row = BootNotificationRequest.ChargePointVendor request
       ∧ ChargePoint.Model row = BootNotificationRequest.ChargePointModel request
       ∧ ChargePoint.SerialNumber row =
           BootNotificationRequest.ChargePointSerialNumber request
       ∧ ChargePoint.FirmwareVersion row = BootNotificationRequest.FirmwareVersion request
       ∧ ChargePoint.RegistrationStatus row = "Accepted"
       ∧ ChargePoint.LastHeartbeat row = now w (1 + tick w)%nat
       ∧ ChargePoint.IsConnected row = true).
Proof.
  destruct w as [d l n t f c e]. unfold OnBootNotification. run_handler.
  split; [reflexivity|]. cbn [faults calls db]. intros ->.
  rewrite charge_points_Exec_db_log, charge_points_Exec_db_save.
  match goal with
  | |- context [db.upsert_charge_point ?cp ?m] =>
      destruct (upsert_charge_point_lookup cp m) as (row & Hrow & Hfields)
  end.
  exists row. split; [exact Hrow|].
  cbn in Hfields. destruct Hfields as (? & ? & ? & ? & ? & ? & ?). auto 10.
Qed.

(** *** Connection lifecycle *)

Lemma connectedSince_kept_refl m : connectedSince_kept m m.
Proof. intros id row H. exists row. split; [exact H | congruence]. Qed.

Lemma connectedSince_kept_upsert cp m :
  connectedSince_kept m (db.upsert_charge_point cp m).
Proof.
  intros id row H. unfold db.upsert_charge_point.
  destruct (decide (ChargePoint.ID cp = id)) as [->|Hne].
  - rewrite H, lookup_insert_eq. eexists; split; [reflexivity|]. cbn.
    destruct (ChargePoint.IsConnected row), (ChargePoint.IsConnected cp); cbn;
      intros Hcs; congruence || auto.
  - destruct (m !! ChargePoint.ID cp); rewrite lookup_insert_ne by exact Hne;
      exists row; (split; [exact H | congruence]).
Qed.

Lemma connectedSince_kept_disconnect id0 now m :
  connectedSince_kept m (db.mark_connection id0 false now m).
Proof.
  intros id row H. unfold db.mark_connection.
  destruct (m !! id0) as [r|] eqn:E; [|exists row; split; [exact H | congruence]].
  destruct (decide (id0 = id)) as [->|Hne].
  - rewrite lookup_insert_eq. eexists; split; [reflexivity|]. cbn. congruence.
  - rewrite lookup_insert_ne by exact Hne. exists row. split; [exact H | congruence].
Qed.

Lemma connectedSince_kept_heartbeat id0 now m :
  connectedSince_kept m (db.touch_heartbeat id0 now m).
Proof.
  intros id row H. unfold db.touch_heartbeat.
  destruct (m !! id0) as [r|] eqn:E; [|exists row; split; [exact H | congruence]].
  destruct (decide (id0 = id)) as [->|Hne].
  - rewrite lookup_insert_eq. eexists; split; [reflexivity|]. cbn. congruence.
  - rewrite lookup_insert_ne by exact Hne. exists row. split; [exact H | congruence].
Qed.

Lemma handleNewChargePoint_charge_points id w :
  charge_points (db (exec (handleNewChargePoint id) w)) =
    if faults w (S (calls w)) then charge_points (db w)
    else db.upsert_charge_point (connect_record id w) (charge_points (db w)).
Proof.
  destruct w as [d l n t f c e]. unfold handleNewChargePoint, connect_record.
  run_handler. cbn [db faults calls now tick].
  destruct (if f c then _ else _); run_handler; cbn [db];
    rewrite charge_points_Exec_db_save; reflexivity.
Qed.

Lemma connect_record_ID id w : ChargePoint.ID (connect_record id w) = id.
Proof.
  unfold connect_record, db.GetChargePoint. destruct w as [d l n t f c e].
  unfold eval. rewrite QueryRow_run. cbn [snd db now tick]. rewrite stamp_ID.
  destruct (f c); [reflexivity|].
  destruct (charge_points d !! id); reflexivity.
Qed.

Lemma connect_record_IsConnected id w :
  ChargePoint.IsConnected (connect_record id w) = true.
Proof.
  unfold connect_record. rewrite stamp_IsConnected.
  destruct (eval (db.GetChargePoint id) w); reflexivity.
Qed.

(** C10 (amended). When the read of the charge point fails on a new
    connection for a reason that leaves the context of the handler alive
    (the record is absent, or the database rejected the query or lost the
    connection while the record exists), and the database accepts the save,
    the stored record has vendor and model Unknown, registration status
    Pending, empty serial number and firmware version, and is connected:
    the identity of a charge point that existed is overwritten. *)
Theorem handleNewChargePoint_failed_read_overwrites_identity
    (id : string) (w : World) (err : error) :
  eval (db.GetChargePoint id) w = inl err →
  faults w (S (calls w)) = false →
  ∃ row, charge_points (db (exec (handleNewChargePoint id) w)) !! id = Some row
    ∧ ChargePoint.Vendor row = "Unknown"
    ∧ ChargePoint.Model row = "Unknown"
    ∧ ChargePoint.RegistrationStatus row = "Pending"
    ∧ ChargePoint.SerialNumber row = ""
    ∧ ChargePoint.FirmwareVersion row = ""
    ∧ ChargePoint.IsConnected row = true.
Proof.
  intros Hread Hsave.
  rewrite handleNewChargePoint_charge_points, Hsave.
  destruct (upsert_charge_point_lookup (connect_record id w) (charge_points (db w)))
    as (row & Hrow & Hfields).
  rewrite connect_record_ID in Hrow.
  exists row. split; [exact Hrow|].
  unfold connect_record in Hfields. rewrite Hread in Hfields.
  unfold db.stamp in Hfields. cbn in Hfields.
  destruct Hfields as (? & ? & ? & ? & ? & ? & ?). auto 10.
Qed.

(** The read that fails because the deadline of the handler has passed is
    another matter: the save carries the same context and fails with it, so
    the database is left as it was and the failed save is logged. *)
Lemma handleNewChargePoint_past_the_deadline (id : string) (w : World) :
  deadline_passes w (calls w) 1 →
  eval (db.GetChargePoint id) w = inl ErrDatabase
  ∧ db (exec (handleNewChargePoint id) w) = db w
  ∧ errlog (exec (handleNewChargePoint id) w) =
      errlog w ++ [("Failed to save charge point", ErrDatabase)].
Proof.
  intros Hpast.
  pose proof (Hpast (calls w) ltac:(lia)) as Hread.
  pose proof (Hpast (S (calls w)) ltac:(lia)) as Hsave.
  destruct w as [d l n t f c e]. cbn [faults calls db errlog] in *.
  unfold handleNewChargePoint. run_handler. rewrite Hread. run_handler.
  rewrite Hsave. cbn [Exec_db Exec_err errs]. repeat split.
Qed.

(** *** What the handlers leave untouched *)

(** One step of the proof that a computation preserves a projection:
    through the structure of the computation down to the calls. *)
Ltac preserve_step :=
  first
    [ apply preserves_ret
    | apply preserves_bind; [|intros ?]
    | apply preserves_fmap
    | apply preserves_for_range; intros ?
    | apply preserves_time_Now; reflexivity
    | apply preserves_logrus_Error; reflexivity
    | apply preserves_QueryRow_db
    | apply preserves_QueryRow; reflexivity
    | apply preserves_Exec; reflexivity
    | apply preserves_Exec_db; intros ? ? Hstmt;
      cbv [db.sql_LogOCPPMessage db.sql_SaveConnector db.sql_StartTransaction
           db.sql_StopTransaction db.sql_SaveMeterValue] in Hstmt;
      repeat case_match; simplify_eq; reflexivity
    | match goal with |- preserves _ (match ?x with _ => _ end) => destruct x end ].

Ltac preserve :=
  unfold LogRequest, LogResponse, logMessage, log_if_error,
    db.SaveChargePoint, db.GetChargePoint, db.SaveConnector, db.StartTransaction,
    db.StopTransaction, db.GetTransaction, db.LogOCPPMessage, db.SaveMeterValue,
    db.UpdateChargePointConnection, db.UpdateHeartbeat;
  repeat preserve_step.

Lemma generateTransactionID_preserves_db {B} (g : DB → B) :
  preserves (λ w, g (db w)) generateTransactionID.
Proof. intros w. reflexivity. Qed.

Lemma charge_points_Exec_db_connection rejected id connected now d :
  charge_points (Exec_db rejected (db.sql_UpdateChargePointConnection id connected now) d) =
    if rejected then charge_points d
    else db.mark_connection id connected now (charge_points d).
Proof. destruct rejected; reflexivity. Qed.

Lemma charge_points_Exec_db_heartbeat rejected id now d :
  charge_points (Exec_db rejected (db.sql_UpdateHeartbeat id now) d) =
    if rejected then charge_points d else db.touch_heartbeat id now (charge_points d).
Proof. destruct rejected; reflexivity. Qed.

Lemma OnBootNotification_charge_points config id req w :
  ∃ cp, ChargePoint.ID cp = id ∧ ChargePoint.IsConnected cp = true
    ∧ charge_points (db (exec (OnBootNotification config id req) w)) =
        if faults w (S (calls w)) then charge_points (db w)
        else db.upsert_charge_point cp (charge_points (db w)).
Proof.
  destruct w as [d l n t f c e]. unfold OnBootNotification. run_handler.
  cbn [db faults calls].
  eexists. rewrite !charge_points_Exec_db_log, charge_points_Exec_db_save,
    charge_points_Exec_db_log.
  split; [|split; [|reflexivity]]; [apply stamp_ID | apply stamp_IsConnected].
Qed.

Lemma deliver_connectedSince_kept config ev w :
  connectedSince_kept (charge_points (db w))
    (charge_points (db (exec (deliver config ev) w))).
Proof.
  destruct ev as [id|id|id req]; unfold deliver; rewrite exec_bind, exec_ret.
  - rewrite handleNewChargePoint_charge_points.
    destruct (faults w (S (calls w)));
      [apply connectedSince_kept_refl | apply connectedSince_kept_upsert].
  - destruct w as [d l n t f c e].
    unfold handleChargePointDisconnected. run_handler. cbn [db].
    rewrite charge_points_Exec_db_connection.
    destruct (f c); [apply connectedSince_kept_refl | apply connectedSince_kept_disconnect].
  - destruct req; unfold handle; rewrite exec_fmap.
    1: { destruct (OnBootNotification_charge_points config id r w) as (cp & _ & _ & ->).
         destruct (faults w (S (calls w)));
           [apply connectedSince_kept_refl | apply connectedSince_kept_upsert]. }
    1: { destruct w as [d l n t f c e]. unfold OnHeartbeat. run_handler. cbn [db].
         rewrite charge_points_Exec_db_log, charge_points_Exec_db_heartbeat,
           charge_points_Exec_db_log.
         destruct (f (S c));
           [apply connectedSince_kept_refl | apply connectedSince_kept_heartbeat]. }
    all: match goal with
         | |- connectedSince_kept _ (charge_points (db (exec ?m ?w0))) =>
             assert (Hp : preserves (λ w, charge_points (db w)) m)
               by (unfold OnStatusNotification, OnMeterValues, OnStartTransaction,
                     OnStopTransaction, OnAuthorize, OnDataTransfer,
                     OnDiagnosticsStatusNotification, OnFirmwareStatusNotification;
                   preserve; apply generateTransactionID_preserves_db);
             rewrite (Hp w0); apply connectedSince_kept_refl
         end.
Qed.

(** C2. For every event the session manager handles (a connection, a
    disconnection, any inbound action), every state and every charge point
    on record: the record stays, and its stored connectedSince is unchanged
    unless the charge point was not connected before the event and is
    connected after it.  So a second Connect after one whose save was
    accepted leaves connectedSince as the first one left it, and a
    BootNotification for a charge point that is connected does not overwrite
    it. *)
Theorem connectedSince_changes_only_when_connecting (config : Config) :
  (∀ ev w id row,
     charge_points (db w) !! id = Some row →
     ∃ row', charge_points (db (exec (deliver config ev) w)) !! id = Some row'
       ∧ (ChargePoint.ConnectedSince row' ≠ ChargePoint.ConnectedSince row →
          ChargePoint.IsConnected row = false ∧ ChargePoint.IsConnected row' = true))
  ∧ (∀ id w,
       faults w (S (calls w)) = false →
       let w1 := exec (deliver config (Connect id)) w in
       let w2 := exec (deliver config (Connect id)) w1 in
       ∃ row1 row2,
         charge_points (db w1) !! id = Some row1
         ∧ charge_points (db w2) !! id = Some row2
         ∧ ChargePoint.ConnectedSince row2 = ChargePoint.ConnectedSince row1)
  ∧ (∀ id request w row,
       charge_points (db w) !! id = Some row →
       ChargePoint.IsConnected row = true →
       ∃ row', charge_points
                 (db (exec (deliver config (Inbound id (ReqBootNotification request))) w))
                 !! id = Some row'
         ∧ ChargePoint.ConnectedSince row' = ChargePoint.ConnectedSince row).
Proof.
  split; [|split].
  - intros ev w. apply deliver_connectedSince_kept.
  - intros id w Hsave. cbv zeta.
    set (w1 := exec (deliver config (Connect id)) w).
    assert (∃ row1, charge_points (db w1) !! id = Some row1
                    ∧ ChargePoint.IsConnected row1 = true) as (row1 & H1 & Hc).
    { unfold w1, deliver. rewrite exec_bind, exec_ret,
        handleNewChargePoint_charge_points, Hsave.
      destruct (upsert_charge_point_lookup (connect_record id w) (charge_points (db w)))
        as (row & Hrow & Hfields).
      rewrite connect_record_ID in Hrow. exists row. split; [exact Hrow|].
      destruct Hfields as (_ & _ & _ & _ & _ & _ & ->). apply connect_record_IsConnected. }
    destruct (deliver_connectedSince_kept config (Connect id) w1 id row1 H1)
      as (row2 & H2 & Hk).
    exists row1, row2. split; [exact H1|]. split; [exact H2|].
    destruct (decide (ChargePoint.ConnectedSince row2 = ChargePoint.ConnectedSince row1))
      as [|Hne]; [assumption|].
    destruct (Hk Hne). congruence.
  - intros id request w row H Hc.
    destruct (deliver_connectedSince_kept config (Inbound id (ReqBootNotification request))
                w id row H) as (row' & H' & Hk).
    exists row'. split; [exact H'|].
    destruct (decide (ChargePoint.ConnectedSince row' = ChargePoint.ConnectedSince row))
      as [|Hne]; [assumption|].
    destruct (Hk Hne). congruence.
Qed.

(** *** The loops that save meter values *)

Lemma append_meter_values_nil d : append_meter_values [] d = d.
Proof. destruct d. unfold append_meter_values, set_meter_values; cbn.
  rewrite app_nil_r. reflexivity. Qed.

Lemma append_meter_values_app r1 r2 d :
  append_meter_values r2 (append_meter_values r1 d) = append_meter_values (r1 ++ r2) d.
Proof. unfold append_meter_values, set_meter_values; cbn. rewrite app_assoc. reflexivity. Qed.

Lemma Exec_db_SaveMeterValue rejected mv created d :
  Exec_db rejected (db.sql_SaveMeterValue mv created) d =
    append_meter_values
      (if rejected || negb (db.meter_value_references mv d) then []
       else [db.meter_value_row mv created]) d.
Proof.
  unfold Exec_db, db.sql_SaveMeterValue.
  destruct rejected; cbn [orb]; [rewrite append_meter_values_nil; reflexivity|].
  destruct (db.meter_value_references mv d); cbn [negb];
    [reflexivity | rewrite append_meter_values_nil; reflexivity].
Qed.

Lemma Exec_err_SaveMeterValue rejected mv created d :
  Exec_err rejected (db.sql_SaveMeterValue mv created) d =
    save_err rejected (db.meter_value_references mv d).
Proof.
  unfold Exec_err, db.sql_SaveMeterValue, save_err. destruct rejected; [reflexivity|].
  destruct (db.meter_value_references mv d); reflexivity.
Qed.

(** The loop reads the tables its rows refer to and writes none of them. *)
Lemma saved_rows_references d d' n t f c mvs :
  (∀ mv, db.meter_value_references mv d' = db.meter_value_references mv d) →
  saved_rows d' n t f c mvs = saved_rows d n t f c mvs.
Proof.
  intros H. revert t c. induction mvs as [|mv mvs IH]; intros t c; cbn; [reflexivity|].
  rewrite H, IH. reflexivity.
Qed.

Lemma save_errs_references d d' msg f c mvs :
  (∀ mv, db.meter_value_references mv d' = db.meter_value_references mv d) →
  save_errs d' msg f c mvs = save_errs d msg f c mvs.
Proof.
  intros H. revert c. induction mvs as [|mv mvs IH]; intros c; cbn; [reflexivity|].
  rewrite H, IH. reflexivity.
Qed.

Lemma saved_rows_app d n t f c l1 l2 :
  saved_rows d n t f c (l1 ++ l2) =
    saved_rows d n t f c l1 ++ saved_rows d n (length l1 + t) f (length l1 + c) l2.
Proof.
  revert t c. induction l1 as [|mv l1 IH]; intros t c; cbn; [reflexivity|].
  rewrite IH, <- !Nat.add_succ_r, app_assoc. reflexivity.
Qed.

Lemma save_errs_app d msg f c l1 l2 :
  save_errs d msg f c (l1 ++ l2) =
    save_errs d msg f c l1 ++ save_errs d msg f (length l1 + c) l2.
Proof.
  revert c. induction l1 as [|mv l1 IH]; intros c; cbn; [reflexivity|].
  rewrite IH, <- Nat.add_succ_r, app_assoc. reflexivity.
Qed.

Lemma save_loop_run {A} (g : A → MeterValue.t) msg (xs : list A) d l n t f c e :
  for_range xs (λ x, err ← db.SaveMeterValue (g x); log_if_error msg err)
    (mkWorld d l n t f c e) =
  (mkWorld (append_meter_values (saved_rows d n t f c (map g xs)) d) l n
     (length xs + t) f (length xs + c) (e ++ save_errs d msg f c (map g xs)), tt).
Proof.
  revert d t c e. induction xs as [|x xs IH]; intros d t c e; cbn [for_range].
  - cbn. rewrite append_meter_values_nil, app_nil_r. reflexivity.
  - run. rewrite IH.
    rewrite Exec_db_SaveMeterValue, Exec_err_SaveMeterValue, append_meter_values_app.
    rewrite (saved_rows_references d (append_meter_values _ d)),
      (save_errs_references d (append_meter_values _ d)) by (intros; reflexivity).
    cbn [map saved_rows length save_errs]. rewrite <- app_assoc.
    f_equal. f_equal; lia.
Qed.

Lemma nested_save_loop_run {A B} (inner : A → list B) (g : A → B → MeterValue.t) msg
    (xs : list A) d l n t f c e :
  for_range xs (λ x, for_range (inner x)
                       (λ y, err ← db.SaveMeterValue (g x y); log_if_error msg err))
    (mkWorld d l n t f c e) =
  (let mvs := flat_map (λ x, map (g x) (inner x)) xs in
   mkWorld (append_meter_values (saved_rows d n t f c mvs) d) l n
     (length mvs + t) f (length mvs + c) (e ++ save_errs d msg f c mvs), tt).
Proof.
  cbv zeta. revert d t c e. induction xs as [|x xs IH]; intros d t c e; cbn [for_range].
  - cbn. rewrite append_meter_values_nil, app_nil_r. reflexivity.
  - run. rewrite (save_loop_run (g x)). run. rewrite IH.
    rewrite (saved_rows_references d (append_meter_values _ d)),
      (save_errs_references d (append_meter_values _ d)) by (intros; reflexivity).
    cbn [flat_map]. rewrite saved_rows_app, length_app, save_errs_app,
      append_meter_values_app, !length_map, <- app_assoc.
    f_equal. f_equal; lia.
Qed.

(** *** MeterValues *)

Lemma meter_values_append_meter_values rows d :
  meter_values (append_meter_values rows d) = meter_values d ++ rows.
Proof. reflexivity. Qed.

Lemma meter_values_Exec_db_log rejected msg payload d :
  meter_values (Exec_db rejected (db.sql_LogOCPPMessage msg payload) d) = meter_values d.
Proof. destruct rejected; reflexivity. Qed.

Lemma meter_value_references_Exec_db_log rejected msg payload mv d :
  db.meter_value_references mv (Exec_db rejected (db.sql_LogOCPPMessage msg payload) d) =
    db.meter_value_references mv d.
Proof. destruct rejected; reflexivity. Qed.

Lemma meter_value_of_references chargePointID request set sv d :
  db.meter_value_references (meter_value_of chargePointID request set sv) d =
    meter_values_references chargePointID request d.
Proof.
  unfold db.meter_value_references, meter_value_of, meter_values_references.
  destruct (MeterValuesRequest.TransactionId request); reflexivity.
Qed.

Lemma OnMeterValues_meter_values chargePointID request w :
  meter_values (db (exec (OnMeterValues chargePointID request) w)) =
    meter_values (db w) ++
    saved_rows (db w) (now w) (S (tick w)) (faults w) (S (calls w))
      (flat_map (λ set, map (meter_value_of chargePointID request set)
                          (SampleSet.SampledValue set))
         (MeterValuesRequest.MeterValue request)).
Proof.
  destruct w as [d l n t f c e]. unfold OnMeterValues. run_handler.
  rewrite nested_save_loop_run. run_handler. cbn [db now tick faults calls].
  rewrite meter_values_Exec_db_log, meter_values_append_meter_values,
    meter_values_Exec_db_log.
  f_equal. apply saved_rows_references. intros mv.
  apply meter_value_references_Exec_db_log.
Qed.

Lemma OnMeterValues_eval chargePointID request w :
  eval (OnMeterValues chargePointID request) w = (Some tt, None).
Proof.
  unfold OnMeterValues. rewrite 3 eval_bind. reflexivity.
Qed.

Lemma meter_value_row_expected chargePointID request set sv created :
  db.meter_value_row (meter_value_of chargePointID request set sv) created =
    expected_row chargePointID request (set, sv) created.
Proof.
  unfold db.meter_value_row, meter_value_of, expected_row, parseFloat64. cbn [fst snd].
  destruct (String.eqb_spec (SampledValue.Measurand sv) "") as [Em|Em];
    destruct (String.eqb_spec (SampledValue.Unit sv) "") as [Eu|Eu];
    destruct (Sscanf_f (SampledValue.Value sv));
    destruct (MeterValuesRequest.TransactionId request);
    repeat case_decide; try congruence; reflexivity.
Qed.

Lemma flat_map_samples {B} (g : SampleSet.t → SampledValue.t → B) sets :
  flat_map (λ set, map (g set) (SampleSet.SampledValue set)) sets =
    map (λ s, g s.1 s.2) (samples sets).
Proof.
  unfold samples. induction sets as [|set sets IH]; cbn; [reflexivity|].
  rewrite map_app, map_map, IH. reflexivity.
Qed.

Lemma saved_rows_imap {A} (g : A → MeterValue.t) d n t f c (xs : list A) :
  saved_rows d n t f c (map g xs) =
    concat (imap (λ k x, if f (c + k)%nat || negb (db.meter_value_references (g x) d)
                         then []
                         else [db.meter_value_row (g x) (n (t + k)%nat)]) xs).
Proof.
  revert t c. induction xs as [|x xs IH]; intros t c; cbn; [reflexivity|].
  rewrite !Nat.add_0_r, IH. do 2 f_equal.
  apply imap_ext. intros k y _. cbn. rewrite !Nat.add_succ_r. reflexivity.
Qed.

Lemma concat_imap_singleton {A B} (h : nat → A → B) (xs : list A) :
  concat (imap (λ k x, [h k x]) xs) = imap h xs.
Proof.
  revert h. induction xs as [|x xs IH]; intros h; cbn; [reflexivity|].
  f_equal. apply IH.
Qed.

Lemma concat_imap_nil {A B} (h : nat → A → list B) (xs : list A) :
  (∀ k x, h k x = []) → concat (imap h xs) = [].
Proof.
  revert h. induction xs as [|x xs IH]; intros h H; cbn; [reflexivity|].
  rewrite H. apply IH. intros k y. apply H.
Qed.

(** The rows a MeterValues request appends, in every state: in the order of
    the samples of all sample sets, one row per sample whose save the
    database accepts, if the transaction, the charge point and the connector
    the rows refer to are on file, and none if one of them is not.  A row
    has the charge point and the connector of the request, the timestamp of
    its sample set, the unit and measurand of the sample or their defaults
    Wh and Energy.Active.Import.Register when empty, and the value scanned
    from the sample or 0.0 when the scan fails. *)
Lemma OnMeterValues_rows (chargePointID : string) (request : MeterValuesRequest.t)
    (w : World) :
  meter_values (db (exec (OnMeterValues chargePointID request) w)) =
    meter_values (db w) ++
    concat (imap (λ k s, if faults w (S (calls w) + k)%nat
                            || negb (meter_values_references chargePointID request (db w))
                         then []
                         else [expected_row chargePointID request s
                                 (now w (S (tick w) + k)%nat)])
              (samples (MeterValuesRequest.MeterValue request))).
Proof.
  rewrite OnMeterValues_meter_values, flat_map_samples, saved_rows_imap.
  do 2 f_equal. apply imap_ext. intros k [set sv] _. cbn [fst snd].
  rewrite meter_value_row_expected, meter_value_of_references. reflexivity.
Qed.

(** With everything the rows refer to on file and every save accepted,
    there is exactly one row per sample. *)
Lemma OnMeterValues_appends_one_row_per_sample
    (chargePointID : string) (request : MeterValuesRequest.t) (w : World) :
  let ss := samples (MeterValuesRequest.MeterValue request) in
  meter_values_references chargePointID request (db w) = true →
  (∀ k, (k < length ss)%nat → faults w (S (calls w) + k)%nat = false) →
  meter_values (db (exec (OnMeterValues chargePointID request) w)) =
    meter_values (db w) ++
    imap (λ k s, expected_row chargePointID request s (now w (S (tick w) + k)%nat)) ss.
Proof.
  cbv zeta. intros Href Hok. rewrite OnMeterValues_rows, Href. f_equal.
  etransitivity; [|apply concat_imap_singleton]. f_equal.
  apply imap_ext. intros k s Hk. rewrite Hok; [reflexivity|].
  apply lookup_lt_Some in Hk. exact Hk.
Qed.

Lemma logged_app msg l1 l2 : logged msg (l1 ++ l2) = logged msg l1 ++ logged msg l2.
Proof. unfold logged. rewrite filter_app, fmap_app. reflexivity. Qed.

Lemma logged_errs_same msg err : logged msg (errs msg err) = option_list err.
Proof.
  unfold logged. destruct err as [e|]; cbn [errs option_list]; [|reflexivity].
  rewrite filter_cons. cbn. case_decide; [reflexivity | congruence].
Qed.

Lemma logged_errs_other msg msg' err : msg' ≠ msg → logged msg (errs msg' err) = [].
Proof.
  intros Hne. unfold logged. destruct err as [e|]; cbn [errs]; [|reflexivity].
  rewrite filter_cons. cbn. case_decide; [congruence | reflexivity].
Qed.

Lemma logged_marshal_errs msg p :
  "Failed to marshal OCPP message payload" ≠ msg → logged msg (marshal_errs p) = [].
Proof.
  intros Hne. unfold logged, marshal_errs. destruct (json_Marshal p); [reflexivity|].
  rewrite filter_cons. cbn. case_decide; [congruence | reflexivity].
Qed.

Lemma logged_save_errs d msg f c mvs :
  logged msg (save_errs d msg f c mvs) =
    concat (imap (λ k mv, option_list (save_err (f (c + k)%nat)
                                         (db.meter_value_references mv d))) mvs).
Proof.
  revert c. induction mvs as [|mv mvs IH]; intros c; cbn [save_errs imap concat];
    [reflexivity|].
  rewrite logged_app, logged_errs_same, IH, Nat.add_0_r. do 2 f_equal.
  apply imap_ext. intros k y _. cbn. rewrite Nat.add_succ_r. reflexivity.
Qed.

Lemma logged_save_errs_other d msg msg' f c mvs :
  msg' ≠ msg → logged msg (save_errs d msg' f c mvs) = [].
Proof.
  intros Hne. revert c. induction mvs as [|mv mvs IH]; intros c; cbn [save_errs];
    [reflexivity|].
  rewrite logged_app, logged_errs_other, IH by exact Hne. reflexivity.
Qed.

(** What a MeterValues request adds to the error log under the message of
    its saves: the error of each save that failed, in the order of the
    samples. *)
Lemma OnMeterValues_logged chargePointID request w :
  logged "Failed to save meter value"
    (errlog (exec (OnMeterValues chargePointID request) w)) =
  logged "Failed to save meter value" (errlog w) ++
  concat (imap (λ k (_ : SampleSet.t * SampledValue.t),
                  option_list
                    (save_err (faults w (S (calls w) + k)%nat)
                       (meter_values_references chargePointID request (db w))))
            (samples (MeterValuesRequest.MeterValue request))).
Proof.
  destruct w as [d l n t f c e]. unfold OnMeterValues. run_handler.
  rewrite nested_save_loop_run. run_handler. cbn [db errlog faults calls].
  rewrite !logged_app, !logged_marshal_errs, !logged_errs_other by discriminate.
  rewrite !app_nil_r. f_equal.
  rewrite (save_errs_references d)
    by (intros; apply meter_value_references_Exec_db_log).
  rewrite logged_save_errs, flat_map_samples, imap_fmap.
  f_equal. apply imap_ext. intros k [set sv] _. cbn [fst snd compose].
  rewrite meter_value_of_references. reflexivity.
Qed.

(** C5 (what the code does). A MeterValues request that names no
    transaction appends no row at all when no transaction has the id 0, in
    whatever state and under whatever verdicts of the database otherwise:
    the handler leaves the transaction id of each row at the zero value of
    its Go field, the store sends that 0 as the transaction_id, and the
    foreign key of the column rejects the row.  Each sample costs one entry
    in the error log, the foreign key violation unless the database rejected
    the call before, and the device is confirmed as ever. *)
Theorem OnMeterValues_without_transaction_id_appends_no_row
    (chargePointID : string) (request : MeterValuesRequest.t) (w : World) :
  let ss := samples (MeterValuesRequest.MeterValue request) in
  let w' := exec (OnMeterValues chargePointID request) w in
  MeterValuesRequest.TransactionId request = None →
  transactions (db w) !! 0 = None →
  eval (OnMeterValues chargePointID request) w = (Some tt, None)
  ∧ meter_values (db w') = meter_values (db w)
  ∧ logged "Failed to save meter value" (errlog w') =
      logged "Failed to save meter value" (errlog w) ++
      imap (λ k _, if faults w (S (calls w) + k)%nat then ErrDatabase else ErrForeignKey) ss.
Proof.
  cbv zeta. intros Hnone Hzero.
  assert (Href : meter_values_references chargePointID request (db w) = false).
  { unfold meter_values_references, on_file. rewrite Hnone. cbn [default].
    rewrite Hzero. reflexivity. }
  split; [apply OnMeterValues_eval|]. split.
  - rewrite OnMeterValues_rows, Href.
    rewrite concat_imap_nil by (intros; rewrite orb_true_r; reflexivity).
    apply app_nil_r.
  - rewrite OnMeterValues_logged, Href. f_equal.
    etransitivity; [|apply concat_imap_singleton]. f_equal.
    apply imap_ext. intros k s _. unfold save_err.
    destruct (faults w (S (calls w) + k)%nat); reflexivity.
Qed.


(** *** StopTransaction *)

Lemma transactions_Exec_db_log rejected msg payload d :
  transactions (Exec_db rejected (db.sql_LogOCPPMessage msg payload) d) = transactions d.
Proof. destruct rejected; reflexivity. Qed.

Lemma transactions_append_meter_values rows d :
  transactions (append_meter_values rows d) = transactions d.
Proof. reflexivity. Qed.

Lemma transactions_Exec_db_stop rejected id endTime meterStop updated d :
  transactions (Exec_db rejected (db.sql_StopTransaction id endTime meterStop updated) d) =
    if rejected || negb (int4_range meterStop) then transactions d
    else db.complete_transaction id endTime meterStop updated (transactions d).
Proof.
  unfold Exec_db, db.sql_StopTransaction.
  destruct rejected; [reflexivity|]. destruct (int4_range meterStop); reflexivity.
Qed.

Lemma OnStopTransaction_transactions chargePointID request w :
  transactions (db (exec (OnStopTransaction chargePointID request) w)) =
    if faults w (S (calls w)) || negb (int4_range (StopTransactionRequest.MeterStop request))
    then transactions (db w)
    else db.complete_transaction (StopTransactionRequest.TransactionId request)
           (StopTransactionRequest.Timestamp request)
           (StopTransactionRequest.MeterStop request)
           (now w (S (tick w))) (transactions (db w)).
Proof.
  destruct w as [d l n t f c e]. unfold OnStopTransaction. run_handler.
  rewrite nested_save_loop_run. run_handler. cbn [db now tick faults calls].
  rewrite transactions_Exec_db_log, transactions_append_meter_values,
    transactions_Exec_db_stop, transactions_Exec_db_log. reflexivity.
Qed.

Lemma dom_complete_transaction id endTime meterStop updated (m : gmap Z TransactionRow.t) :
  dom (db.complete_transaction id endTime meterStop updated m) = dom m.
Proof.
  unfold db.complete_transaction. destruct (m !! id) as [r|] eqn:E; [|reflexivity].
  rewrite dom_insert_L. apply subseteq_union_1_L, singleton_subseteq_l.
  apply elem_of_dom. eauto.
Qed.

Lemma GetTransaction_eval id w :
  eval (db.GetTransaction id) w =
    if faults w (calls w) then inl ErrDatabase
    else match transactions (db w) !! id with
         | None => inl ErrNoRows
         | Some row => inr (db.scan_Transaction row)
         end.
Proof. destruct w as [d l n t f c e]. unfold eval. rewrite GetTransaction_run. reflexivity. Qed.

Lemma wrap_int32_in_range z : int4_range z = true → wrap_int32 z = z.
Proof.
  unfold int4_range, wrap_int32.
  intros [H1%Z.leb_le H2%Z.leb_le]%andb_true_iff.
  rewrite Z.mod_small by lia. lia.
Qed.

(** C4 (amended). For every StopTransaction request for a transaction on
    record whose meter stop is in the range of the INTEGER column and whose
    update the database accepts, a GetTransaction for the id that the
    database answers returns status Completed, the meter stop and the end
    time of the request.  And no StopTransaction request, in any state, adds
    or removes a transaction: the set of transaction ids is unchanged by
    it. *)
Theorem OnStopTransaction_completes_and_creates_nothing
    (chargePointID : string) (request : StopTransactionRequest.t) (w : World)
    (row : TransactionRow.t) :
  transactions (db w) !! StopTransactionRequest.TransactionId request = Some row →
  faults w (S (calls w)) = false →
  int4_range (StopTransactionRequest.MeterStop request) = true →
  let w1 := exec (OnStopTransaction chargePointID request) w in
  (faults w1 (calls w1) = false →
   ∃ tx, eval (db.GetTransaction (StopTransactionRequest.TransactionId request)) w1 = inr tx
     ∧ Transaction.Status tx = "Completed"
     ∧ Transaction.MeterStop tx = StopTransactionRequest.MeterStop request
     ∧ Transaction.EndTime tx = StopTransactionRequest.Timestamp request)
  ∧ (∀ chargePointID2 request2 w0,
       dom (transactions (db (exec (OnStopTransaction chargePointID2 request2) w0))) =
       dom (transactions (db w0))).
Proof.
  intros Hrow Hok Hrange. cbv zeta. split.
  - intros Hread. rewrite GetTransaction_eval, Hread, OnStopTransaction_transactions,
      Hok, Hrange. cbn [orb negb].
    unfold db.complete_transaction. rewrite Hrow, lookup_insert_eq.
    eexists. split; [reflexivity|]. cbn.
    rewrite wrap_int32_in_range by exact Hrange. auto.
  - intros cp2 req2 w0. rewrite OnStopTransaction_transactions.
    destruct (_ || _); [reflexivity | apply dom_complete_transaction].
Qed.

(** *** Every handler confirms *)

Lemma handle_eval config chargePointID req w :
  eval (handle config chargePointID req) w =
    (Some (confirmation_of config req (lastTransactionID w) (now w) (tick w)), None).
Proof.
  destruct req; unfold handle; rewrite eval_fmap.
  - destruct w as [d l n t f c e]. unfold OnBootNotification. run_handler. reflexivity.
  - destruct w as [d l n t f c e]. unfold OnHeartbeat. run_handler. reflexivity.
  - unfold OnStatusNotification. rewrite !eval_bind. reflexivity.
  - unfold OnMeterValues. rewrite !eval_bind. reflexivity.
  - destruct w as [d l n t f c e]. unfold OnStartTransaction. run_handler. reflexivity.
  - unfold OnStopTransaction. rewrite !eval_bind. reflexivity.
  - unfold OnAuthorize. rewrite !eval_bind. reflexivity.
  - unfold OnDataTransfer. rewrite !eval_bind. reflexivity.
  - unfold OnDiagnosticsStatusNotification. rewrite !eval_bind. reflexivity.
  - unfold OnFirmwareStatusNotification. rewrite !eval_bind. reflexivity.
Qed.

(** *** Persistence failures are logged *)

Lemma rejected_add f c a b :
  rejected f c (a + b) = (rejected f c a + rejected f (c + a) b)%nat.
Proof.
  revert c. induction a as [|a IH]; intros c; cbn.
  - rewrite Nat.add_0_r. reflexivity.
  - rewrite IH, Nat.add_succ_r. cbn. lia.
Qed.

Lemma logs_failures_ret {A} (a : A) : logs_failures (mret a).
Proof.
  intros w. cbv zeta. rewrite exec_ret. split; [reflexivity|]. split; [lia|].
  exists []. rewrite app_nil_r, Nat.sub_diag. split; [reflexivity | cbn; lia].
Qed.

Lemma logs_failures_bind {A B} (m : M A) (k : A → M B) :
  logs_failures m → (∀ a, logs_failures (k a)) → logs_failures (m ≫= k).
Proof.
  intros Hm Hk w. cbv zeta. rewrite exec_bind.
  destruct (Hm w) as (Hf1 & Hc1 & e1 & He1 & Hr1).
  destruct (Hk (eval m w) (exec m w)) as (Hf2 & Hc2 & e2 & He2 & Hr2).
  split; [congruence|]. split; [lia|].
  exists (e1 ++ e2). split; [rewrite He2, He1, app_assoc; reflexivity|].
  rewrite length_app.
  replace (calls (exec (k (eval m w)) (exec m w)) - calls w)%nat
    with ((calls (exec m w) - calls w)
          + (calls (exec (k (eval m w)) (exec m w)) - calls (exec m w)))%nat by lia.
  rewrite rejected_add.
  replace (calls w + (calls (exec m w) - calls w))%nat with (calls (exec m w)) by lia.
  rewrite Hf1 in Hr2. lia.
Qed.

Lemma logs_failures_fmap {A B} (g : A → B) (m : M A) :
  logs_failures m → logs_failures (g <$> m).
Proof. intros Hm w. cbv zeta. rewrite exec_fmap. apply Hm. Qed.

Lemma logs_failures_for_range {A} (l : list A) (body : A → M unit) :
  (∀ x, logs_failures (body x)) → logs_failures (for_range l body).
Proof.
  intros Hb. induction l as [|x l IH]; cbn [for_range].
  - apply logs_failures_ret.
  - apply logs_failures_bind; auto.
Qed.

Lemma logs_failures_time_Now : logs_failures time_Now.
Proof.
  intros w. cbv zeta. unfold exec, time_Now; cbn. split; [reflexivity|]. split; [lia|].
  exists []. rewrite app_nil_r, Nat.sub_diag. split; [reflexivity | cbn; lia].
Qed.

Lemma logs_failures_generateTransactionID : logs_failures generateTransactionID.
Proof.
  intros w. cbv zeta. unfold exec, generateTransactionID; cbn.
  split; [reflexivity|]. split; [lia|].
  exists []. rewrite app_nil_r, Nat.sub_diag. split; [reflexivity | cbn; lia].
Qed.

Lemma logs_failures_checked op msg :
  store_method op → logs_failures (err ← op; log_if_error msg err).
Proof.
  intros Hop w. cbv zeta. rewrite exec_bind.
  destruct (Hop w) as (Hf & Hc & He & Herr).
  destruct (exec op w) as [d l n t f c e] eqn:Ew. cbn [faults calls errlog] in *.
  unfold exec. rewrite log_if_error_run. cbn [fst faults calls errlog].
  split; [exact Hf|]. split; [lia|].
  exists (errs msg (eval op w)). split; [rewrite He; reflexivity|].
  replace (c - calls w)%nat with 1%nat by lia. cbn [rejected].
  destruct (faults w (calls w)); [|cbn; lia].
  destruct Herr as [x ->]; [reflexivity|]. cbn. lia.
Qed.

Lemma logs_failures_checked_then {B} op msg (rest : M B) :
  store_method op → logs_failures rest →
  logs_failures (err ← op; log_if_error msg err;; rest).
Proof.
  intros Hop Hrest w.
  assert (Hw : exec (err ← op; log_if_error msg err;; rest) w =
               exec ((err ← op; log_if_error msg err) ≫= λ _, rest) w)
    by (rewrite !exec_bind; reflexivity).
  cbv zeta. rewrite Hw.
  apply (logs_failures_bind (err ← op; log_if_error msg err) (λ _, rest));
    [apply logs_failures_checked; exact Hop | intros _; exact Hrest].
Qed.

Lemma logs_failures_logMessage chargePointID mt action rid payload dir :
  logs_failures (logMessage chargePointID mt action rid payload dir).
Proof.
  intros [d l n t f c e]. cbv zeta. unfold exec. rewrite logMessage_run.
  cbn [fst faults calls errlog]. split; [reflexivity|]. split; [lia|].
  eexists. split; [rewrite <- app_assoc; reflexivity|].
  replace (S c - c)%nat with 1%nat by lia. cbn [rejected].
  rewrite length_app. destruct (f c); cbn; lia.
Qed.

Ltac store_method_by lemma :=
  intros [d l n t f c e]; unfold exec, eval; rewrite lemma; cbn [fst snd faults calls errlog];
  repeat split; intros ->; cbn; eauto.

Lemma store_method_SaveChargePoint cp : store_method (db.SaveChargePoint cp).
Proof. store_method_by SaveChargePoint_run. Qed.

Lemma store_method_SaveConnector k : store_method (db.SaveConnector k).
Proof. store_method_by SaveConnector_run. Qed.

Lemma store_method_StartTransaction tx : store_method (db.StartTransaction tx).
Proof. store_method_by StartTransaction_run. Qed.

Lemma store_method_StopTransaction id endTime meterStop :
  store_method (db.StopTransaction id endTime meterStop).
Proof. store_method_by StopTransaction_run. Qed.

Lemma store_method_SaveMeterValue mv : store_method (db.SaveMeterValue mv).
Proof. store_method_by SaveMeterValue_run. Qed.

Lemma store_method_UpdateHeartbeat id : store_method (db.UpdateHeartbeat id).
Proof. store_method_by UpdateHeartbeat_run. Qed.

Ltac logs_failures_step :=
  first
    [ apply logs_failures_ret
    | apply logs_failures_logMessage
    | apply logs_failures_time_Now
    | apply logs_failures_generateTransactionID
    | apply logs_failures_fmap
    | apply logs_failures_for_range; intros ?
    | apply logs_failures_checked_then;
      [ first [ apply store_method_SaveChargePoint | apply store_method_SaveConnector
              | apply store_method_StartTransaction | apply store_method_StopTransaction
              | apply store_method_SaveMeterValue | apply store_method_UpdateHeartbeat ] | ]
    | apply logs_failures_checked;
      first [ apply store_method_SaveChargePoint | apply store_method_SaveConnector
            | apply store_method_StartTransaction | apply store_method_StopTransaction
            | apply store_method_SaveMeterValue | apply store_method_UpdateHeartbeat ]
    | apply logs_failures_bind; [|intros ?] ].

Lemma handle_logs_failures config chargePointID req :
  logs_failures (handle config chargePointID req).
Proof.
  destruct req; unfold handle, OnBootNotification, OnHeartbeat, OnStatusNotification,
    OnMeterValues, OnStartTransaction, OnStopTransaction, OnAuthorize, OnDataTransfer,
    OnDiagnosticsStatusNotification, OnFirmwareStatusNotification, LogRequest, LogResponse;
    repeat logs_failures_step.
Qed.


(** *** The audit log *)

Lemma length_append (s1 s2 : string) :
  String.length (s1 +:+ s2) = (String.length s1 + String.length s2)%nat.
Proof. induction s1 as [|c s1 IH]; simpl; [reflexivity | f_equal; exact IH]. Qed.

Lemma json_escape_nonempty c : (1 ≤ String.length (json_escape c))%nat.
Proof.
  unfold json_escape. repeat case_match; rewrite ?length_append; simpl; lia.
Qed.

Lemma json_escape_string_length s :
  (String.length s ≤ String.length (json_escape_string s))%nat.
Proof.
  induction s as [|c s IH]; cbn; [lia|].
  rewrite length_append. pose proof (json_escape_nonempty c). lia.
Qed.

Lemma json_Marshal_string_length s :
  (String.length s + 2 ≤ String.length (json_Marshal_string s))%nat.
Proof.
  unfold json_Marshal_string. cbn. rewrite length_append. cbn.
  pose proof (json_escape_string_length s). lia.
Qed.

Lemma ocpp_messages_Exec_db_log rejected msg payload d :
  ocpp_messages (Exec_db rejected (db.sql_LogOCPPMessage msg payload) d) =
    ocpp_messages d ++
    if rejected then []
    else [OCPPMessageRow.mk (OCPPMessage.ChargePointID msg) (OCPPMessage.MessageType msg)
            (OCPPMessage.Action msg) (OCPPMessage.RequestID msg) payload
            (OCPPMessage.Direction msg) (OCPPMessage.Timestamp msg)].
Proof. destruct rejected; cbn; [rewrite app_nil_r|]; reflexivity. Qed.

(** The record the audit logger appends for a message, when the database
    accepts the insert: its payload is the JSON encoding, as a string, of the
    JSON text of the message. *)
Lemma logMessage_audit_record
    (chargePointID messageType action requestID : string) (payload : Payload)
    (direction : string) (w : World) :
  ocpp_messages
    (db (exec (logMessage chargePointID messageType action requestID payload direction) w)) =
    ocpp_messages (db w) ++
    (if faults w (calls w) then []
     else [OCPPMessageRow.mk chargePointID messageType action requestID
             (json_Marshal_string (payloadJSON payload)) direction (now w (tick w))]).
Proof.
  destruct w as [d l n t f c e]. unfold exec. rewrite logMessage_run.
  cbn [fst db faults calls now tick]. apply ocpp_messages_Exec_db_log.
Qed.

Lemma json_Marshal_string_differs s : json_Marshal_string s ≠ s.
Proof.
  intros Heq. pose proof (json_Marshal_string_length s) as Hlen.
  rewrite Heq in Hlen. lia.
Qed.

Lemma ocpp_messages_Exec_db_kept rejected stmt d :
  (∀ d', stmt d = inr d' → ocpp_messages d' = ocpp_messages d) →
  ocpp_messages (Exec_db rejected stmt d) = ocpp_messages d.
Proof.
  intros H. unfold Exec_db. destruct rejected; [reflexivity|].
  destruct (stmt d) eqn:E; [reflexivity | apply H; reflexivity].
Qed.

Lemma handle_audit_records config chargePointID req w :
  ∃ k t1 t2,
    ocpp_messages (db (exec (handle config chargePointID req) w)) =
      ocpp_messages (db w) ++
      (if faults w (calls w) then []
       else [OCPPMessageRow.mk chargePointID "Request" (action_name req) ""
               (json_Marshal_string (payloadJSON (PRequest req))) "Inbound" t1]) ++
      (if faults w (S k + calls w)%nat then []
       else [OCPPMessageRow.mk chargePointID "Response" (action_name req) ""
               (json_Marshal_string
                  (payloadJSON
                     (PConfirmation
                        (confirmation_of config req (lastTransactionID w) (now w) (tick w)))))
               "Outbound" t2]).
Proof.
  destruct w as [d l n t f c e].
  destruct req; unfold handle, OnBootNotification, OnHeartbeat, OnStatusNotification,
    OnMeterValues, OnStartTransaction, OnStopTransaction, OnAuthorize, OnDataTransfer,
    OnDiagnosticsStatusNotification, OnFirmwareStatusNotification;
    run_handler; rewrite ?nested_save_loop_run; run_handler;
    cbn [db faults calls now tick lastTransactionID confirmation_of action_name];
    rewrite ocpp_messages_Exec_db_log;
    try (rewrite ocpp_messages_Exec_db_kept
           by (intros ?; cbv [db.sql_SaveChargePoint db.sql_SaveConnector
                              db.sql_StartTransaction db.sql_StopTransaction
                              db.sql_UpdateHeartbeat];
               repeat case_match; intros; simplify_eq; reflexivity));
    try (change (ocpp_messages (append_meter_values ?r ?d0)) with (ocpp_messages d0));
    try (rewrite ocpp_messages_Exec_db_kept
           by (intros ?; cbv [db.sql_StopTransaction]; repeat case_match; intros;
               simplify_eq; reflexivity));
    rewrite ocpp_messages_Exec_db_log, <- app_assoc;
    cbn [OCPPMessage.ChargePointID OCPPMessage.MessageType OCPPMessage.Action
         OCPPMessage.RequestID OCPPMessage.Direction OCPPMessage.Timestamp];
    rewrite ?Nat.add_succ_r.
  all: first [ exists 1%nat; do 2 eexists; reflexivity
             | exists 0%nat; do 2 eexists; reflexivity
             | eexists (S _); do 2 eexists; reflexivity
             | eexists; do 2 eexists; reflexivity ].
Qed.

(** C7 (what the code does). For every inbound request handled, in every
    state, the audit records appended are one for the request and one for
    the confirmation, each unless the database rejects its insert; the
    payload stored is not the JSON text of the message but the JSON encoding
    of that text as a string (the text between double quotes, its quotes and
    backslashes escaped), which is never equal to the JSON encoding of the
    message. *)
Theorem handle_audits_payloads_encoded_twice
    (config : Config) (chargePointID : string) (req : Request) (w : World) :
  let request_text := payloadJSON (PRequest req) in
  let confirmation_text :=
    payloadJSON
      (PConfirmation (confirmation_of config req (lastTransactionID w) (now w) (tick w))) in
  (∃ k t1 t2,
     ocpp_messages (db (exec (handle config chargePointID req) w)) =
       ocpp_messages (db w) ++
       (if faults w (calls w) then []
        else [OCPPMessageRow.mk chargePointID "Request" (action_name req) ""
                (json_Marshal_string request_text) "Inbound" t1]) ++
       (if faults w (S k + calls w)%nat then []
        else [OCPPMessageRow.mk chargePointID "Response" (action_name req) ""
                (json_Marshal_string confirmation_text) "Outbound" t2]))
  ∧ json_Marshal_string request_text ≠ request_text
  ∧ json_Marshal_string confirmation_text ≠ confirmation_text.
Proof.
  cbv zeta. split; [apply handle_audit_records|].
  split; apply json_Marshal_string_differs.
Qed.

(** *** The transaction counter, one call at a time *)

Lemma wrap_int_in_range z : int_min ≤ z ≤ int_max → wrap_int z = z.
Proof.
  unfold int_min, int_max, wrap_int. intros H. rewrite Z.mod_small by lia. lia.
Qed.

Lemma deliver_lastTransactionID config ev w :
  lastTransactionID (exec (deliver config ev) w) =
    match ev with
    | Inbound _ (ReqStartTransaction _) => wrap_int (lastTransactionID w + 1)
    | _ => lastTransactionID w
    end.
Proof.
  destruct ev as [id|id|id req]; unfold deliver; rewrite exec_bind, exec_ret.
  - assert (Hp : preserves lastTransactionID (handleNewChargePoint id))
      by (unfold handleNewChargePoint; preserve).
    apply Hp.
  - assert (Hp : preserves lastTransactionID (handleChargePointDisconnected id))
      by (unfold handleChargePointDisconnected; preserve).
    apply Hp.
  - destruct req; unfold handle; rewrite exec_fmap;
      try (match goal with
           | |- lastTransactionID (exec ?m ?w) = lastTransactionID ?w =>
               let Hp := fresh in
               assert (Hp : preserves lastTransactionID m)
                 by (unfold OnBootNotification, OnHeartbeat, OnStatusNotification,
                       OnMeterValues, OnStopTransaction, OnAuthorize, OnDataTransfer,
                       OnDiagnosticsStatusNotification, OnFirmwareStatusNotification;
                     preserve);
               apply Hp
           end).
    destruct w as [d l n t f c e]. unfold OnStartTransaction. run_handler.
    reflexivity.
Qed.

Lemma deliver_issued config ev w :
  issued_ids [eval (deliver config ev) w] =
    match ev with
    | Inbound _ (ReqStartTransaction _) => [wrap_int (lastTransactionID w + 1)]
    | _ => []
    end.
Proof.
  destruct ev as [id|id|id req]; unfold deliver; rewrite eval_bind; try reflexivity.
  rewrite eval_ret, handle_eval. destruct req; reflexivity.
Qed.

Lemma issued_ids_cons c cs : issued_ids (c :: cs) = issued_ids [c] ++ issued_ids cs.
Proof. unfold issued_ids. cbn. destruct c as [[]|]; reflexivity. Qed.

(** Delivered one at a time, the events get transaction ids that grow by
    one from the counter, as long as the counter does not overflow. *)
Lemma sequential_ids_increase config evs w :
  int_min ≤ lastTransactionID w →
  lastTransactionID w + Z.of_nat (length evs) ≤ int_max →
  let ids := issued_ids (eval (deliver_all config evs) w) in
  Forall (λ id, lastTransactionID w < id) ids ∧ StronglySorted Z.lt ids.
Proof.
  cbv zeta. revert w. induction evs as [|ev evs IH]; intros w Hmin Hmax.
  - split; constructor.
  - cbn [deliver_all]. rewrite !eval_bind, eval_ret.
    rewrite issued_ids_cons, deliver_issued.
    cbn [length] in Hmax. rewrite Nat2Z.inj_succ in Hmax.
    specialize (IH (exec (deliver config ev) w)).
    rewrite deliver_lastTransactionID in IH.
    destruct ev as [id|id|id req]; [apply IH; lia | apply IH; lia |].
    destruct req; try (apply IH; lia).
    rewrite wrap_int_in_range in * by lia.
    destruct IH as [Hall Hsorted]; [lia | lia |].
    cbn [app]. split.
    + constructor; [lia|]. eapply Forall_impl; [exact Hall|]. cbn. intros; lia.
    + constructor; [exact Hsorted | exact Hall].
Qed.
(** *** Insert and read back *)

(** X1. Round trip of the store: a transaction inserted under an id that is
    not on file, the insert and the read being accepted, reads back with the
    id, device, connector, tag, start time, meter start and status it was
    given, with no end time and meter stop 0 whatever the record passed
    held in those fields, with the creation time it was given or the time of
    the insert when that is the zero time, and updated at the time of the
    insert. *)
Theorem StartTransaction_then_GetTransaction (tx : Transaction.t) (w : World) :
  transactions (db w) !! Transaction.ID tx = None →
  faults w (calls w) = false →
  faults w (S (calls w)) = false →
  eval (db.StartTransaction tx) w = None
  ∧ eval (db.GetTransaction (Transaction.ID tx)) (exec (db.StartTransaction tx) w) =
      inr (Transaction.mk (Transaction.ID tx) (Transaction.ChargePointID tx)
             (Transaction.ConnectorID tx) (Transaction.IdTag tx) (Transaction.StartTime tx)
             time_zero (Transaction.MeterStart tx) 0 (Transaction.Status tx)
             (if IsZero (Transaction.CreatedAt tx) then now w (tick w)
              else Transaction.CreatedAt tx)
             (now w (tick w))).
Proof.
  destruct w as [d l n t f c e]. cbn [db faults calls now tick]. intros Hnew H1 H2.
  unfold eval, exec. rewrite StartTransaction_run. cbv zeta. cbn [fst snd].
  rewrite GetTransaction_run. cbn [snd]. rewrite H1, H2.
  unfold Exec_db, Exec_err, db.sql_StartTransaction. cbn [Transaction.ID].
  rewrite Hnew. split; [reflexivity|].
  cbn [transactions set_transactions]. rewrite lookup_insert_eq. reflexivity.
Qed.

(** X2. Round trip of the store: a charge point saved under an id that is
    not on file, the save and the read being accepted, reads back as it was
    given, created at the time it was given or at the time of the save when
    that is the zero time, and updated at the time of the save. *)
Theorem SaveChargePoint_then_GetChargePoint (cp : ChargePoint.t) (w : World) :
  charge_points (db w) !! ChargePoint.ID cp = None →
  faults w (calls w) = false →
  faults w (S (calls w)) = false →
  eval (db.SaveChargePoint cp) w = None
  ∧ eval (db.GetChargePoint (ChargePoint.ID cp)) (exec (db.SaveChargePoint cp) w) =
      inr (ChargePoint.mk (ChargePoint.ID cp) (ChargePoint.Vendor cp) (ChargePoint.Model cp)
             (ChargePoint.SerialNumber cp) (ChargePoint.FirmwareVersion cp)
             (ChargePoint.LastHeartbeat cp) (ChargePoint.RegistrationStatus cp)
             (ChargePoint.ConnectedSince cp) (ChargePoint.IsConnected cp)
             (if IsZero (ChargePoint.CreatedAt cp) then now w (tick w)
              else ChargePoint.CreatedAt cp)
             (now w (tick w))).
Proof.
  destruct w as [d l n t f c e]. cbn [db faults calls now tick]. intros Hnew H1 H2.
  unfold eval, exec. rewrite SaveChargePoint_run. cbn [fst snd].
  rewrite GetChargePoint_run. cbn [snd]. rewrite H1, H2.
  split; [reflexivity|].
  rewrite charge_points_Exec_db_save. unfold db.upsert_charge_point.
  rewrite stamp_ID, Hnew, lookup_insert_eq. cbn [fmap option_fmap option_map].
  unfold db.stamp. destruct (IsZero (ChargePoint.CreatedAt cp)); reflexivity.
Qed.

Lemma transactions_Exec_db_start rejected tx d :
  transactions (Exec_db rejected (db.sql_StartTransaction tx) d) =
    if rejected then transactions d
    else match transactions d !! Transaction.ID tx with
         | Some _ => transactions d
         | None =>
             <[Transaction.ID tx :=
                 TransactionRow.mk (Transaction.ID tx) (Transaction.ChargePointID tx)
                   (Transaction.ConnectorID tx) (Transaction.IdTag tx)
                   (Transaction.StartTime tx) None (Transaction.MeterStart tx) None
                   (Transaction.Status tx) (Transaction.CreatedAt tx)
                   (Transaction.UpdatedAt tx)]> (transactions d)
         end.
Proof.
  unfold Exec_db, db.sql_StartTransaction. destruct rejected; [reflexivity|].
  destruct (transactions d !! Transaction.ID tx); reflexivity.
Qed.

Lemma Exec_err_start rejected tx d :
  Exec_err rejected (db.sql_StartTransaction tx) d =
    if rejected then Some ErrDatabase
    else match transactions d !! Transaction.ID tx with
         | Some _ => Some ErrUniqueViolation
         | None => None
         end.
Proof.
  unfold Exec_err, db.sql_StartTransaction. destruct rejected; [reflexivity|].
  destruct (transactions d !! Transaction.ID tx); reflexivity.
Qed.

(** What a StartTransaction leaves: the confirmation, the table after it
    and the entry it logs for the insert. *)
Lemma OnStartTransaction_effect chargePointID request w :
  let id := wrap_int (lastTransactionID w + 1) in
  let row := TransactionRow.mk id chargePointID
               (StartTransactionRequest.ConnectorId request)
               (StartTransactionRequest.IdTag request)
               (StartTransactionRequest.Timestamp request) None
               (StartTransactionRequest.MeterStart request) None "InProgress"
               (now w (S (tick w))) (now w (S (tick w))) in
  ∃ w1,
    OnStartTransaction chargePointID request w =
      (w1, (Some (StartTransactionConfirmation.mk (IdTagInfo.mk "Accepted") id), None))
    ∧ transactions (db w1) =
        (if faults w (S (calls w)) then transactions (db w)
         else match transactions (db w) !! id with
              | Some _ => transactions (db w)
              | None => <[id := row]> (transactions (db w))
              end)
    ∧ faults w1 = faults w
    ∧ calls w1 = (3 + calls w)%nat
    ∧ ∀ err,
        (if faults w (S (calls w)) then Some ErrDatabase
         else match transactions (db w) !! id with
              | Some _ => Some ErrUniqueViolation
              | None => None
              end) = Some err →
        ("Failed to save transaction", err) ∈ errlog w1.
Proof.
  destruct w as [d l n t f c e]. cbv zeta. cbn [db lastTransactionID faults calls now tick].
  eexists. split; [unfold OnStartTransaction; run_handler; reflexivity|].
  cbn [db faults calls errlog].
  rewrite transactions_Exec_db_log, transactions_Exec_db_start, Exec_err_start,
    !transactions_Exec_db_log.
  cbn [Transaction.ID]. split; [reflexivity|]. split; [reflexivity|].
  split; [reflexivity|]. intros err Herr.
  rewrite !elem_of_app. left. left. right. rewrite Herr. left.
Qed.

(** X3. A StartTransaction whose next id is not on file and whose insert
    the database accepts is confirmed with status Accepted and that id, and
    the transaction reads back under that id as in progress: the device,
    connector, tag, timestamp and meter start of the request, no end time,
    meter stop 0, created and updated at the time of the insert. *)
Theorem OnStartTransaction_stores_what_it_confirms
    (chargePointID : string) (request : StartTransactionRequest.t) (w : World) :
  let id := wrap_int (lastTransactionID w + 1) in
  let w1 := exec (OnStartTransaction chargePointID request) w in
  transactions (db w) !! id = None →
  faults w (S (calls w)) = false →
  faults w (3 + calls w)%nat = false →
  eval (OnStartTransaction chargePointID request) w =
    (Some (StartTransactionConfirmation.mk (IdTagInfo.mk "Accepted") id), None)
  ∧ eval (db.GetTransaction id) w1 =
      inr (Transaction.mk id chargePointID
             (StartTransactionRequest.ConnectorId request)
             (StartTransactionRequest.IdTag request)
             (StartTransactionRequest.Timestamp request) time_zero
             (StartTransactionRequest.MeterStart request) 0 "InProgress"
             (now w (S (tick w))) (now w (S (tick w)))).
Proof.
  cbv zeta. intros Hnew Hsave Hread.
  destruct (OnStartTransaction_effect chargePointID request w)
    as (w1 & Hrun & Htx & Hf & Hc & _).
  unfold eval at 1, exec. rewrite Hrun. cbn [fst snd]. split; [reflexivity|].
  rewrite GetTransaction_eval, Hf, Hc, Hread, Htx, Hsave, Hnew, lookup_insert_eq.
  reflexivity.
Qed.

(** X4. When the next id of the counter is already on file (the counter
    starts again at 1000 with every process, the table does not), the
    StartTransaction is still confirmed with status Accepted and that id,
    which belongs to the older transaction; the table is unchanged, and the
    failed insert is in the error log. *)
Theorem OnStartTransaction_confirms_an_id_already_stored
    (chargePointID : string) (request : StartTransactionRequest.t) (w : World)
    (row : TransactionRow.t) :
  let id := wrap_int (lastTransactionID w + 1) in
  let w1 := exec (OnStartTransaction chargePointID request) w in
  transactions (db w) !! id = Some row →
  eval (OnStartTransaction chargePointID request) w =
    (Some (StartTransactionConfirmation.mk (IdTagInfo.mk "Accepted") id), None)
  ∧ transactions (db w1) = transactions (db w)
  ∧ ∃ err, ("Failed to save transaction", err) ∈ errlog w1.
Proof.
  cbv zeta. intros Hrow.
  destruct (OnStartTransaction_effect chargePointID request w)
    as (w1 & Hrun & Htx & _ & _ & Hlog).
  unfold eval, exec. rewrite Hrun. cbn [fst snd]. split; [reflexivity|]. split.
  - rewrite Htx, Hrow. destruct (faults w (S (calls w))); reflexivity.
  - exists (if faults w (S (calls w)) then ErrDatabase else ErrUniqueViolation).
    apply Hlog. rewrite Hrow. destruct (faults w (S (calls w))); reflexivity.
Qed.

(** *** Heartbeat, status notification and the connection lifecycle *)

(** X5. A Heartbeat of a charge point on record, the update being
    accepted, replaces its last heartbeat and its update time by the time
    read for the update and changes nothing else of it or of any other charge
    point; the time in the confirmation is read after it, so it is the next
    reading of the clock, not the time stored. *)
Theorem OnHeartbeat_touches_the_heartbeat_time_only
    (chargePointID : string) (w : World) (row : ChargePoint.t) :
  charge_points (db w) !! chargePointID = Some row →
  faults w (S (calls w)) = false →
  charge_points (db (exec (OnHeartbeat chargePointID) w)) =
    <[chargePointID :=
        ChargePoint.mk (ChargePoint.ID row) (ChargePoint.Vendor row) (ChargePoint.Model row)
          (ChargePoint.SerialNumber row) (ChargePoint.FirmwareVersion row)
          (now w (S (tick w))) (ChargePoint.RegistrationStatus row)
          (ChargePoint.ConnectedSince row) (ChargePoint.IsConnected row)
          (ChargePoint.CreatedAt row) (now w (S (tick w)))]> (charge_points (db w))
  ∧ eval (OnHeartbeat chargePointID) w =
      (Some (HeartbeatConfirmation.mk (now w (2 + tick w)%nat)), None).
Proof.
  destruct w as [d l n t f c e]. cbn [db faults calls now tick]. intros Hrow Hok.
  unfold OnHeartbeat. run_handler. cbn [db]. split; [|reflexivity].
  rewrite charge_points_Exec_db_log, charge_points_Exec_db_heartbeat,
    charge_points_Exec_db_log, Hok.
  unfold db.touch_heartbeat. rewrite Hrow. reflexivity.
Qed.

Lemma connectors_Exec_db_log rejected msg payload d :
  connectors (Exec_db rejected (db.sql_LogOCPPMessage msg payload) d) = connectors d.
Proof. destruct rejected; reflexivity. Qed.

Lemma connectors_Exec_db_save rejected k d :
  connectors (Exec_db rejected (db.sql_SaveConnector k) d) =
    if rejected then connectors d
    else match connectors d !! (Connector.ChargePointID k, Connector.ID k) with
         | None => <[(Connector.ChargePointID k, Connector.ID k) := k]> (connectors d)
         | Some old =>
             <[(Connector.ChargePointID k, Connector.ID k) :=
                 Connector.mk (Connector.ID old) (Connector.ChargePointID old)
                   (Connector.Status k) (Connector.ErrorCode k)
                   (Connector.CreatedAt old) (Connector.UpdatedAt k)]> (connectors d)
         end.
Proof. destruct rejected; reflexivity. Qed.

Lemma OnStatusNotification_connectors chargePointID request w :
  let k := (chargePointID, StatusNotificationRequest.ConnectorId request) in
  connectors (db (exec (OnStatusNotification chargePointID request) w)) =
    if faults w (S (calls w)) then connectors (db w)
    else <[k := match connectors (db w) !! k with
                | None =>
                    Connector.mk (StatusNotificationRequest.ConnectorId request) chargePointID
                      (StatusNotificationRequest.Status request)
                      (StatusNotificationRequest.ErrorCode request)
                      (now w (S (tick w))) (now w (S (tick w)))
                | Some old =>
                    Connector.mk (Connector.ID old) (Connector.ChargePointID old)
                      (StatusNotificationRequest.Status request)
                      (StatusNotificationRequest.ErrorCode request)
                      (Connector.CreatedAt old) (now w (S (tick w)))
                end]> (connectors (db w)).
Proof.
  destruct w as [d l n t f c e]. cbv zeta. cbn [db faults calls now tick].
  unfold OnStatusNotification. run_handler. cbn [db].
  rewrite connectors_Exec_db_log, connectors_Exec_db_save, connectors_Exec_db_log.
  cbn [Connector.ID Connector.ChargePointID Connector.Status Connector.ErrorCode
       Connector.CreatedAt Connector.UpdatedAt].
  destruct (f (S c)); [reflexivity|]. destruct (connectors d !! _); reflexivity.
Qed.

(** X6. A StatusNotification whose save the database accepts leaves the
    connector of the request on record with the status and error code of the
    request, updated at the time of the save and created at the time the
    connector was first stored (the time of the save when it is new); every
    other connector is as before. *)
Theorem OnStatusNotification_upserts_the_connector
    (chargePointID : string) (request : StatusNotificationRequest.t) (w : World) :
  let k := (chargePointID, StatusNotificationRequest.ConnectorId request) in
  let w1 := exec (OnStatusNotification chargePointID request) w in
  faults w (S (calls w)) = false →
  (∃ row, connectors (db w1) !! k = Some row
     ∧ Connector.Status row = StatusNotificationRequest.Status request
     ∧ Connector.ErrorCode row = StatusNotificationRequest.ErrorCode request
     ∧ Connector.UpdatedAt row = now w (S (tick w))
     ∧ Connector.CreatedAt row =
         default (now w (S (tick w))) (Connector.CreatedAt <$> connectors (db w) !! k))
  ∧ (∀ k', k' ≠ k → connectors (db w1) !! k' = connectors (db w) !! k').
Proof.
  cbv zeta. intros Hok. rewrite OnStatusNotification_connectors, Hok. cbv zeta. split.
  - rewrite lookup_insert_eq. eexists. split; [reflexivity|].
    destruct (connectors (db w) !! _); cbn; auto.
  - intros k' Hne. rewrite lookup_insert_ne by congruence. reflexivity.
Qed.

(** X7. A disconnection of a charge point on record, the update being
    accepted, marks it not connected and sets its update time; its identity,
    its last heartbeat and its connectedSince stay, and so does every other
    charge point. *)
Theorem handleChargePointDisconnected_marks_not_connected
    (id : string) (w : World) (row : ChargePoint.t) :
  charge_points (db w) !! id = Some row →
  faults w (calls w) = false →
  charge_points (db (exec (handleChargePointDisconnected id) w)) =
    <[id :=
        ChargePoint.mk (ChargePoint.ID row) (ChargePoint.Vendor row) (ChargePoint.Model row)
          (ChargePoint.SerialNumber row) (ChargePoint.FirmwareVersion row)
          (ChargePoint.LastHeartbeat row) (ChargePoint.RegistrationStatus row)
          (ChargePoint.ConnectedSince row) false
          (ChargePoint.CreatedAt row) (now w (tick w))]> (charge_points (db w)).
Proof.
  destruct w as [d l n t f c e]. cbn [db faults calls now tick]. intros Hrow Hok.
  unfold handleChargePointDisconnected. run_handler. cbn [db].
  rewrite charge_points_Exec_db_connection, Hok.
  unfold db.mark_connection. rewrite Hrow. reflexivity.
Qed.

(** X8. A connection of a charge point on record, the read and the save
    being accepted, keeps vendor, model, serial number, firmware version,
    last heartbeat, registration status and creation time, marks it connected,
    and sets connectedSince to the time read by the handler exactly when the
    record was not connected. *)
Theorem handleNewChargePoint_keeps_the_identity_on_record
    (id : string) (w : World) (row : ChargePoint.t) :
  charge_points (db w) !! id = Some row →
  faults w (calls w) = false →
  faults w (S (calls w)) = false →
  charge_points (db (exec (handleNewChargePoint id) w)) =
    <[id :=
        ChargePoint.mk id (ChargePoint.Vendor row) (ChargePoint.Model row)
          (ChargePoint.SerialNumber row) (ChargePoint.FirmwareVersion row)
          (ChargePoint.LastHeartbeat row) (ChargePoint.RegistrationStatus row)
          (if ChargePoint.IsConnected row then ChargePoint.ConnectedSince row
           else now w (tick w))
          true (ChargePoint.CreatedAt row) (now w (S (tick w)))]> (charge_points (db w)).
Proof.
  intros Hrow Hread Hsave.
  rewrite handleNewChargePoint_charge_points, Hsave.
  unfold connect_record, db.GetChargePoint. destruct w as [d l n t f c e].
  cbn [db faults calls now tick] in *. unfold eval. rewrite QueryRow_run. cbn [snd].
  rewrite Hread, Hrow. cbn [fmap option_fmap option_map].
  unfold db.upsert_charge_point. rewrite stamp_ID. cbn [ChargePoint.ID
    ChargePoint.set_ConnectedSince ChargePoint.set_IsConnected ChargePoint.set_ID].
  rewrite Hrow. unfold db.stamp.
  destruct (IsZero _); destruct (ChargePoint.IsConnected row); reflexivity.
Qed.

(** *** No record is lost *)

Lemma retains_refl d : retains d d.
Proof. unfold retains. repeat split; eauto 10. Qed.

Lemma retains_trans d1 d2 d3 : retains d1 d2 → retains d2 d3 → retains d1 d3.
Proof.
  intros (Hc1 & Hk1 & Ht1 & Ho1 & Hm1) (Hc2 & Hk2 & Ht2 & Ho2 & Hm2).
  unfold retains. repeat apply conj.
  - intros id row H. destruct (Hc1 _ _ H) as (r2 & H2 & E2).
    destruct (Hc2 _ _ H2) as (r3 & H3 & E3). exists r3. split; [exact H3 | congruence].
  - intros k row H. destruct (Hk1 _ _ H) as (r2 & H2 & E2).
    destruct (Hk2 _ _ H2) as (r3 & H3 & E3). exists r3. split; [exact H3 | congruence].
  - intros id row H. destruct (Ht1 _ _ H) as (r2 & Hr2 & ? & ? & ? & ? & ? & ?).
    destruct (Ht2 _ _ Hr2) as (r3 & Hr3 & ? & ? & ? & ? & ? & ?).
    exists r3. split; [exact Hr3|]. repeat split; congruence.
  - etransitivity; eassumption.
  - etransitivity; eassumption.
Qed.

Lemma keeps_records_ret {A} (a : A) : keeps_records (mret a).
Proof. intros w. apply retains_refl. Qed.

Lemma keeps_records_bind {A B} (m : M A) (k : A → M B) :
  keeps_records m → (∀ a, keeps_records (k a)) → keeps_records (m ≫= k).
Proof.
  intros Hm Hk w. rewrite exec_bind. eapply retains_trans; [apply Hm | apply Hk].
Qed.

Lemma keeps_records_fmap {A B} (g : A → B) (m : M A) :
  keeps_records m → keeps_records (g <$> m).
Proof. intros Hm w. rewrite exec_fmap. apply Hm. Qed.

Lemma keeps_records_for_range {A} (l : list A) (body : A → M unit) :
  (∀ x, keeps_records (body x)) → keeps_records (for_range l body).
Proof.
  intros Hb. induction l as [|x l IH]; cbn [for_range].
  - apply keeps_records_ret.
  - apply keeps_records_bind; auto.
Qed.

Lemma keeps_records_preserves {A} (m : M A) : preserves db m → keeps_records m.
Proof. intros Hp w. rewrite (Hp w). apply retains_refl. Qed.

Lemma keeps_records_Exec stmt :
  (∀ d d', stmt d = inr d' → retains d d') → keeps_records (Exec stmt).
Proof.
  intros H w. unfold exec, Exec. destruct (faults w (calls w)); [apply retains_refl|].
  destruct (stmt (db w)) eqn:E; [apply retains_refl|]. cbn. apply H. exact E.
Qed.

Lemma keeps_records_QueryRow {A} (q : DB → option A) : keeps_records (QueryRow q).
Proof.
  intros w. unfold exec, QueryRow. destruct (faults w (calls w)); [apply retains_refl|].
  destruct (q (db w)); apply retains_refl.
Qed.

(** A statement that rewrites one row of one keyed table retains the
    database when the row keeps what is written once. *)
Lemma retains_charge_points (d : DB) (g : gmap string ChargePoint.t → gmap string ChargePoint.t) :
  (∀ id row, charge_points d !! id = Some row →
     ∃ row', g (charge_points d) !! id = Some row'
       ∧ ChargePoint.CreatedAt row' = ChargePoint.CreatedAt row) →
  retains d (set_charge_points g d).
Proof. intros H. unfold retains. cbn. repeat split; eauto 10. Qed.

Lemma retains_connectors (d : DB) (g : gmap (string * Z) Connector.t → gmap (string * Z) Connector.t) :
  (∀ k row, connectors d !! k = Some row →
     ∃ row', g (connectors d) !! k = Some row'
       ∧ Connector.CreatedAt row' = Connector.CreatedAt row) →
  retains d (set_connectors g d).
Proof. intros H. unfold retains. cbn. repeat split; eauto 10. Qed.

Lemma retains_transactions (d : DB) (g : gmap Z TransactionRow.t → gmap Z TransactionRow.t) :
  (∀ id row, transactions d !! id = Some row →
     ∃ row', g (transactions d) !! id = Some row'
       ∧ TransactionRow.charge_point_id row' = TransactionRow.charge_point_id row
       ∧ TransactionRow.connector_id row' = TransactionRow.connector_id row
       ∧ TransactionRow.id_tag row' = TransactionRow.id_tag row
       ∧ TransactionRow.start_time row' = TransactionRow.start_time row
       ∧ TransactionRow.meter_start row' = TransactionRow.meter_start row
       ∧ TransactionRow.created_at row' = TransactionRow.created_at row) →
  retains d (set_transactions g d).
Proof. intros H. unfold retains. cbn. repeat split; eauto 10. Qed.

Lemma retains_sql_SaveChargePoint cp d d' :
  db.sql_SaveChargePoint cp d = inr d' → retains d d'.
Proof.
  intros [= <-]. apply retains_charge_points. intros id row H.
  unfold db.upsert_charge_point.
  destruct (decide (ChargePoint.ID cp = id)) as [->|Hne].
  - rewrite H, lookup_insert_eq. eauto.
  - destruct (charge_points d !! ChargePoint.ID cp);
      rewrite lookup_insert_ne by exact Hne; eauto.
Qed.

Lemma retains_sql_UpdateChargePointConnection id connected now d d' :
  db.sql_UpdateChargePointConnection id connected now d = inr d' → retains d d'.
Proof.
  intros [= <-]. apply retains_charge_points. intros id' row H.
  unfold db.mark_connection.
  destruct (charge_points d !! id) as [r|] eqn:E; [|eauto].
  destruct (decide (id = id')) as [->|Hne].
  - destruct connected; rewrite lookup_insert_eq; eexists; (split; [reflexivity|]);
      cbn; congruence.
  - destruct connected; rewrite lookup_insert_ne by exact Hne; eauto.
Qed.

Lemma retains_sql_UpdateHeartbeat id now d d' :
  db.sql_UpdateHeartbeat id now d = inr d' → retains d d'.
Proof.
  intros [= <-]. apply retains_charge_points. intros id' row H.
  unfold db.touch_heartbeat.
  destruct (charge_points d !! id) as [r|] eqn:E; [|eauto].
  destruct (decide (id = id')) as [->|Hne].
  - rewrite lookup_insert_eq. eexists. split; [reflexivity|]. cbn. congruence.
  - rewrite lookup_insert_ne by exact Hne. eauto.
Qed.

Lemma retains_sql_SaveConnector c d d' :
  db.sql_SaveConnector c d = inr d' → retains d d'.
Proof.
  unfold db.sql_SaveConnector. cbv zeta.
  intros [= <-]. apply retains_connectors. intros k row H. cbv beta.
  destruct (decide ((Connector.ChargePointID c, Connector.ID c) = k)) as [<-|Hne].
  - rewrite H, lookup_insert_eq. eauto.
  - destruct (connectors d !! (Connector.ChargePointID c, Connector.ID c));
      rewrite lookup_insert_ne by exact Hne; eauto.
Qed.

Lemma retains_sql_StartTransaction tx d d' :
  db.sql_StartTransaction tx d = inr d' → retains d d'.
Proof.
  unfold db.sql_StartTransaction.
  destruct (transactions d !! Transaction.ID tx) eqn:E; [discriminate|].
  intros [= <-]. apply retains_transactions. intros id row H.
  rewrite lookup_insert_ne by congruence. eauto 10.
Qed.

Lemma retains_sql_StopTransaction id endTime meterStop updated d d' :
  db.sql_StopTransaction id endTime meterStop updated d = inr d' → retains d d'.
Proof.
  unfold db.sql_StopTransaction. destruct (int4_range meterStop); [|discriminate].
  intros [= <-]. apply retains_transactions. intros id' row H.
  unfold db.complete_transaction.
  destruct (transactions d !! id) as [r|] eqn:E; [|eauto 10].
  destruct (decide (id = id')) as [->|Hne].
  - rewrite lookup_insert_eq. eexists. split; [reflexivity|]. cbn.
    repeat split; congruence.
  - rewrite lookup_insert_ne by exact Hne. eauto 10.
Qed.

Lemma retains_sql_LogOCPPMessage msg payload d d' :
  db.sql_LogOCPPMessage msg payload d = inr d' → retains d d'.
Proof.
  intros [= <-]. unfold retains. cbn. repeat split; eauto 10.
  apply prefix_app_r. reflexivity.
Qed.

Lemma retains_sql_SaveMeterValue mv created d d' :
  db.sql_SaveMeterValue mv created d = inr d' → retains d d'.
Proof.
  unfold db.sql_SaveMeterValue. destruct (db.meter_value_references mv d); [|discriminate].
  intros [= <-]. unfold retains. cbn. repeat split; eauto 10.
  apply prefix_app_r. reflexivity.
Qed.

Ltac keeps_records_step :=
  first
    [ apply keeps_records_ret
    | apply keeps_records_bind; [|intros ?]
    | apply keeps_records_fmap
    | apply keeps_records_for_range; intros ?
    | apply keeps_records_QueryRow
    | apply keeps_records_preserves; intros ?; reflexivity
    | apply keeps_records_Exec; intros ? ?;
      first [ apply retains_sql_SaveChargePoint | apply retains_sql_UpdateChargePointConnection
            | apply retains_sql_UpdateHeartbeat | apply retains_sql_SaveConnector
            | apply retains_sql_StartTransaction | apply retains_sql_StopTransaction
            | apply retains_sql_LogOCPPMessage | apply retains_sql_SaveMeterValue ]
    | match goal with |- keeps_records (match ?x with _ => _ end) => destruct x end ].

Lemma deliver_keeps_records config ev : keeps_records (deliver config ev).
Proof.
  destruct ev as [id|id|id req]; [| |destruct req];
    unfold deliver, handle, handleNewChargePoint, handleChargePointDisconnected,
      OnBootNotification, OnHeartbeat, OnStatusNotification, OnMeterValues,
      OnStartTransaction, OnStopTransaction, OnAuthorize, OnDataTransfer,
      OnDiagnosticsStatusNotification, OnFirmwareStatusNotification,
      LogRequest, LogResponse, logMessage, log_if_error,
      db.SaveChargePoint, db.GetChargePoint, db.SaveConnector, db.StartTransaction,
      db.StopTransaction, db.LogOCPPMessage, db.SaveMeterValue,
      db.UpdateChargePointConnection, db.UpdateHeartbeat;
    repeat keeps_records_step.
Qed.

(** X13. Nothing is ever deleted or rewritten in what is written once.
    After any sequence of events, in any state and under any pattern of
    store failures: every charge point, connector and transaction on file
    before is on file after, a charge point and a connector with their
    creation time, a transaction with its device, connector, tag, start time,
    meter start and creation time; and the audit log and the meter values
    are extended at the end only. *)
Theorem deliver_all_retains_every_record (config : Config) (evs : list Event) (w : World) :
  retains (db w) (db (exec (deliver_all config evs) w)).
Proof.
  revert w. induction evs as [|ev evs IH]; intros w; cbn [deliver_all].
  - apply retains_refl.
  - rewrite exec_bind. eapply retains_trans; [apply deliver_keeps_records|].
    rewrite exec_bind, exec_ret. apply IH.
Qed.

(** *** The tables an event writes *)

Ltac frame_step :=
  first
    [ apply preserves_ret
    | apply preserves_bind; [|intros ?]
    | apply preserves_fmap
    | apply preserves_for_range; intros ?
    | apply preserves_time_Now; reflexivity
    | apply preserves_logrus_Error; reflexivity
    | apply preserves_QueryRow_db
    | apply generateTransactionID_preserves_db
    | apply preserves_Exec_db; intros ? ? Hstmt;
      cbv [db.sql_LogOCPPMessage db.sql_SaveConnector db.sql_StartTransaction
           db.sql_StopTransaction db.sql_SaveMeterValue db.sql_SaveChargePoint
           db.sql_UpdateHeartbeat db.sql_UpdateChargePointConnection] in Hstmt;
      repeat case_match; simplify_eq; reflexivity
    | match goal with |- preserves _ (match ?x with _ => _ end) => destruct x end ].

Ltac frame :=
  match goal with
  | |- ?table (db (exec ?m ?w)) = _ =>
      let Hp := fresh in
      assert (Hp : preserves (λ w, table (db w)) m)
        by (unfold deliver, handle, handleNewChargePoint, handleChargePointDisconnected,
              OnBootNotification, OnHeartbeat, OnStatusNotification, OnMeterValues,
              OnStartTransaction, OnStopTransaction, OnAuthorize, OnDataTransfer,
              OnDiagnosticsStatusNotification, OnFirmwareStatusNotification,
              LogRequest, LogResponse, logMessage, log_if_error,
              db.SaveChargePoint, db.GetChargePoint, db.SaveConnector, db.StartTransaction,
              db.StopTransaction, db.LogOCPPMessage, db.SaveMeterValue,
              db.UpdateChargePointConnection, db.UpdateHeartbeat;
            repeat frame_step);
      apply Hp
  end.

(** X14. The tables an event can write.  Connection events write charge
    points only (they are not audited); BootNotification and Heartbeat write
    charge points and the audit log; StatusNotification connectors;
    MeterValues meter values; StartTransaction transactions;
    StopTransaction transactions and meter values; Authorize, DataTransfer
    and the two firmware notifications nothing but the audit log.  So no
    transaction or meter value creates the charge point or connector it
    names. *)
Theorem deliver_writes_only_the_tables_of_its_event
    (config : Config) (ev : Event) (w : World) :
  let d := db w in
  let d' := db (exec (deliver config ev) w) in
  match ev with
  | Connect _ | Disconnect _ =>
      connectors d' = connectors d ∧ transactions d' = transactions d
      ∧ ocpp_messages d' = ocpp_messages d ∧ meter_values d' = meter_values d
  | Inbound _ (ReqBootNotification _) | Inbound _ ReqHeartbeat =>
      connectors d' = connectors d ∧ transactions d' = transactions d
      ∧ meter_values d' = meter_values d
  | Inbound _ (ReqStatusNotification _) =>
      charge_points d' = charge_points d ∧ transactions d' = transactions d
      ∧ meter_values d' = meter_values d
  | Inbound _ (ReqMeterValues _) =>
      charge_points d' = charge_points d ∧ connectors d' = connectors d
      ∧ transactions d' = transactions d
  | Inbound _ (ReqStartTransaction _) =>
      charge_points d' = charge_points d ∧ connectors d' = connectors d
      ∧ meter_values d' = meter_values d
  | Inbound _ (ReqStopTransaction _) =>
      charge_points d' = charge_points d ∧ connectors d' = connectors d
  | Inbound _ _ =>
      charge_points d' = charge_points d ∧ connectors d' = connectors d
      ∧ transactions d' = transactions d ∧ meter_values d' = meter_values d
  end.
Proof.
  cbv zeta. destruct ev as [id|id|id req]; [| |destruct req]; repeat split; frame.
Qed.

(** *** StopTransaction: the transaction data *)

Lemma meter_values_Exec_db_stop rejected id endTime meterStop updated d :
  meter_values (Exec_db rejected (db.sql_StopTransaction id endTime meterStop updated) d) =
    meter_values d.
Proof.
  unfold Exec_db, db.sql_StopTransaction. destruct rejected; [reflexivity|].
  destruct (int4_range meterStop); reflexivity.
Qed.

Lemma on_file_complete_transaction id endTime meterStop updated
    (m : gmap Z TransactionRow.t) (k : Z) :
  on_file (db.complete_transaction id endTime meterStop updated m) k = on_file m k.
Proof.
  unfold on_file, db.complete_transaction. destruct (m !! id) as [r|] eqn:E; [|reflexivity].
  destruct (decide (id = k)) as [->|Hne].
  - rewrite lookup_insert_eq, E. reflexivity.
  - rewrite lookup_insert_ne by exact Hne. reflexivity.
Qed.

Lemma meter_value_references_Exec_db_stop rejected id endTime meterStop updated mv d :
  db.meter_value_references mv
    (Exec_db rejected (db.sql_StopTransaction id endTime meterStop updated) d) =
    db.meter_value_references mv d.
Proof.
  unfold Exec_db, db.sql_StopTransaction. destruct rejected; [reflexivity|].
  destruct (int4_range meterStop); [|reflexivity].
  unfold db.meter_value_references.
  cbn [transactions charge_points connectors set_transactions].
  rewrite on_file_complete_transaction. reflexivity.
Qed.

Lemma OnStopTransaction_meter_values chargePointID request w :
  meter_values (db (exec (OnStopTransaction chargePointID request) w)) =
    meter_values (db w) ++
    saved_rows (db w) (now w) (2 + tick w) (faults w) (2 + calls w)
      (flat_map (λ set, map (stop_meter_value_of chargePointID request set)
                          (SampleSet.SampledValue set))
         (StopTransactionRequest.TransactionData request)).
Proof.
  destruct w as [d l n t f c e]. unfold OnStopTransaction. run_handler.
  rewrite nested_save_loop_run. run_handler. cbn [db now tick faults calls].
  rewrite meter_values_Exec_db_log, meter_values_append_meter_values,
    meter_values_Exec_db_stop, meter_values_Exec_db_log.
  f_equal. apply saved_rows_references. intros mv.
  rewrite meter_value_references_Exec_db_stop.
  apply meter_value_references_Exec_db_log.
Qed.

(** The rows a StopTransaction appends for its transaction data, in every
    state. *)
Lemma OnStopTransaction_rows chargePointID request w :
  meter_values (db (exec (OnStopTransaction chargePointID request) w)) =
    meter_values (db w) ++
    concat (imap (λ k s,
                    if faults w (2 + calls w + k)%nat
                       || negb (transaction_data_references chargePointID request (db w))
                    then []
                    else [db.meter_value_row
                            (stop_meter_value_of chargePointID request s.1 s.2)
                            (now w (2 + tick w + k)%nat)])
              (samples (StopTransactionRequest.TransactionData request))).
Proof.
  rewrite OnStopTransaction_meter_values, flat_map_samples, saved_rows_imap.
  reflexivity.
Qed.

(** X10. The rows a StopTransaction appends for its transaction data carry
    the transaction id of the request, the charge point and the connector id
    0, and they refer to the three: with the transaction, the charge point
    and a connector 0 of the charge point on file and the saves accepted
    there is one row per sample, and when one of the three is not on file no
    row is appended, whatever the verdicts of the database. *)
Theorem OnStopTransaction_saves_the_transaction_data
    (chargePointID : string) (request : StopTransactionRequest.t) (w : World) :
  let ss := samples (StopTransactionRequest.TransactionData request) in
  ∃ rows,
    meter_values (db (exec (OnStopTransaction chargePointID request) w)) =
      meter_values (db w) ++ rows
    ∧ Forall (λ row,
        MeterValueRow.transaction_id row = Some (StopTransactionRequest.TransactionId request)
        ∧ MeterValueRow.charge_point_id row = chargePointID
        ∧ MeterValueRow.connector_id row = 0) rows
    ∧ (transaction_data_references chargePointID request (db w) = true →
       (∀ k, (k < length ss)%nat → faults w (2 + calls w + k)%nat = false) →
       length rows = length ss)
    ∧ (transaction_data_references chargePointID request (db w) = false → rows = []).
Proof.
  cbv zeta. eexists. split; [apply OnStopTransaction_rows|]. split; [|split].
  - apply Forall_concat, Forall_forall. intros rows Hin.
    apply elem_of_lookup_imap in Hin. destruct Hin as (k & s & -> & _).
    destruct (_ || _); constructor; [|constructor]. repeat split.
  - intros Href Hok. rewrite Href.
    erewrite imap_ext; [rewrite concat_imap_singleton; apply length_imap|].
    intros k s Hk. cbn beta. rewrite Hok by (apply lookup_lt_Some in Hk; exact Hk).
    reflexivity.
  - intros Href. rewrite Href. apply concat_imap_nil. intros.
    rewrite orb_true_r. reflexivity.
Qed.

(** *** Updates for records that do not exist *)

Lemma complete_transaction_unknown id endTime meterStop updated (m : gmap Z TransactionRow.t) :
  m !! id = None → db.complete_transaction id endTime meterStop updated m = m.
Proof. unfold db.complete_transaction. intros ->. reflexivity. Qed.

(** X9. An UPDATE that matches no row is no error, so the updates for
    records that are not on file pass in silence.  A Heartbeat of a charge
    point that is not on file, its UPDATE accepted, creates no charge point
    and logs nothing under the message of the update, whatever becomes of
    its two audit records.  A disconnection of such a charge point, accepted,
    changes nothing in the database and logs nothing.  And a StopTransaction
    for a transaction that is not on file (its id and meter stop within
    INTEGER), its UPDATE accepted, is confirmed, changes no transaction,
    logs nothing under the message of the update, and appends none of its
    transaction data, which refer to the transaction. *)
Theorem updates_of_records_not_on_file_pass_silently (w : World) :
  (∀ id,
     charge_points (db w) !! id = None →
     faults w (S (calls w)) = false →
     let w1 := exec (OnHeartbeat id) w in
     charge_points (db w1) = charge_points (db w)
     ∧ logged "Failed to update heartbeat" (errlog w1) =
         logged "Failed to update heartbeat" (errlog w))
  ∧ (∀ id,
       charge_points (db w) !! id = None →
       faults w (calls w) = false →
       let w1 := exec (handleChargePointDisconnected id) w in
       db w1 = db w ∧ errlog w1 = errlog w)
  ∧ (∀ chargePointID request,
       transactions (db w) !! StopTransactionRequest.TransactionId request = None →
       int4_range (StopTransactionRequest.TransactionId request) = true →
       int4_range (StopTransactionRequest.MeterStop request) = true →
       faults w (S (calls w)) = false →
       let w1 := exec (OnStopTransaction chargePointID request) w in
       eval (OnStopTransaction chargePointID request) w = (Some tt, None)
       ∧ transactions (db w1) = transactions (db w)
       ∧ meter_values (db w1) = meter_values (db w)
       ∧ logged "Failed to update transaction" (errlog w1) =
           logged "Failed to update transaction" (errlog w)).
Proof.
  split; [|split].
  - intros id Hnone Hok. cbv zeta. destruct w as [d l n t f c e].
    cbn [db faults calls errlog] in *. unfold OnHeartbeat. run_handler. cbn [db errlog].
    rewrite charge_points_Exec_db_log, charge_points_Exec_db_heartbeat,
      charge_points_Exec_db_log, Hok.
    unfold db.touch_heartbeat. rewrite Hnone. split; [reflexivity|].
    rewrite !logged_app, logged_errs_same, !logged_marshal_errs, !logged_errs_other
      by discriminate.
    cbn [Exec_err db.sql_UpdateHeartbeat option_list]. rewrite !app_nil_r. reflexivity.
  - intros id Hnone Hok. cbv zeta. destruct w as [d l n t f c e].
    cbn [db faults calls errlog] in *. unfold handleChargePointDisconnected. run_handler.
    cbn [db errlog]. rewrite Hok.
    cbn [Exec_db Exec_err db.sql_UpdateChargePointConnection errs].
    rewrite app_nil_r. split; [|reflexivity].
    destruct d as [cps ks txs ms mvs]. unfold set_charge_points. cbn in *.
    unfold db.mark_connection. rewrite Hnone. reflexivity.
  - intros chargePointID request Hnone _ Hrange Hok. cbv zeta.
    split; [unfold OnStopTransaction; rewrite !eval_bind; reflexivity|]. split; [|split].
    + rewrite OnStopTransaction_transactions, Hok, Hrange. cbn [orb negb].
      apply complete_transaction_unknown. exact Hnone.
    + rewrite OnStopTransaction_rows.
      assert (Href : transaction_data_references chargePointID request (db w) = false)
        by (unfold transaction_data_references, on_file; rewrite Hnone; reflexivity).
      rewrite Href, concat_imap_nil by (intros; rewrite orb_true_r; reflexivity).
      apply app_nil_r.
    + destruct w as [d l n t f c e]. cbn [db faults calls errlog] in *.
      unfold OnStopTransaction. run_handler. rewrite nested_save_loop_run. run_handler.
      cbn [errlog].
      rewrite !logged_app, logged_errs_same, !logged_marshal_errs, !logged_errs_other,
        logged_save_errs_other by discriminate.
      unfold Exec_err at 1. rewrite Hok. unfold db.sql_StopTransaction. rewrite Hrange.
      cbn [option_list]. rewrite !app_nil_r. reflexivity.
Qed.

(** *** StopTransaction: a second stop, the bound *)

Lemma OnStopTransaction_faults chargePointID request w :
  faults (exec (OnStopTransaction chargePointID request) w) = faults w.
Proof.
  pose proof (handle_logs_failures (mkConfig 0 "" 0) chargePointID
                (ReqStopTransaction request) w) as H.
  cbv zeta in H. unfold handle in H. rewrite exec_fmap in H. apply H.
Qed.

(** X11. There is no guard on the status: a second StopTransaction for a
    transaction already completed, every call being accepted, overwrites the
    meter stop and the end time with its own; the start data stay. *)
Theorem a_second_StopTransaction_overwrites_the_first
    (chargePointID1 chargePointID2 : string) (request1 request2 : StopTransactionRequest.t)
    (w : World) (row : TransactionRow.t) :
  let id := StopTransactionRequest.TransactionId request1 in
  let w2 := exec (OnStopTransaction chargePointID2 request2)
              (exec (OnStopTransaction chargePointID1 request1) w) in
  StopTransactionRequest.TransactionId request2 = id →
  transactions (db w) !! id = Some row →
  (∀ k, faults w k = false) →
  int4_range (StopTransactionRequest.MeterStop request1) = true →
  int4_range (StopTransactionRequest.MeterStop request2) = true →
  ∃ tx, eval (db.GetTransaction id) w2 = inr tx
    ∧ Transaction.Status tx = "Completed"
    ∧ Transaction.MeterStop tx = StopTransactionRequest.MeterStop request2
    ∧ Transaction.EndTime tx = StopTransactionRequest.Timestamp request2
    ∧ Transaction.MeterStart tx = TransactionRow.meter_start row
    ∧ Transaction.StartTime tx = TransactionRow.start_time row.
Proof.
  cbv zeta. intros Hid Hrow Hok Hr1 Hr2.
  rewrite GetTransaction_eval, !OnStopTransaction_faults, Hok.
  rewrite OnStopTransaction_transactions, OnStopTransaction_faults, Hok, Hr2, Hid.
  cbn [orb negb].
  rewrite OnStopTransaction_transactions, Hok, Hr1. cbn [orb negb].
  unfold db.complete_transaction at 2. rewrite Hrow.
  unfold db.complete_transaction. rewrite lookup_insert_eq, lookup_insert_eq.
  eexists. split; [reflexivity|]. cbn.
  rewrite wrap_int32_in_range by exact Hr2. auto 10.
Qed.

(** X12. A StopTransaction whose meter stop does not fit the INTEGER
    column is confirmed all the same; no transaction is changed (the
    transaction stays as it was, in progress if it was), and the failed update
    is in the error log. *)
Theorem OnStopTransaction_with_a_meter_stop_beyond_INTEGER_completes_nothing
    (chargePointID : string) (request : StopTransactionRequest.t) (w : World) :
  let w1 := exec (OnStopTransaction chargePointID request) w in
  int4_range (StopTransactionRequest.MeterStop request) = false →
  eval (OnStopTransaction chargePointID request) w = (Some tt, None)
  ∧ transactions (db w1) = transactions (db w)
  ∧ ∃ err, ("Failed to update transaction", err) ∈ errlog w1.
Proof.
  cbv zeta. intros Hrange. split; [|split].
  - unfold OnStopTransaction. rewrite !eval_bind. reflexivity.
  - rewrite OnStopTransaction_transactions, Hrange, orb_true_r. reflexivity.
  - destruct w as [d l n t f c e]. unfold OnStopTransaction. run_handler.
    rewrite nested_save_loop_run. run_handler. cbn [errlog].
    exists (if f (S c) then ErrDatabase else ErrOutOfRange).
    rewrite !elem_of_app. left. left. left. right.
    unfold Exec_err, db.sql_StopTransaction. rewrite Hrange.
    destruct (f (S c)); left.
Qed.

(** *** The counter and the logger, once more *)

Lemma starts_cons ev evs :
  starts (ev :: evs) =
    (match ev with Inbound _ (ReqStartTransaction _) => 1 | _ => 0 end + starts evs)%nat.
Proof.
  unfold starts. rewrite filter_cons.
  destruct ev as [id|id|id []]; case_decide; try congruence; reflexivity.
Qed.

Lemma starts_le evs : (starts evs ≤ length evs)%nat.
Proof. unfold starts. apply length_filter. Qed.

(** X26. Delivered one at a time, the events of any sequence get
    consecutive transaction ids: the k-th StartTransaction of the sequence is
    confirmed with the counter's value before the sequence plus k, whatever
    else is delivered in between and whatever the store does, and the counter
    ends at its old value plus the number of StartTransaction requests (as
    long as it cannot overflow). *)
Theorem ids_of_events_delivered_in_turn_are_consecutive
    (config : Config) (evs : list Event) (w : World) :
  let l := lastTransactionID w in
  int_min ≤ l →
  l + Z.of_nat (starts evs) ≤ int_max →
  issued_ids (eval (deliver_all config evs) w) =
    (λ i, l + 1 + Z.of_nat i) <$> seq 0 (starts evs)
  ∧ lastTransactionID (exec (deliver_all config evs) w) = l + Z.of_nat (starts evs).
Proof.
  cbv zeta. revert w. induction evs as [|ev evs IH]; intros w Hmin Hmax.
  - cbn. split; [reflexivity | lia].
  - cbn [deliver_all]. rewrite !eval_bind, eval_ret, !exec_bind, exec_ret.
    rewrite issued_ids_cons, deliver_issued.
    rewrite starts_cons in *.
    specialize (IH (exec (deliver config ev) w)).
    rewrite deliver_lastTransactionID in IH.
    destruct ev as [id|id|id req];
      [rewrite Nat.add_0_l in *; apply IH; lia | rewrite Nat.add_0_l in *; apply IH; lia |].
    destruct req; try (rewrite Nat.add_0_l in *; apply IH; lia).
    rewrite wrap_int_in_range in * by lia.
    destruct IH as [Hids Hlast]; [lia | lia |].
    rewrite Hids, Hlast. cbn [Nat.add seq fmap list_fmap app]. split.
    + f_equal; [lia|]. rewrite <- seq_shift, <- list_fmap_compose.
      apply list_fmap_ext. intros _ i _. cbn. lia.
    + lia.
Qed.

(** X27. A message that does not marshal is audited all the same: the
    failure is logged, and the record, when the database accepts it, carries
    the text of an empty object in place of the message, encoded as a string
    like every payload. *)
Theorem logMessage_audits_a_message_that_does_not_marshal
    (chargePointID messageType action requestID : string) (payload : Payload)
    (direction : string) (w : World) :
  let w1 := exec (logMessage chargePointID messageType action requestID payload direction) w in
  json_Marshal payload = None →
  faults w (calls w) = false →
  ocpp_messages (db w1) =
    ocpp_messages (db w) ++
    [OCPPMessageRow.mk chargePointID messageType action requestID
       (json_Marshal_string "{}") direction (now w (tick w))]
  ∧ errlog w1 = errlog w ++ [("Failed to marshal OCPP message payload", ErrMarshal)].
Proof.
  cbv zeta. intros Hjson Hok. rewrite logMessage_audit_record, Hok.
  unfold payloadJSON. rewrite Hjson. split; [reflexivity|].
  destruct w as [d l n t f c e]. cbn [faults calls] in Hok.
  unfold exec. rewrite logMessage_run. cbn [fst errlog].
  unfold marshal_errs. rewrite Hjson, Hok. cbn [Exec_err db.sql_LogOCPPMessage errs].
  rewrite app_nil_r. reflexivity.
Qed.
End session.

(** ** Concurrent calls of the transaction id generator *)

(** A goroutine that makes its three accesses with no other access in
    between does what [generateTransactionID] does on the state of the
    process: the counter is incremented and the new value returned. *)
Lemma race_uninterrupted_call (g : Z) (w : World) :
  lastTransactionID w = g →
  race.run [0; 0; 0]%nat (race.start g 1) =
    race.mk (lastTransactionID (exec ocpp.generateTransactionID w))
      [race.Returned (eval ocpp.generateTransactionID w)].
Proof. intros <-. reflexivity. Qed.

Lemma race_run_app s1 s2 st : race.run (s1 ++ s2) st = race.run s2 (race.run s1 st).
Proof. apply fold_left_app. Qed.

Lemma race_step_middle g done p rest :
  race.step (length done) (race.mk g (done ++ p :: rest)) =
    race.mk (race.access g p).1 (done ++ (race.access g p).2 :: rest).
Proof.
  unfold race.step. cbn [race.goroutines race.shared].
  rewrite list_lookup_middle by reflexivity.
  destruct (race.access g p) as [g' p']. cbn [fst snd]. f_equal.
  rewrite insert_app_r_alt by lia. rewrite Nat.sub_diag. reflexivity.
Qed.

(** Serialized, [m] calls that start after the goroutines [done] have
    returned take the ids that follow the counter, in order. *)
Lemma race_serialized_from (m : nat) :
  ∀ (g : Z) (done : list race.pc),
    int_min ≤ g → g + Z.of_nat m ≤ int_max →
    race.run (flat_map (λ i, [i; i; i]) (seq (length done) m))
      (race.mk g (done ++ replicate m race.Enter)) =
    race.mk (g + Z.of_nat m)
      (done ++ ((λ i, race.Returned (g + 1 + Z.of_nat i)) <$> seq 0 m)).
Proof.
  induction m as [|m IH]; intros g done Hmin Hmax.
  - cbn. rewrite Z.add_0_r. reflexivity.
  - cbn [seq flat_map replicate]. rewrite race_run_app.
    assert (Hstep : race.run [length done; length done; length done]
              (race.mk g (done ++ race.Enter :: replicate m race.Enter)) =
            race.mk (g + 1) ((done ++ [race.Returned (g + 1)]) ++ replicate m race.Enter)).
    { unfold race.run; cbn [fold_left].
      rewrite !race_step_middle. cbn [race.access fst snd].
      rewrite wrap_int_in_range by lia. rewrite <- app_assoc. reflexivity. }
    rewrite Hstep.
    replace (S (length done)) with (length (done ++ [race.Returned (g + 1)]))
      by (rewrite length_app; cbn; lia).
    rewrite IH by lia.
    rewrite <- app_assoc. cbn [app fmap list_fmap]. f_equal; [lia|].
    f_equal. rewrite Z.add_0_r. f_equal.
    rewrite <- seq_shift, <- list_fmap_compose.
    apply list_fmap_ext. intros _ i _. cbn. f_equal. lia.
Qed.

(** When the calls are serialized the ids are distinct and increasing: what
    an atomic increment or a lock would guarantee. *)
Lemma race_serialized_calls (g : Z) (n : nat) :
  int_min ≤ g → g + Z.of_nat n ≤ int_max →
  race.results (race.run (race.serial n) (race.start g n)) =
    (λ i, Some (g + 1 + Z.of_nat i)) <$> seq 0 n.
Proof.
  intros Hmin Hmax. unfold race.serial, race.start, race.results.
  pose proof (race_serialized_from n g [] Hmin Hmax) as H. cbn [length app] in H.
  rewrite H. cbn [race.goroutines]. rewrite <- list_fmap_compose. reflexivity.
Qed.

(** C1 (what the code does). Two StartTransaction requests from different
    devices run [generateTransactionID] concurrently, the counter being [g]
    (1000 in a fresh process).  When each reads the counter before the other
    writes it, both return g+1; when both increments come before both
    returns, both return g+2 and g+1 is never issued.  Either way the two
    calls return the same id. *)
Theorem generateTransactionID_concurrent_calls_return_same_id (g : Z) :
  race.results (race.run [0; 1; 0; 1; 0; 1]%nat (race.start g 2)) =
    [Some (wrap_int (g + 1)); Some (wrap_int (g + 1))]
  ∧ race.results (race.run [0; 0; 1; 1; 0; 1]%nat (race.start g 2)) =
    [Some (wrap_int (wrap_int (g + 1) + 1)); Some (wrap_int (wrap_int (g + 1) + 1))].
Proof. split; reflexivity. Qed.

(** In a fresh process both calls get 1001. *)
Example first_two_concurrent_calls_get_1001 :
  race.results
    (race.run [0; 1; 0; 1; 0; 1]%nat (race.start ocpp.lastTransactionID_init 2)) =
    [Some 1001; Some 1001].
Proof. reflexivity. Qed.

(** *** Every interleaving *)

Lemma stores_cons p ps :
  stores (p :: ps) =
    (match p with race.Stored | race.Returned _ => 1 | _ => 0 end) + stores ps.
Proof.
  unfold stores. rewrite filter_cons. destruct p; cbn [decide_rel];
    repeat case_decide; try congruence; cbn [length]; lia.
Qed.

Lemma stores_bounds ps : 0 ≤ stores ps ≤ Z.of_nat (length ps).
Proof.
  induction ps as [|p ps IH]; [unfold stores; cbn; lia|].
  rewrite stores_cons. cbn [length]. destruct p; lia.
Qed.

Lemma stores_insert i p p' ps :
  ps !! i = Some p →
  stores (<[i := p']> ps) =
    stores ps
    - (match p with race.Stored | race.Returned _ => 1 | _ => 0 end)
    + (match p' with race.Stored | race.Returned _ => 1 | _ => 0 end).
Proof.
  revert i. induction ps as [|q ps IH]; intros [|i] H; try discriminate.
  - cbn in H. injection H as ->.
    change (<[0%nat := p']> (p :: ps)) with (p' :: ps). rewrite !stores_cons. lia.
  - cbn in H. change (<[S i := p']> (q :: ps)) with (q :: <[i := p']> ps).
    rewrite !stores_cons, (IH i H). lia.
Qed.

Lemma stores_pending i p ps :
  ps !! i = Some p →
  match p with race.Stored | race.Returned _ => False | _ => True end →
  stores ps + 1 ≤ Z.of_nat (length ps).
Proof.
  intros H Hp.
  pose proof (stores_insert i p race.Stored ps H) as Hins.
  pose proof (stores_bounds (<[i := race.Stored]> ps)) as Hb.
  rewrite length_insert in Hb. destruct p; try contradiction; lia.
Qed.

Lemma within_mono g k k' (ps : list race.pc) :
  k ≤ k' →
  Forall (λ p, match p with
               | race.Loaded tmp => g ≤ tmp ≤ g + k
               | race.Returned id => g < id ≤ g + k
               | _ => True
               end) ps →
  Forall (λ p, match p with
               | race.Loaded tmp => g ≤ tmp ≤ g + k'
               | race.Returned id => g < id ≤ g + k'
               | _ => True
               end) ps.
Proof.
  intros Hk H. eapply Forall_impl; [exact H|]. intros [|tmp| |id]; cbn; lia.
Qed.

Lemma within_step g n i s :
  int_min ≤ g → g + Z.of_nat n ≤ int_max →
  length (race.goroutines s) = n →
  within g (race.shared s) (race.goroutines s) →
  within g (race.shared (race.step i s)) (race.goroutines (race.step i s))
  ∧ length (race.goroutines (race.step i s)) = n.
Proof.
  intros Hmin Hmax Hlen Hw. pose proof Hw as (Hshared & Hpos & Hall).
  unfold race.step. destruct (race.goroutines s !! i) as [p|] eqn:Hp;
    [|split; [exact Hw | exact Hlen]].
  pose proof (stores_insert i p) as Hins.
  pose proof (stores_bounds (race.goroutines s)) as Hb.
  assert (Hpi := Hp). apply (Forall_lookup_1 _ _ _ _ Hall) in Hpi.
  destruct p as [|tmp| |id]; cbn [race.access race.shared race.goroutines];
    (split; [|rewrite length_insert; exact Hlen]).
  - (* the counter is read *)
    unfold within. rewrite (Hins (race.Loaded (race.shared s)) _ Hp).
    rewrite Z.sub_0_r, Z.add_0_r. repeat split; try tauto; try lia.
    apply Forall_insert; [exact Hall | lia].
  - (* the sum is written *)
    pose proof (stores_pending i _ _ Hp I) as Hpend.
    unfold within. rewrite (Hins race.Stored _ Hp).
    rewrite wrap_int_in_range by (unfold int_min, int_max in *; lia).
    repeat split; try lia.
    apply Forall_insert; [|exact I].
    eapply within_mono; [|exact Hall]. lia.
  - (* the counter is read again and returned *)
    unfold within. rewrite (Hins (race.Returned (race.shared s)) _ Hp).
    assert (0 < stores (race.goroutines s)).
    { pose proof (stores_insert i race.Stored race.Enter _ Hp) as H0.
      pose proof (stores_bounds (<[i := race.Enter]> (race.goroutines s))).
      cbn in H0. lia. }
    replace (stores (race.goroutines s) - 1 + 1) with
      (stores (race.goroutines s)) by lia.
    repeat split; try tauto; try lia.
    apply Forall_insert; [exact Hall | lia].
  - (* the call has returned *)
    rewrite list_insert_id by exact Hp. exact Hw.
Qed.

Lemma within_run g n schedule s :
  int_min ≤ g → g + Z.of_nat n ≤ int_max →
  length (race.goroutines s) = n →
  within g (race.shared s) (race.goroutines s) →
  within g (race.shared (race.run schedule s)) (race.goroutines (race.run schedule s))
  ∧ length (race.goroutines (race.run schedule s)) = n.
Proof.
  intros Hmin Hmax. revert s. induction schedule as [|i schedule IH]; intros s Hlen Hw.
  - split; assumption.
  - cbn [race.run fold_left].
    destruct (within_step g n i s Hmin Hmax Hlen Hw) as [Hw' Hlen'].
    apply (IH (race.step i s) Hlen' Hw').
Qed.

(** X15. However the accesses of [n] concurrent calls interleave (any
    schedule, complete or not), as long as the counter cannot overflow every
    id returned is above the counter the calls started from and at most that
    counter plus [n], and so is the counter: an id can repeat, but none
    falls outside the ids of [n] serialized calls. *)
Theorem generateTransactionID_ids_stay_within_the_calls_made
    (g : Z) (n : nat) (schedule : list nat) :
  int_min ≤ g →
  g + Z.of_nat n ≤ int_max →
  let s := race.run schedule (race.start g n) in
  Forall (λ r, ∀ id, r = Some id → g < id ≤ g + Z.of_nat n) (race.results s)
  ∧ g ≤ race.shared s ≤ g + Z.of_nat n.
Proof.
  intros Hmin Hmax. cbv zeta.
  assert (Hstart : within g (race.shared (race.start g n)) (race.goroutines (race.start g n))).
  { unfold race.start. cbn [race.shared race.goroutines].
    assert (Hs : stores (replicate n race.Enter) = 0).
    { induction n as [|n IH]; [reflexivity|]. cbn [replicate]. rewrite stores_cons.
      rewrite IH by lia. reflexivity. }
    unfold within. rewrite Hs. repeat split; try lia.
    apply Forall_forall. intros p Hp. apply elem_of_replicate in Hp as [-> _]. exact I. }
  destruct (within_run g n schedule (race.start g n) Hmin Hmax) as [(Hsh & _ & Hall) Hlen];
    [unfold race.start; cbn; apply length_replicate | exact Hstart |].
  pose proof (stores_bounds (race.goroutines (race.run schedule (race.start g n)))) as Hb.
  rewrite Hlen in Hb. split; [|lia].
  unfold race.results. apply Forall_fmap. eapply Forall_impl; [exact Hall|].
  intros [|tmp| |id'] H id; cbn; intros [= <-]. lia.
Qed.

(** ** The command service *)

Section dispatch.
Import service.
Context {T : Type}.
Variable OcppServer : string → Command → Callback → T → T * option error.

Lemma call_run chargePointID cmd cb (t : T) (sent : list Sent) :
  call OcppServer chargePointID cmd cb (t, sent) =
    (((OcppServer chargePointID cmd cb t).1, sent ++ [(chargePointID, cmd)]),
     (OcppServer chargePointID cmd cb t).2).
Proof. unfold call. cbn. destruct (OcppServer chargePointID cmd cb t); reflexivity. Qed.

(** What every method of the service does, on every transport: when the
    argument the method checks itself is valid (a reset type Hard or Soft,
    an availability type Operative or Inoperative; the other methods check
    nothing), it makes exactly one call to the transport, for the device and
    with the request of the command, and returns the synchronous result of
    that call; otherwise it returns an error and makes no call. *)
Lemma invoke_calls_the_transport_once
    (chargePointID : string) (inv : Invocation) (t : T) (sent : list Sent) :
  let r := invoke OcppServer chargePointID inv (t, sent) in
  if valid_argument inv
  then r.1.2 = sent ++ [(chargePointID, request_of inv)]
       ∧ ∃ failed,
           (r.1.1, r.2) = OcppServer chargePointID (request_of inv) (callback failed) t
  else r.1 = (t, sent) ∧ is_Some r.2.
Proof.
  cbv zeta. destruct inv; cbn [valid_argument invoke request_of];
    unfold ResetChargePoint, ChangeAvailability, UnlockConnector, RemoteStartTransaction,
      RemoteStopTransaction, TriggerHeartbeat, TriggerStatusNotification, GetDiagnostics,
      UpdateFirmware, ClearCache, GetConfiguration, ChangeConfiguration;
    repeat match goal with
           | |- context [String.eqb ?a ?b] => destruct (String.eqb_spec a b); subst
           end;
    cbn [orb];
    try (rewrite call_run; cbn [fst snd]; split; [reflexivity|]; eexists;
         symmetry; apply surjective_pairing);
    (split; [reflexivity | eexists; reflexivity]).
Qed.
End dispatch.

Lemma transport_call_run chargePointID cmd cb (t : service.Transport) :
  service.transport_call chargePointID cmd cb t =
    if bool_decide (chargePointID ∈ service.directory t)
    then (service.mkTransport (service.directory t)
            (service.outstanding t ++ [(chargePointID, cmd, cb)]), None)
    else (t, Some (ErrTransport "charge point is not connected")).
Proof.
  unfold service.transport_call.
  destruct (existsb (String.eqb chargePointID) (service.directory t)) eqn:E.
  - rewrite bool_decide_true; [reflexivity|].
    apply existsb_exists in E. destruct E as (x & Hin & Heq).
    apply String.eqb_eq in Heq. subst x. apply list_elem_of_In. exact Hin.
  - rewrite bool_decide_false; [reflexivity|]. intros Hin.
    apply list_elem_of_In in Hin.
    assert (existsb (String.eqb chargePointID) (service.directory t) = true) as Hex
      by (apply existsb_exists; exists chargePointID; split;
          [exact Hin | apply String.eqb_refl]).
    congruence.
Qed.

(** C8 (amended). For every command of the service whose argument is well
    formed, every target device and every state of the transport of the
    specification, the method invokes the transport call, once.  When the
    device is not connected that call fails at once and the method returns
    its error to the caller: nothing is outstanding, no continuation will
    fire.  When the device is connected the method returns nil at once and
    has handed over one continuation, outstanding with the call; the
    transport confirms the call to it once, with the confirmation or with a
    transport or timeout error, after which the call is outstanding no more
    and nothing is left to fire; and the continuation logs the error it is
    given and nothing for a confirmation. *)
Theorem invoke_fails_at_once_or_hands_over_one_continuation
    (chargePointID : string) (inv : service.Invocation) (t : service.Transport)
    (sent : list service.Sent) :
  let r := service.invoke service.transport_call chargePointID inv (t, sent) in
  let k := length (service.outstanding t) in
  service.valid_argument inv = true →
  r.1.2 = sent ++ [(chargePointID, service.request_of inv)]
  ∧ (chargePointID ∉ service.directory t → is_Some r.2 ∧ r.1.1 = t)
  ∧ (chargePointID ∈ service.directory t →
     r.2 = None
     ∧ ∃ failed,
         r.1.1 = service.mkTransport (service.directory t)
                   (service.outstanding t
                      ++ [(chargePointID, service.request_of inv, service.callback failed)])
         ∧ ∀ outcome,
             service.transport_complete k outcome r.1.1 =
               (t, service.callback failed outcome)
             ∧ service.transport_complete k outcome t = (t, mret tt)
             ∧ ∀ w, errlog (exec (service.callback failed outcome) w) =
                      errlog w ++ errs failed outcome
                    ∧ db (exec (service.callback failed outcome) w) = db w).
Proof.
  cbv zeta. intros Hvalid.
  pose proof (invoke_calls_the_transport_once service.transport_call chargePointID inv
                t sent) as H.
  cbv zeta in H. rewrite Hvalid in H. destruct H as (Hsent & failed & Hcall).
  rewrite transport_call_run in Hcall.
  split; [exact Hsent|]. split.
  - intros Hout. rewrite bool_decide_false in Hcall by exact Hout.
    injection Hcall as -> ->. split; [eexists; reflexivity | reflexivity].
  - intros Hin. rewrite bool_decide_true in Hcall by exact Hin.
    injection Hcall as Ht Hr. split; [exact Hr|]. exists failed. split; [exact Ht|].
    intros outcome. rewrite Ht. unfold service.transport_complete.
    cbn [service.outstanding service.directory].
    rewrite list_lookup_middle by reflexivity. rewrite delete_middle, app_nil_r.
    match goal with
    | |- context [match ?x with Some _ => _ | None => _ end] =>
        assert (x = None) as -> by (apply lookup_ge_None; reflexivity)
    end.
    split; [destruct t; reflexivity|]. split; [reflexivity|].
    intros w. destruct outcome as [e|]; cbn [service.callback errs];
      [split; reflexivity|]. rewrite app_nil_r. split; reflexivity.
Qed.

(** C8 (counterexample). Reset of a device that is not connected, on a
    transport that rejects calls to devices outside its directory: the
    caller gets the error synchronously, but the call to the transport was
    made; the error is the transport's, not a check of the service. *)
Lemma ResetChargePoint_not_connected_calls_transport :
  let t := service.mkTransport [] [] in
  let r := service.ResetChargePoint service.transport_call "CP-2" "Hard" (t, []) in
  r.2 = Some (ErrTransport "charge point is not connected")
  ∧ r.1.2 = [("CP-2", service.CmdReset "Hard")]
  ∧ ¬ (is_Some r.2 ∧ r.1.2 = []).
Proof.
  cbv zeta. split; [reflexivity|]. split; [reflexivity|].
  intros [_ H]. discriminate H.
Qed.

(** ** The list queries of the store *)

Lemma Query_run {A} (q : DB → list A) d l n t f c e :
  Query q (mkWorld d l n t f c e) =
    (mkWorld d l n t f (S c) e, if f c then inl ErrDatabase else inr (q d)).
Proof. unfold Query, next_call; cbn. destruct (f c); reflexivity. Qed.

Lemma id_asc_total : Total db.id_asc.
Proof. intros a b. unfold db.id_asc. lia. Qed.

Lemma id_asc_trans : Transitive db.id_asc.
Proof. intros a b c. unfold db.id_asc. lia. Qed.

Lemma created_at_desc_total : Total db.created_at_desc.
Proof. intros a b. unfold db.created_at_desc. lia. Qed.

Lemma created_at_desc_trans : Transitive db.created_at_desc.
Proof. intros a b c. unfold db.created_at_desc. lia. Qed.

Lemma select_connectors_elem (c : Connector.t) (chargePointID : string) (d : DB) :
  c ∈ db.select_connectors chargePointID d ↔
  ∃ id row, connectors d !! (chargePointID, id) = Some row
    ∧ c = Connector.mk id chargePointID (Connector.Status row) (Connector.ErrorCode row)
            (Connector.CreatedAt row) (Connector.UpdatedAt row).
Proof.
  unfold db.select_connectors. rewrite merge_sort_Permutation, list_elem_of_fmap.
  split.
  - intros ([[cp id] row] & -> & Hin). apply list_elem_of_filter in Hin.
    destruct Hin as [Hcp Hin]. cbn in Hcp. subst cp.
    apply elem_of_map_to_list in Hin. exists id, row. split; [exact Hin | reflexivity].
  - intros (id & row & Hrow & ->). exists ((chargePointID, id), row).
    split; [reflexivity|]. apply list_elem_of_filter. split; [reflexivity|].
    apply elem_of_map_to_list. exact Hrow.
Qed.

Lemma select_connectors_NoDup (chargePointID : string) (d : DB) :
  NoDup (Connector.ID <$> db.select_connectors chargePointID d).
Proof.
  unfold db.select_connectors. rewrite merge_sort_Permutation, <- list_fmap_compose.
  apply NoDup_fmap_2_strong.
  - intros [[cp1 id1] r1] [[cp2 id2] r2] H1 H2 Hid. cbn in Hid. subst id2.
    apply list_elem_of_filter in H1, H2. destruct H1 as [E1 H1], H2 as [E2 H2].
    cbn in E1, E2. subst cp1 cp2.
    apply elem_of_map_to_list in H1, H2. congruence.
  - apply NoDup_filter, NoDup_map_to_list.
Qed.

Lemma StronglySorted_strict {A} (key : A → Z) (l : list A) :
  StronglySorted (λ a b, key a ≤ key b) l → NoDup (key <$> l) →
  StronglySorted (λ a b, key a < key b) l.
Proof.
  induction 1 as [|a l Hl IH Hall]; intros Hnd; [constructor|].
  cbn in Hnd. apply NoDup_cons in Hnd. destruct Hnd as [Hnotin Hnd].
  constructor; [apply IH; exact Hnd|].
  apply Forall_forall. intros b Hb.
  apply List.Forall_forall with (x := b) in Hall; [|apply list_elem_of_In; exact Hb].
  assert (key a ≠ key b) by (intros E; apply Hnotin; rewrite E; apply list_elem_of_fmap_2; exact Hb).
  lia.
Qed.

(** X16. A GetConnectors that the database answers returns exactly the
    connectors on file for the charge point, each once, in strictly
    ascending order of connector id, and leaves the database as it is; for a
    charge point with no connector on file, known or not, the list is empty
    and there is no error. *)
Theorem GetConnectors_lists_the_connectors_of_the_charge_point
    (chargePointID : string) (w : World) :
  faults w (calls w) = false →
  ∃ l, eval (db.GetConnectors chargePointID) w = inr l
    ∧ db (exec (db.GetConnectors chargePointID) w) = db w
    ∧ (∀ c, c ∈ l ↔
         ∃ id row, connectors (db w) !! (chargePointID, id) = Some row
           ∧ c = Connector.mk id chargePointID (Connector.Status row)
                   (Connector.ErrorCode row) (Connector.CreatedAt row)
                   (Connector.UpdatedAt row))
    ∧ StronglySorted (λ a b, Connector.ID a < Connector.ID b) l
    ∧ ((∀ id, connectors (db w) !! (chargePointID, id) = None) → l = []).
Proof.
  destruct w as [d l n t f c e]. cbn [db faults calls]. intros Hok.
  unfold db.GetConnectors, eval, exec. rewrite Query_run, Hok. cbn [fst snd db].
  eexists. split; [reflexivity|]. split; [reflexivity|].
  split; [intros k; apply select_connectors_elem|]. split.
  - apply (StronglySorted_strict Connector.ID); [|apply select_connectors_NoDup].
    apply (@StronglySorted_merge_sort _ db.id_asc _ id_asc_trans id_asc_total).
  - intros Hnone. destruct (db.select_connectors chargePointID d) as [|k ks] eqn:E;
      [reflexivity|].
    assert (Hin : k ∈ db.select_connectors chargePointID d) by (rewrite E; left).
    apply select_connectors_elem in Hin. destruct Hin as (id & row & Hrow & _).
    rewrite Hnone in Hrow. discriminate.
Qed.

(** X17. A GetAllChargePoints that the database answers returns exactly
    the charge points on file, each once, ordered by creation time, newest
    first, and leaves the database as it is. *)
Theorem GetAllChargePoints_lists_every_charge_point_newest_first (w : World) :
  faults w (calls w) = false →
  ∃ l, eval db.GetAllChargePoints w = inr l
    ∧ db (exec db.GetAllChargePoints w) = db w
    ∧ (∀ cp, cp ∈ l ↔
         ∃ row, charge_points (db w) !! ChargePoint.ID cp = Some row
           ∧ cp = ChargePoint.set_ID (ChargePoint.ID cp) row)
    ∧ NoDup (ChargePoint.ID <$> l)
    ∧ StronglySorted (λ a b, ChargePoint.CreatedAt b ≤ ChargePoint.CreatedAt a) l.
Proof.
  destruct w as [d l n t f c e]. cbn [db faults calls]. intros Hok.
  unfold db.GetAllChargePoints, eval, exec. rewrite Query_run, Hok. cbn [fst snd db].
  eexists. split; [reflexivity|]. split; [reflexivity|]. split; [|split].
  - intros cp. unfold db.select_charge_points.
    rewrite merge_sort_Permutation, list_elem_of_fmap. split.
    + intros ([id row] & -> & Hin). apply elem_of_map_to_list in Hin.
      exists row. cbn. split; [exact Hin | reflexivity].
    + intros (row & Hrow & Hcp). exists (ChargePoint.ID cp, row).
      split; [exact Hcp|]. apply elem_of_map_to_list. exact Hrow.
  - unfold db.select_charge_points. rewrite merge_sort_Permutation, <- list_fmap_compose.
    replace (ChargePoint.ID ∘ (λ kv : string * ChargePoint.t, ChargePoint.set_ID kv.1 kv.2))
      with (fst : string * ChargePoint.t → string) by reflexivity.
    apply NoDup_fst_map_to_list.
  - apply (@StronglySorted_merge_sort _ db.created_at_desc _ created_at_desc_trans
             created_at_desc_total).
Qed.

(** ** The REST API *)

Section api.
Import handlers.
Context {T : Type} {SC : Strconv} {DC : Decoder}.
Variable OcppServer : string → service.Command → service.Callback → T → T * option error.

Lemma api_bind_run {A B} (m : Api A) (k : A → Api B) (s : State (T := T)) :
  (m ≫= k) s = k (m s).2 (m s).1.
Proof. unfold mbind, Api_bind. destruct (m s); reflexivity. Qed.

Lemma on_process_run {A} (m : M A) (s : State (T := T)) :
  on_process m s = ((exec m s.1, s.2), eval m s.1).
Proof. unfold on_process, exec, eval. destruct (m s.1); reflexivity. Qed.

Lemma on_transport_run {A} (m : service.Svc A) (s : State (T := T)) :
  on_transport m s = ((s.1, (m s.2).1), (m s.2).2).
Proof. unfold on_transport. destruct (m s.2); reflexivity. Qed.

Lemma command_run failed sent (method : service.Svc (option error)) (s : State (T := T)) :
  command failed sent method s =
    match (method s.2).2 with
    | Some e =>
        ((exec (logrus_Error failed e) s.1, (method s.2).1),
         sendErrorResponse failed StatusInternalServerError)
    | None => ((s.1, (method s.2).1), sendResponse (Response.mk true sent None))
    end.
Proof.
  unfold command. rewrite api_bind_run, on_transport_run. cbn [fst snd].
  destruct (method s.2).2; [|reflexivity].
  rewrite api_bind_run, on_process_run. reflexivity.
Qed.

Lemma service_call_run chargePointID cmd cb (s : T * list service.Sent) :
  service.call OcppServer chargePointID cmd cb s =
    (((OcppServer chargePointID cmd cb s.1).1, s.2 ++ [(chargePointID, cmd)]),
     (OcppServer chargePointID cmd cb s.1).2).
Proof.
  unfold service.call. destruct (OcppServer chargePointID cmd cb s.1); reflexivity.
Qed.

(** X18. Every command route of the API, for every request and state,
    either answers 400 and leaves the process and the transport as they
    were (nothing sent, nothing logged), or makes exactly one call to the
    transport for the charge point of the URL and answers for it: 200 with
    nothing logged when the transport accepts the call, 500 when it returns an
    error, which is logged once under the message that is also the body's,
    the error itself never being part of the body.  So the checks of the
    reset type and the availability type in the service cannot fail behind
    the API: a 500 is always the transport's error. *)
Theorem command_handler_answers_for_the_transport
    (route : CommandRoute) (r : HTTPRequest) (s : State (T := T)) :
  let id := URLParam r "id" in
  let res := command_handler OcppServer route r s in
  (StatusCode res.2 = 400 ∧ res.1 = s)
  ∨ ∃ cmd cb,
      let tr := OcppServer id cmd cb s.2.1 in
      res.1.2 = (tr.1, s.2.2 ++ [(id, cmd)])
      ∧ match tr.2 with
        | None => StatusCode res.2 = 200 ∧ res.1.1 = s.1
        | Some err =>
            StatusCode res.2 = 500
            ∧ ∃ msg, res.1.1 = exec (logrus_Error msg err) s.1
                ∧ ResponseBody res.2 = BodyErrorResponse (ErrorResponse.mk false msg)
        end.
Proof.
  cbv zeta.
  destruct route; cbn [command_handler];
    unfold Reset, ChangeAvailability, UnlockConnector, RemoteStartTransaction,
      RemoteStopTransaction, TriggerHeartbeat, GetDiagnostics, UpdateFirmware, ClearCache,
      GetConfiguration, ChangeConfiguration;
    cbv zeta;
    repeat match goal with
           | |- context [if ?b then _ else _] =>
               lazymatch b with
               | context [if _ then _ else _] => fail
               | _ => destruct b eqn:?
               end
           | |- context [match ?x with Some _ => _ | None => _ end] =>
               lazymatch x with
               | context [OcppServer] => fail
               | _ => destruct x eqn:?
               end
           end.
  all: try (left; split; reflexivity).
  all: right; rewrite command_run;
    unfold service.ResetChargePoint, service.ChangeAvailability, service.UnlockConnector,
      service.RemoteStartTransaction, service.RemoteStopTransaction,
      service.TriggerHeartbeat, service.GetDiagnostics, service.UpdateFirmware,
      service.ClearCache, service.GetConfiguration, service.ChangeConfiguration.
  all: repeat match goal with
              | H : negb _ && negb _ = false |- _ =>
                  apply andb_false_iff in H; rewrite !negb_false_iff in H
              end.
  all: repeat match goal with
              | |- context [if String.eqb ?a ?b then _ else _] =>
                  destruct (String.eqb a b) eqn:?
              end.
  all: try (exfalso; intuition congruence).
  all: rewrite !service_call_run; cbn [fst snd];
    match goal with
    | |- context [OcppServer ?a ?cmd ?cb ?t] =>
        exists cmd, cb; cbv zeta; destruct (OcppServer a cmd cb t) as [t' [err|]]
    end;
    cbn [fst snd]; (split; [reflexivity|]); (split; [reflexivity|]); eauto.
Qed.

Lemma GetChargePoint_eval id w :
  eval (db.GetChargePoint id) w =
    if faults w (calls w) then inl ErrDatabase
    else match charge_points (db w) !! id with
         | None => inl ErrNoRows
         | Some row => inr (ChargePoint.set_ID id row)
         end.
Proof.
  destruct w as [d l n t f c e]. unfold eval. rewrite GetChargePoint_run. cbn [snd db faults calls].
  destruct (f c); [reflexivity|]. destruct (charge_points d !! id); reflexivity.
Qed.

(** X19. The two routes that read one record never answer 404: the store
    returns a record or an error, never neither, so the branch for a nil
    record is dead.  A charge point or transaction that is not on file is
    answered with 500 and logged as a failure of the store. *)
Theorem a_record_that_is_missing_is_answered_with_500_never_404
    (r : HTTPRequest) (s : State (T := T)) :
  StatusCode (GetChargePoint r s).2 ≠ 404
  ∧ StatusCode (GetTransaction r s).2 ≠ 404
  ∧ (URLParam r "id" ≠ "" →
     faults s.1 (calls s.1) = false →
     charge_points (db s.1) !! URLParam r "id" = None →
     (GetChargePoint r s).2 =
       sendErrorResponse "Failed to get charge point" StatusInternalServerError
     ∧ errlog (GetChargePoint r s).1.1 =
         errlog s.1 ++ [("Failed to get charge point", ErrNoRows)])
  ∧ (∀ id,
       URLParam r "id" ≠ "" →
       Atoi (URLParam r "id") = inr id →
       faults s.1 (calls s.1) = false →
       transactions (db s.1) !! id = None →
       (GetTransaction r s).2 =
         sendErrorResponse "Failed to get transaction" StatusInternalServerError
       ∧ errlog (GetTransaction r s).1.1 =
           errlog s.1 ++ [("Failed to get transaction", ErrNoRows)]).
Proof.
  destruct s as [w ts]. cbn [fst snd]. repeat apply conj.
  - unfold GetChargePoint. cbv zeta. destruct (String.eqb _ _); [discriminate|].
    rewrite api_bind_run, on_process_run. cbn [fst snd].
    destruct (eval (service.GetChargePoint _) w); cbn [pointer_and_error];
      [rewrite api_bind_run, on_process_run|]; discriminate.
  - unfold GetTransaction. cbv zeta. destruct (String.eqb _ _); [discriminate|].
    destruct (Atoi _); [discriminate|].
    rewrite api_bind_run, on_process_run. cbn [fst snd].
    destruct (eval (service.GetTransaction _) w); cbn [pointer_and_error];
      [rewrite api_bind_run, on_process_run|]; discriminate.
  - intros Hid Hok Hnone. unfold GetChargePoint. cbv zeta.
    apply String.eqb_neq in Hid. rewrite Hid.
    rewrite api_bind_run, on_process_run. cbn [fst snd].
    unfold service.GetChargePoint. rewrite GetChargePoint_eval, Hok, Hnone.
    cbn [pointer_and_error]. rewrite api_bind_run, on_process_run. cbn [fst snd].
    split; [reflexivity|].
    assert (Hp : preserves errlog (db.GetChargePoint (URLParam r "id")))
      by (unfold db.GetChargePoint; apply preserves_QueryRow; reflexivity).
    unfold exec at 1. cbn. f_equal. apply Hp.
  - intros id Hid Hatoi Hok Hnone. unfold GetTransaction. cbv zeta.
    apply String.eqb_neq in Hid. rewrite Hid, Hatoi.
    rewrite api_bind_run, on_process_run. cbn [fst snd].
    unfold service.GetTransaction. rewrite GetTransaction_eval, Hok, Hnone.
    cbn [pointer_and_error]. rewrite api_bind_run, on_process_run. cbn [fst snd].
    split; [reflexivity|].
    destruct w as [d l n t f c e]. unfold exec. rewrite GetTransaction_run. reflexivity.
Qed.

(** X20. The connectors of a charge point with none on file, and so of one
    that is not on file either, are answered with 200 and an empty list, and
    nothing is logged. *)
Theorem GetConnectors_of_an_unknown_charge_point_is_an_empty_success
    (r : HTTPRequest) (s : State (T := T)) :
  URLParam r "id" ≠ "" →
  faults s.1 (calls s.1) = false →
  (∀ connectorID, connectors (db s.1) !! (URLParam r "id", connectorID) = None) →
  (GetConnectors r s).2 = sendResponse (Response.mk true "" (Some (DataConnectors [])))
  ∧ errlog (GetConnectors r s).1.1 = errlog s.1.
Proof.
  destruct s as [[d l n t f c e] ts]. cbn [fst snd db faults calls errlog].
  intros Hid Hok Hnone. unfold GetConnectors. cbv zeta.
  apply String.eqb_neq in Hid. rewrite Hid.
  rewrite api_bind_run, on_process_run. cbn [fst snd].
  unfold service.GetConnectors, db.GetConnectors, eval, exec. rewrite Query_run, Hok.
  cbn [fst snd]. split; [|reflexivity]. do 4 f_equal.
  destruct (db.select_connectors (URLParam r "id") d) as [|k ks] eqn:E; [reflexivity|].
  assert (Hin : k ∈ db.select_connectors (URLParam r "id") d) by (rewrite E; left).
  apply select_connectors_elem in Hin. destruct Hin as (id & row & Hrow & _).
  rewrite Hnone in Hrow. discriminate.
Qed.

End api.

(** ** From the devices to the API *)

Section end_to_end.
Import handlers.
Context {RT : Runtime} {T : Type} {SC : Strconv} {DC : Decoder}.

Lemma handle_faults config chargePointID req w :
  faults (exec (ocpp.handle config chargePointID req) w) = faults w.
Proof. apply (handle_logs_failures config chargePointID req w). Qed.

Lemma OnBootNotification_calls config chargePointID request w :
  calls (exec (ocpp.OnBootNotification config chargePointID request) w) = (3 + calls w)%nat.
Proof.
  destruct w as [d l n t f c e]. unfold ocpp.OnBootNotification, exec, ocpp.LogRequest,
    ocpp.LogResponse. repeat first [ rewrite logMessage_run | progress run ]. reflexivity.
Qed.

(** X21. After a BootNotification, every database call being accepted, the
    API answers the route of that charge point with 200 and the record:
    the vendor, model, serial number and firmware version of the request,
    registration status Accepted, connected. *)
Theorem a_booted_charge_point_is_served_by_the_API
    (config : Config) (request : BootNotificationRequest.t) (r : HTTPRequest)
    (w : World) (ts : T * list service.Sent) :
  let id := URLParam r "id" in
  let w1 := exec (ocpp.OnBootNotification config id request) w in
  id ≠ "" →
  (∀ k, faults w k = false) →
  ∃ cp,
    (GetChargePoint r (w1, ts)).2 =
      sendResponse (Response.mk true "" (Some (DataChargePoint cp)))
    ∧ ChargePoint.ID cp = id
    ∧ ChargePoint.Vendor cp = BootNotificationRequest.ChargePointVendor request
    ∧ ChargePoint.Model cp = BootNotificationRequest.ChargePointModel request
    ∧ ChargePoint.SerialNumber cp = BootNotificationRequest.ChargePointSerialNumber request
    ∧ ChargePoint.FirmwareVersion cp = BootNotificationRequest.FirmwareVersion request
    ∧ ChargePoint.RegistrationStatus cp = "Accepted"
    ∧ ChargePoint.IsConnected cp = true.
Proof.
  cbv zeta. intros Hid Hok.
  set (id := URLParam r "id") in *.
  set (w1 := exec (ocpp.OnBootNotification config id request) w).
  assert (Hf : faults w1 = faults w).
  { pose proof (handle_faults config id (ReqBootNotification request) w) as H.
    unfold ocpp.handle in H. rewrite exec_fmap in H. exact H. }
  assert (∃ row, charge_points (db w1) !! id = Some row
     ∧ ChargePoint.Vendor row = BootNotificationRequest.ChargePointVendor request
     ∧ ChargePoint.Model row = BootNotificationRequest.ChargePointModel request
     ∧ ChargePoint.SerialNumber row = BootNotificationRequest.ChargePointSerialNumber request
     ∧ ChargePoint.FirmwareVersion row = BootNotificationRequest.FirmwareVersion request
     ∧ ChargePoint.RegistrationStatus row = "Accepted"
     ∧ ChargePoint.IsConnected row = true) as (row & Hrow & Hfields).
  { unfold w1. destruct w as [d l n t f c e]. cbn [faults] in Hok.
    unfold ocpp.OnBootNotification, exec, ocpp.LogRequest, ocpp.LogResponse.
    repeat first [ rewrite logMessage_run | progress run ]. cbn [db].
    rewrite charge_points_Exec_db_log, charge_points_Exec_db_save, Hok.
    match goal with
    | |- context [db.upsert_charge_point ?cp ?m] =>
        destruct (upsert_charge_point_lookup cp m) as (row & Hrow & Hfields)
    end.
    rewrite stamp_ID in Hrow. cbn [ChargePoint.ID] in Hrow.
    exists row. split; [exact Hrow|].
    unfold db.stamp in Hfields. cbn in Hfields.
    destruct Hfields as (? & ? & ? & ? & ? & ? & ?). auto 10. }
  exists (ChargePoint.set_ID id row).
  split; [|destruct Hfields as (? & ? & ? & ? & ? & ?); cbn; auto 10].
  unfold GetChargePoint. cbv zeta. fold id.
  apply String.eqb_neq in Hid. rewrite Hid.
  rewrite api_bind_run, on_process_run. cbn [fst snd].
  unfold service.GetChargePoint. rewrite GetChargePoint_eval, Hf, Hok, Hrow. reflexivity.
Qed.

(** X22. After a StartTransaction whose id was not on file, every database
    call being accepted, the API answers the route of the confirmed id with
    200 and the transaction in progress: the data of the request, no end
    time, meter stop 0. *)
Theorem a_started_transaction_is_served_by_the_API
    (chargePointID : string) (request : StartTransactionRequest.t) (r : HTTPRequest)
    (w : World) (ts : T * list service.Sent) :
  let id := wrap_int (lastTransactionID w + 1) in
  let w1 := exec (ocpp.OnStartTransaction chargePointID request) w in
  URLParam r "id" ≠ "" →
  Atoi (URLParam r "id") = inr id →
  transactions (db w) !! id = None →
  (∀ k, faults w k = false) →
  eval (ocpp.OnStartTransaction chargePointID request) w =
    (Some (StartTransactionConfirmation.mk (IdTagInfo.mk "Accepted") id), None)
  ∧ (GetTransaction r (w1, ts)).2 =
      sendResponse
        (Response.mk true ""
           (Some (DataTransaction
                    (Transaction.mk id chargePointID
                       (StartTransactionRequest.ConnectorId request)
                       (StartTransactionRequest.IdTag request)
                       (StartTransactionRequest.Timestamp request) time_zero
                       (StartTransactionRequest.MeterStart request) 0 "InProgress"
                       (now w (S (tick w))) (now w (S (tick w))))))).
Proof.
  cbv zeta. intros Hid Hatoi Hnew Hok.
  destruct (OnStartTransaction_effect chargePointID request w)
    as (w1 & Hrun & Htx & Hf & _ & _).
  unfold eval at 1, exec. rewrite Hrun. cbn [fst snd]. split; [reflexivity|].
  unfold GetTransaction. cbv zeta.
  apply String.eqb_neq in Hid. rewrite Hid, Hatoi.
  rewrite api_bind_run, on_process_run. cbn [fst snd].
  unfold service.GetTransaction.
  rewrite GetTransaction_eval, Hf, Hok, Htx, Hok, Hnew, lookup_insert_eq. reflexivity.
Qed.

(** X23. After a StatusNotification, every database call being accepted,
    the API lists the connector of the request among the connectors of the
    charge point, with the status and error code reported. *)
Theorem a_reported_connector_is_served_by_the_API
    (request : StatusNotificationRequest.t) (r : HTTPRequest)
    (w : World) (ts : T * list service.Sent) :
  let id := URLParam r "id" in
  let w1 := exec (ocpp.OnStatusNotification id request) w in
  id ≠ "" →
  (∀ k, faults w k = false) →
  ∃ connectors created,
    (GetConnectors r (w1, ts)).2 =
      sendResponse (Response.mk true "" (Some (DataConnectors connectors)))
    ∧ Connector.mk (StatusNotificationRequest.ConnectorId request) id
        (StatusNotificationRequest.Status request)
        (StatusNotificationRequest.ErrorCode request) created (now w (S (tick w)))
      ∈ connectors.
Proof.
  cbv zeta. intros Hid Hok.
  set (id := URLParam r "id") in *.
  set (w1 := exec (ocpp.OnStatusNotification id request) w).
  assert (Hf : faults w1 = faults w).
  { pose proof (handle_faults (mkConfig 0 "" 0) id (ReqStatusNotification request) w) as H.
    unfold ocpp.handle in H. rewrite exec_fmap in H. exact H. }
  pose proof (OnStatusNotification_connectors id request w) as Hk. cbv zeta in Hk.
  rewrite Hok in Hk. fold w1 in Hk.
  exists (db.select_connectors id (db w1)).
  exists (default (now w (S (tick w)))
            (Connector.CreatedAt <$>
               connectors (db w) !! (id, StatusNotificationRequest.ConnectorId request))).
  split.
  - unfold GetConnectors. cbv zeta. fold id.
    apply String.eqb_neq in Hid. rewrite Hid.
    rewrite api_bind_run, on_process_run. cbn [fst snd].
    unfold service.GetConnectors, db.GetConnectors, eval.
    destruct w1 as [d1 l1 n1 t1 f1 c1 e1]. cbn [faults] in Hf. subst f1.
    rewrite Query_run, Hok. reflexivity.
  - apply select_connectors_elem.
    exists (StatusNotificationRequest.ConnectorId request). eexists.
    split; [rewrite Hk; apply lookup_insert_eq|].
    destruct (connectors (db w) !! _); reflexivity.
Qed.

End end_to_end.

(** ** The configuration *)

Section configuration.
Context {RT : Runtime} {SC : Strconv}.
Import config.

(** X24. LoadConfig takes every setting from the environment or, when the
    variable is not set, from its default; it fails exactly when one of the
    four numbers (server port, API port, database port, heartbeat interval)
    does not parse, never for a string setting; and a variable that is set
    but empty is not replaced by its default, so an empty number makes it
    fail. *)
Theorem LoadConfig_fails_exactly_when_a_number_does_not_parse (env : Env) :
  let numbers :=
    [("SERVER_PORT", "8887"); ("API_PORT", "8888"); ("DB_PORT", "5432");
     ("HEARTBEAT_INTERVAL", "600")] in
  (∀ c, LoadConfig env = inr c →
     Atoi (getEnv env "SERVER_PORT" "8887") = inr (ServerPort c)
     ∧ Atoi (getEnv env "API_PORT" "8888") = inr (APIPort c)
     ∧ Atoi (getEnv env "DB_PORT" "5432") = inr (DBPort c)
     ∧ Atoi (getEnv env "HEARTBEAT_INTERVAL" "600") = inr (HeartbeatInterval c)
     ∧ OCPPPath c = getEnv env "OCPP_PATH" "/ocpp"
     ∧ DBHost c = getEnv env "DB_HOST" "localhost"
     ∧ DBUser c = getEnv env "DB_USER" "postgres"
     ∧ DBPassword c = getEnv env "DB_PASSWORD" "postgres"
     ∧ DBName c = getEnv env "DB_NAME" "cpms"
     ∧ DBSSLMode c = getEnv env "DB_SSL_MODE" "disable"
     ∧ LogLevel c = getEnv env "LOG_LEVEL" "info")
  ∧ ((∃ e, LoadConfig env = inl e) ↔
     ∃ key fallback err, (key, fallback) ∈ numbers
       ∧ Atoi (getEnv env key fallback) = inl err)
  ∧ (∀ key fallback err,
       (key, fallback) ∈ numbers →
       env !! key = Some "" →
       Atoi "" = inl err →
       ∃ e, LoadConfig env = inl e).
Proof.
  cbv zeta.
  assert (Hiff : (∃ e, LoadConfig env = inl e) ↔
     ∃ key fallback err,
       (key, fallback) ∈ [("SERVER_PORT", "8887"); ("API_PORT", "8888"); ("DB_PORT", "5432");
                          ("HEARTBEAT_INTERVAL", "600")]
       ∧ Atoi (getEnv env key fallback) = inl err).
  { unfold LoadConfig. split.
    - intros [e He].
      destruct (Atoi (getEnv env "SERVER_PORT" "8887")) eqn:E1;
        [exists "SERVER_PORT", "8887"; eexists; split; [set_solver | exact E1]|].
      destruct (Atoi (getEnv env "API_PORT" "8888")) eqn:E2;
        [exists "API_PORT", "8888"; eexists; split; [set_solver | exact E2]|].
      destruct (Atoi (getEnv env "DB_PORT" "5432")) eqn:E3;
        [exists "DB_PORT", "5432"; eexists; split; [set_solver | exact E3]|].
      destruct (Atoi (getEnv env "HEARTBEAT_INTERVAL" "600")) eqn:E4;
        [exists "HEARTBEAT_INTERVAL", "600"; eexists; split; [set_solver | exact E4]|].
      discriminate.
    - intros (key & fallback & err & Hin & Herr).
      repeat (apply elem_of_cons in Hin; destruct Hin as [[= -> ->]|Hin]);
        [| | | |apply elem_of_nil in Hin; contradiction];
        repeat match goal with
               | |- context [match Atoi ?s with _ => _ end] =>
                   first [ rewrite Herr | destruct (Atoi s) ]
               end; eauto. }
  split; [|split; [exact Hiff|]].
  - intros c. unfold LoadConfig.
    destruct (Atoi (getEnv env "SERVER_PORT" "8887")); [discriminate|].
    destruct (Atoi (getEnv env "API_PORT" "8888")); [discriminate|].
    destruct (Atoi (getEnv env "DB_PORT" "5432")); [discriminate|].
    destruct (Atoi (getEnv env "HEARTBEAT_INTERVAL" "600")); [discriminate|].
    intros [= <-]. cbn. auto 15.
  - intros key fallback err Hin Hset Hempty. apply Hiff.
    exists key, fallback, err. split; [exact Hin|].
    unfold getEnv. rewrite Hset. exact Hempty.
Qed.

(** X25. The heartbeat interval of a configuration that loaded is the
    integer HEARTBEAT_INTERVAL spells (600 when it is not set), whatever its
    sign or size, and every BootNotification confirmation carries it. *)
Theorem the_heartbeat_interval_of_the_environment_reaches_the_devices
    (env : Env) (c : config.t) (chargePointID : string) (request : BootNotificationRequest.t)
    (w : World) :
  LoadConfig env = inr c →
  ∃ interval currentTime,
    Atoi (default "600" (env !! "HEARTBEAT_INTERVAL")) = inr interval
    ∧ eval (ocpp.OnBootNotification (central_system c) chargePointID request) w =
        (Some (BootNotificationConfirmation.mk currentTime interval "Accepted"), None).
Proof.
  intros Hload. unfold LoadConfig in Hload.
  destruct (Atoi (getEnv env "SERVER_PORT" "8887")); [discriminate|].
  destruct (Atoi (getEnv env "API_PORT" "8888")); [discriminate|].
  destruct (Atoi (getEnv env "DB_PORT" "5432")); [discriminate|].
  destruct (Atoi (getEnv env "HEARTBEAT_INTERVAL" "600")) as [|interval] eqn:E;
    [discriminate|].
  injection Hload as <-. exists interval. eexists. split.
  - unfold getEnv in E. destruct (env !! "HEARTBEAT_INTERVAL"); exact E.
  - pose proof (handle_eval (central_system
        (mk z z0 (getEnv env "OCPP_PATH" "/ocpp") (getEnv env "DB_HOST" "localhost") z1
           (getEnv env "DB_USER" "postgres") (getEnv env "DB_PASSWORD" "postgres")
           (getEnv env "DB_NAME" "cpms") (getEnv env "DB_SSL_MODE" "disable") interval
           (getEnv env "LOG_LEVEL" "info")))
        chargePointID (ReqBootNotification request) w) as H.
    unfold ocpp.handle in H. rewrite eval_fmap in H. cbn [confirmation_of] in H.
    destruct (eval _ w) as [[conf|] err]; cbn in H; [|discriminate].
    injection H as -> ->. reflexivity.
Qed.

End configuration.

(** ** The properties at concrete inputs *)

(** The first StartTransaction of a process, by CP-1 for its connector 1,
    both on file, is confirmed with id 1001, and a StopTransaction for it
    leaves the transaction Completed. *)
Example start_then_stop_scenario :
  let start := ReqStartTransaction (StartTransactionRequest.mk 1 "TAG1" 1700000000 100) in
  let stop := ReqStopTransaction stop_1001 in
  let run := @ocpp.deliver_all example_runtime example_config
               [ocpp.Inbound "CP-1" start; ocpp.Inbound "CP-1" stop] in
  eval run world_with_connectors =
    [Some (ConfStartTransaction
             (StartTransactionConfirmation.mk (IdTagInfo.mk "Accepted") 1001));
     Some ConfStopTransaction]
  ∧ eval (db.GetTransaction 1001) (exec run world_with_connectors) =
      inr (Transaction.mk 1001 "CP-1" 1 "TAG1" 1700000000 1700003600 100 250 "Completed"
             (example_clock 1) (example_clock 4)).
Proof. split; vm_compute; reflexivity. Qed.

(** C10 at CP-1: the record of vendor Acme is on file, the read is
    rejected, the save accepted, and the connection handler stores vendor
    and model Unknown and status Pending over it. *)
Lemma handleNewChargePoint_overwrites_acme :
  charge_points (db world_with_acme) !! "CP-1" = Some acme_charge_point
  ∧ ∃ row, charge_points (db (exec (ocpp.handleNewChargePoint "CP-1") world_with_acme))
             !! "CP-1" = Some row
      ∧ ChargePoint.Vendor row = "Unknown"
      ∧ ChargePoint.Model row = "Unknown"
      ∧ ChargePoint.RegistrationStatus row = "Pending"
      ∧ ChargePoint.SerialNumber row = ""
      ∧ ChargePoint.FirmwareVersion row = ""
      ∧ ChargePoint.IsConnected row = true.
Proof.
  split; [reflexivity|].
  apply (handleNewChargePoint_failed_read_overwrites_identity
           "CP-1" world_with_acme ErrDatabase); reflexivity.
Defined.

(** C2 at CP-1: two connections in a row on a fresh process; the second
    leaves connectedSince as the first stored it. *)
Lemma second_connect_keeps_connectedSince :
  let connect := @ocpp.deliver example_runtime example_config (ocpp.Connect "CP-1") in
  let w1 := exec connect fresh_world in
  let w2 := exec connect w1 in
  ∃ row1 row2,
    charge_points (db w1) !! "CP-1" = Some row1
    ∧ charge_points (db w2) !! "CP-1" = Some row2
    ∧ ChargePoint.ConnectedSince row2 = ChargePoint.ConnectedSince row1.
Proof.
  exact (proj1 (proj2 (@connectedSince_changes_only_when_connecting
                         example_runtime example_config))
           "CP-1" fresh_world eq_refl).
Defined.

(** C4 at transaction 1001: stopped at meter 250, it reads back Completed
    with that meter stop and the end time of the request. *)
Lemma stop_1001_reads_back_completed :
  ∃ tx, eval (db.GetTransaction 1001)
          (exec (@ocpp.OnStopTransaction example_runtime "CP-1" stop_1001)
             world_with_transaction) = inr tx
    ∧ Transaction.Status tx = "Completed"
    ∧ Transaction.MeterStop tx = 250
    ∧ Transaction.EndTime tx = 1700003600.
Proof.
  destruct (@OnStopTransaction_completes_and_creates_nothing example_runtime
              "CP-1" stop_1001 world_with_transaction transaction_1001)
    as [Hget _]; [reflexivity | reflexivity | reflexivity |].
  apply Hget. reflexivity.
Defined.

(** C10 (counterexample). The record of vendor Acme is on file and the
    deadline of the connection handler passes during its read: the read
    fails, the save fails on the same deadline, and the record of Acme is as
    it was, not overwritten. *)
Lemma handleNewChargePoint_read_past_the_deadline_keeps_acme :
  deadline_passes world_with_acme_past_deadline 0 1
  ∧ eval (db.GetChargePoint "CP-1") world_with_acme_past_deadline = inl ErrDatabase
  ∧ charge_points
      (db (exec (ocpp.handleNewChargePoint "CP-1") world_with_acme_past_deadline))
      !! "CP-1" = Some acme_charge_point
  ∧ ChargePoint.Vendor acme_charge_point = "Acme".
Proof.
  assert (Hpast : deadline_passes world_with_acme_past_deadline 0 1)
    by (intros j Hj; destruct j as [|[|j]]; [reflexivity | reflexivity | lia]).
  destruct (handleNewChargePoint_past_the_deadline "CP-1" _ Hpast) as (Hread & Hdb & _).
  split; [exact Hpast|]. split; [exact Hread|]. rewrite Hdb. split; reflexivity.
Qed.

(** C4 (counterexample). Transaction 1001 is on file and in progress and the
    database accepts every call: stopped with the meter stop 2147483648,
    which a Go int holds and the INTEGER column does not, it reads back as it
    was, in progress, with no meter stop and no end time. *)
Lemma stop_1001_beyond_INTEGER_reads_back_in_progress :
  transactions (db world_with_transaction) !! 1001 = Some transaction_1001
  ∧ StopTransactionRequest.MeterStop stop_1001_beyond = 2147483648
  ∧ eval (db.GetTransaction 1001)
      (exec (@ocpp.OnStopTransaction example_runtime "CP-1" stop_1001_beyond)
         world_with_transaction) =
      inr (Transaction.mk 1001 "CP-1" 1 "TAG1" 1700000000 0 100 0 "InProgress"
             1700000000 1700000000).
Proof. split; [|split]; vm_compute; reflexivity. Qed.

(** C5 at a request of three samples in two sample sets without a
    transaction id, for connector 1 of CP-1, both on file, every call
    accepted by the database: no row is appended, and the three saves are
    logged as foreign key violations. *)
Lemma meter_values_request_appends_no_row :
  eval (@ocpp.OnMeterValues example_runtime "CP-1" meter_values_request)
    world_with_connectors = (Some tt, None)
  ∧ meter_values
      (db (exec (@ocpp.OnMeterValues example_runtime "CP-1" meter_values_request)
             world_with_connectors)) = meter_values (db world_with_connectors)
  ∧ logged "Failed to save meter value"
      (errlog (exec (@ocpp.OnMeterValues example_runtime "CP-1" meter_values_request)
                 world_with_connectors)) =
      [ErrForeignKey; ErrForeignKey; ErrForeignKey].
Proof.
  exact (@OnMeterValues_without_transaction_id_appends_no_row example_runtime
           "CP-1" meter_values_request world_with_connectors eq_refl eq_refl).
Defined.

(** The same request when a transaction, CP-1 and its connector 1 are on
    file and the request names the transaction: three rows, the second with
    the default unit and measurand, the third with value 0.0 for the sample
    that is not a number. *)
Example meter_values_of_transaction_1001 :
  let request := MeterValuesRequest.mk 1 (Some 1001)
                   (MeterValuesRequest.MeterValue meter_values_request) in
  meter_values
    (db (exec (@ocpp.OnMeterValues example_runtime "CP-1" request) world_with_references)) =
    [ MeterValueRow.mk (Some 1001) "CP-1" 1 1700000100 1200%float "W" "Power.Active.Import"
        (example_clock 1);
      MeterValueRow.mk (Some 1001) "CP-1" 1 1700000100 42%float "Wh"
        "Energy.Active.Import.Register" (example_clock 2);
      MeterValueRow.mk (Some 1001) "CP-1" 1 1700000200 0%float "Wh"
        "Energy.Active.Import.Register" (example_clock 3) ].
Proof.
  exact (@OnMeterValues_appends_one_row_per_sample example_runtime "CP-1"
           (MeterValuesRequest.mk 1 (Some 1001)
              (MeterValuesRequest.MeterValue meter_values_request))
           world_with_references eq_refl (λ k _, eq_refl)).
Qed.

(** C6 at CP-1: BootNotification of vendor Acme, model X1, on a fresh
    process. *)
Lemma boot_acme_is_accepted_and_stored :
  eval (@ocpp.OnBootNotification example_runtime example_config "CP-1" boot_acme) fresh_world =
    (Some (BootNotificationConfirmation.mk (example_clock 4) 600 "Accepted"), None)
  ∧ ∃ row, charge_points
             (db (exec (@ocpp.OnBootNotification example_runtime example_config "CP-1"
                          boot_acme) fresh_world)) !! "CP-1" = Some row
      ∧ ChargePoint.Vendor row = "Acme"
      ∧ ChargePoint.Model row = "X1"
      ∧ ChargePoint.SerialNumber row = "SN-1"
      ∧ ChargePoint.FirmwareVersion row = "1.0"
      ∧ ChargePoint.RegistrationStatus row = "Accepted"
      ∧ ChargePoint.LastHeartbeat row = example_clock 1
      ∧ ChargePoint.IsConnected row = true.
Proof.
  destruct (@OnBootNotification_upserts_identity_and_accepts example_runtime
              example_config "CP-1" boot_acme fresh_world) as [Hconf Hrow].
  split; [exact Hconf | exact (Hrow eq_refl)].
Defined.


(** C7 at a Heartbeat of CP-1: the request marshals to an empty object, and the
    payload of its audit record is that text between double quotes, a JSON
    string, not the object. *)
Example heartbeat_audit_payload_is_a_quoted_string :
  OCPPMessageRow.payload <$>
    head (ocpp_messages (db (exec (@ocpp.OnHeartbeat example_runtime "CP-1") world_with_charge_point))) =
    Some (String quote_char ("{}" +:+ String quote_char EmptyString)).
Proof. vm_compute. reflexivity. Qed.

(** X1 at a record with an end time and a meter stop: they do not reach the
    table. *)
Lemma transaction_1002_reads_back_as_inserted :
  eval (db.StartTransaction transaction_1002) world_with_transaction = None
  ∧ eval (db.GetTransaction 1002)
      (exec (db.StartTransaction transaction_1002) world_with_transaction) =
      inr (Transaction.mk 1002 "CP-1" 2 "TAG2" 1700000500 0 40 0 "InProgress"
             (example_clock 0) (example_clock 0)).
Proof.
  exact (StartTransaction_then_GetTransaction transaction_1002 world_with_transaction
           eq_refl eq_refl eq_refl).
Defined.

(** X2 at CP-2, which is not on file. *)
Lemma globex_reads_back_as_saved :
  eval (db.SaveChargePoint globex_charge_point) world_with_transaction = None
  ∧ eval (db.GetChargePoint "CP-2")
      (exec (db.SaveChargePoint globex_charge_point) world_with_transaction) =
      inr (ChargePoint.mk "CP-2" "Globex" "G2" "SN-2" "2.0" 0 "Pending" 0 true
             (example_clock 0) (example_clock 0)).
Proof.
  exact (SaveChargePoint_then_GetChargePoint globex_charge_point world_with_transaction
           eq_refl eq_refl eq_refl).
Defined.

(** X3 at the first StartTransaction of a process, by CP-1 for its
    connector 1, both on file. *)
Lemma first_transaction_is_stored_as_confirmed :
  eval (@ocpp.OnStartTransaction example_runtime "CP-1" start_request) world_with_connectors =
    (Some (StartTransactionConfirmation.mk (IdTagInfo.mk "Accepted") 1001), None)
  ∧ eval (db.GetTransaction 1001)
      (exec (@ocpp.OnStartTransaction example_runtime "CP-1" start_request) world_with_connectors) =
      inr (Transaction.mk 1001 "CP-1" 1 "TAG1" 1700000000 0 100 0 "InProgress"
             (example_clock 1) (example_clock 1)).
Proof.
  exact (@OnStartTransaction_stores_what_it_confirms example_runtime "CP-1" start_request
           world_with_connectors eq_refl eq_refl eq_refl).
Defined.

(** X4 at the first StartTransaction after a restart, transaction 1001 being
    on file. *)
Lemma restart_confirms_the_id_of_transaction_1001 :
  eval (@ocpp.OnStartTransaction example_runtime "CP-2" start_request) restarted_world =
    (Some (StartTransactionConfirmation.mk (IdTagInfo.mk "Accepted") 1001), None)
  ∧ transactions
      (db (exec (@ocpp.OnStartTransaction example_runtime "CP-2" start_request)
             restarted_world)) = transactions (db restarted_world)
  ∧ ∃ err, ("Failed to save transaction", err) ∈
             errlog (exec (@ocpp.OnStartTransaction example_runtime "CP-2" start_request)
                       restarted_world).
Proof.
  exact (@OnStartTransaction_confirms_an_id_already_stored example_runtime "CP-2"
           start_request restarted_world transaction_1001 eq_refl).
Defined.

(** X5 at CP-1. *)
Lemma heartbeat_of_acme :
  charge_points
    (db (exec (@ocpp.OnHeartbeat example_runtime "CP-1") world_with_transaction)) =
    <["CP-1" :=
        ChargePoint.mk "CP-1" "Acme" "X1" "SN-1" "1.0" (example_clock 1) "Accepted"
          1690000000 false 1680000000 (example_clock 1)]>
      (charge_points (db world_with_transaction))
  ∧ eval (@ocpp.OnHeartbeat example_runtime "CP-1") world_with_transaction =
      (Some (HeartbeatConfirmation.mk (example_clock 2)), None).
Proof.
  exact (@OnHeartbeat_touches_the_heartbeat_time_only example_runtime "CP-1"
           world_with_transaction acme_charge_point eq_refl eq_refl).
Defined.

(** X6 at connector 1 of CP-1, reported for the first time. *)
Lemma status_of_a_new_connector :
  (∃ row,
     connectors
       (db (exec (@ocpp.OnStatusNotification example_runtime "CP-1" status_request)
              world_with_charge_point)) !! ("CP-1", 1) = Some row
     ∧ Connector.Status row = "Charging"
     ∧ Connector.ErrorCode row = "NoError"
     ∧ Connector.UpdatedAt row = example_clock 1
     ∧ Connector.CreatedAt row = example_clock 1)
  ∧ (∀ k', k' ≠ ("CP-1", 1) →
       connectors
         (db (exec (@ocpp.OnStatusNotification example_runtime "CP-1" status_request)
                world_with_charge_point)) !! k' = connectors (db world_with_charge_point) !! k').
Proof.
  exact (@OnStatusNotification_upserts_the_connector example_runtime "CP-1" status_request
           world_with_charge_point eq_refl).
Defined.

(** X7 at CP-1. *)
Lemma disconnection_of_acme :
  charge_points (db (exec (ocpp.handleChargePointDisconnected "CP-1") world_with_transaction)) =
    <["CP-1" :=
        ChargePoint.mk "CP-1" "Acme" "X1" "SN-1" "1.0" 1690000000 "Accepted" 1690000000
          false 1680000000 (example_clock 0)]>
      (charge_points (db world_with_transaction)).
Proof.
  exact (handleChargePointDisconnected_marks_not_connected "CP-1" world_with_transaction
           acme_charge_point eq_refl eq_refl).
Defined.

(** X8 at CP-1, on record and not connected: connectedSince is the time
    read by the handler. *)
Lemma connection_of_acme :
  charge_points (db (exec (ocpp.handleNewChargePoint "CP-1") world_with_transaction)) =
    <["CP-1" :=
        ChargePoint.mk "CP-1" "Acme" "X1" "SN-1" "1.0" 1690000000 "Accepted"
          (example_clock 0) true 1680000000 (example_clock 1)]>
      (charge_points (db world_with_transaction)).
Proof.
  exact (handleNewChargePoint_keeps_the_identity_on_record "CP-1" world_with_transaction
           acme_charge_point eq_refl eq_refl eq_refl).
Defined.

(** X9 at a Heartbeat of CP-9, which is not on file, its audit records
    rejected and its update accepted; at a disconnection of CP-9; and at a
    stop of transaction 4711, which is not on file, by CP-1. *)
Lemma updates_for_CP_9_and_transaction_4711 :
  (charge_points (db (exec (@ocpp.OnHeartbeat example_runtime "CP-9") world_rejecting_audit)) =
     charge_points (db world_rejecting_audit)
   ∧ logged "Failed to update heartbeat"
       (errlog (exec (@ocpp.OnHeartbeat example_runtime "CP-9") world_rejecting_audit)) = [])
  ∧ (db (exec (ocpp.handleChargePointDisconnected "CP-9") fresh_world) = db fresh_world
     ∧ errlog (exec (ocpp.handleChargePointDisconnected "CP-9") fresh_world) =
         errlog fresh_world)
  ∧ (eval (@ocpp.OnStopTransaction example_runtime "CP-1" stop_4711) world_with_transaction =
       (Some tt, None)
     ∧ transactions
         (db (exec (@ocpp.OnStopTransaction example_runtime "CP-1" stop_4711)
                world_with_transaction)) = transactions (db world_with_transaction)
     ∧ meter_values
         (db (exec (@ocpp.OnStopTransaction example_runtime "CP-1" stop_4711)
                world_with_transaction)) = meter_values (db world_with_transaction)
     ∧ logged "Failed to update transaction"
         (errlog (exec (@ocpp.OnStopTransaction example_runtime "CP-1" stop_4711)
                    world_with_transaction)) = []).
Proof.
  split; [|split].
  - exact (proj1 (@updates_of_records_not_on_file_pass_silently example_runtime
                    world_rejecting_audit) "CP-9" eq_refl eq_refl).
  - exact (proj1 (proj2 (@updates_of_records_not_on_file_pass_silently example_runtime
                           fresh_world)) "CP-9" eq_refl eq_refl).
  - exact (proj2 (proj2 (@updates_of_records_not_on_file_pass_silently example_runtime
                           world_with_transaction))
             "CP-1" stop_4711 eq_refl eq_refl eq_refl eq_refl).
Defined.

(** X10 at a stop of transaction 1001 by CP-1, the two and a connector 0 of
    CP-1 being on file: two rows. *)
Lemma transaction_data_of_stop_1001 :
  ∃ rows,
    meter_values
      (db (exec (@ocpp.OnStopTransaction example_runtime "CP-1" stop_1001_with_data)
             world_with_references)) = meter_values (db world_with_references) ++ rows
    ∧ Forall (λ row,
        MeterValueRow.transaction_id row = Some 1001
        ∧ MeterValueRow.charge_point_id row = "CP-1"
        ∧ MeterValueRow.connector_id row = 0) rows
    ∧ length rows = 2%nat.
Proof.
  destruct (@OnStopTransaction_saves_the_transaction_data example_runtime "CP-1"
              stop_1001_with_data world_with_references)
    as (rows & Hrows & Hall & Hlen & _).
  exists rows. split; [exact Hrows|]. split; [exact Hall|].
  exact (Hlen eq_refl (λ k _, eq_refl)).
Defined.

(** X11 at transaction 1001, stopped at 250 and then at 300. *)
Lemma second_stop_of_1001 :
  ∃ tx,
    eval (db.GetTransaction 1001)
      (exec (@ocpp.OnStopTransaction example_runtime "CP-1" stop_1001_again)
         (exec (@ocpp.OnStopTransaction example_runtime "CP-1" stop_1001)
            world_with_transaction)) = inr tx
    ∧ Transaction.Status tx = "Completed"
    ∧ Transaction.MeterStop tx = 300
    ∧ Transaction.EndTime tx = 1700007200
    ∧ Transaction.MeterStart tx = 100
    ∧ Transaction.StartTime tx = 1700000000.
Proof.
  exact (@a_second_StopTransaction_overwrites_the_first example_runtime "CP-1" "CP-1"
           stop_1001 stop_1001_again world_with_transaction transaction_1001
           eq_refl eq_refl (λ _, eq_refl) eq_refl eq_refl).
Defined.

(** X12 at transaction 1001 and the meter stop 2147483648. *)
Lemma stop_of_1001_beyond_INTEGER :
  eval (@ocpp.OnStopTransaction example_runtime "CP-1" stop_1001_beyond)
    world_with_transaction = (Some tt, None)
  ∧ transactions
      (db (exec (@ocpp.OnStopTransaction example_runtime "CP-1" stop_1001_beyond)
             world_with_transaction)) = transactions (db world_with_transaction)
  ∧ ∃ err, ("Failed to update transaction", err) ∈
             errlog (exec (@ocpp.OnStopTransaction example_runtime "CP-1" stop_1001_beyond)
                       world_with_transaction).
Proof.
  exact (@OnStopTransaction_with_a_meter_stop_beyond_INTEGER_completes_nothing
           example_runtime "CP-1" stop_1001_beyond world_with_transaction eq_refl).
Defined.

(** X15 at two calls of a fresh process, under the schedule in which each
    reads the counter before the other writes it. *)
Lemma two_racing_calls_stay_within_1002 :
  Forall (λ r, ∀ id, r = Some id → 1000 < id ≤ 1000 + Z.of_nat 2)
    (race.results (race.run [0; 1; 0; 1; 0; 1]%nat (race.start 1000 2)))
  ∧ 1000 ≤ race.shared (race.run [0; 1; 0; 1; 0; 1]%nat (race.start 1000 2))
      ≤ 1000 + Z.of_nat 2.
Proof.
  apply (generateTransactionID_ids_stay_within_the_calls_made 1000 2
           [0; 1; 0; 1; 0; 1]%nat); vm_compute; discriminate.
Defined.

(** X16 at CP-1, whose connectors were stored 2 first. *)
Lemma connectors_of_acme :
  ∃ l, eval (db.GetConnectors "CP-1") world_with_connectors = inr l
    ∧ db (exec (db.GetConnectors "CP-1") world_with_connectors) = db world_with_connectors
    ∧ (∀ c, c ∈ l ↔
         ∃ id row, connectors (db world_with_connectors) !! ("CP-1", id) = Some row
           ∧ c = Connector.mk id "CP-1" (Connector.Status row) (Connector.ErrorCode row)
                   (Connector.CreatedAt row) (Connector.UpdatedAt row))
    ∧ StronglySorted (λ a b, Connector.ID a < Connector.ID b) l
    ∧ ((∀ id, connectors (db world_with_connectors) !! ("CP-1", id) = None) → l = []).
Proof.
  exact (GetConnectors_lists_the_connectors_of_the_charge_point "CP-1" world_with_connectors
           eq_refl).
Defined.

(** The list itself: connector 1, then connector 2. *)
Example connectors_of_acme_in_order :
  eval (db.GetConnectors "CP-1") world_with_connectors = inr [connector_1; connector_2].
Proof. vm_compute. reflexivity. Qed.

(** X17 at the two charge points on file: CP-1, created later, comes first. *)
Lemma charge_points_newest_first :
  ∃ l, eval db.GetAllChargePoints world_with_connectors = inr l
    ∧ db (exec db.GetAllChargePoints world_with_connectors) = db world_with_connectors
    ∧ (∀ cp, cp ∈ l ↔
         ∃ row, charge_points (db world_with_connectors) !! ChargePoint.ID cp = Some row
           ∧ cp = ChargePoint.set_ID (ChargePoint.ID cp) row)
    ∧ NoDup (ChargePoint.ID <$> l)
    ∧ StronglySorted (λ a b, ChargePoint.CreatedAt b ≤ ChargePoint.CreatedAt a) l.
Proof.
  exact (GetAllChargePoints_lists_every_charge_point_newest_first world_with_connectors
           eq_refl).
Defined.

Example charge_points_in_order :
  eval db.GetAllChargePoints world_with_connectors =
    inr [acme_charge_point; globex_charge_point].
Proof. vm_compute. reflexivity. Qed.

(** X18 at a reset of a charge point that is not connected, on the
    transport of the specification: one call, answered with 500. *)
Example reset_of_a_charge_point_not_connected :
  let decoder := {|
    handlers.Decode_Reset := λ _, Some (handlers.ResetBody.mk "Hard");
    handlers.Decode_ChangeAvailability := λ _, None;
    handlers.Decode_UnlockConnector := λ _, None;
    handlers.Decode_RemoteStartTransaction := λ _, None;
    handlers.Decode_RemoteStopTransaction := λ _, None;
    handlers.Decode_GetDiagnostics := λ _, None;
    handlers.Decode_UpdateFirmware := λ _, None;
    handlers.Decode_GetConfiguration := λ _, None;
    handlers.Decode_ChangeConfiguration := λ _, None |} in
  let res := @handlers.Reset service.Transport decoder service.transport_call
               (request_for "CP-2") (fresh_world, (service.mkTransport [] [], [])) in
  handlers.StatusCode res.2 = 500
  ∧ res.1.2.2 = [("CP-2", service.CmdReset "Hard")]
  ∧ errlog res.1.1 =
      [("Failed to reset charge point", ErrTransport "charge point is not connected")].
Proof. vm_compute. repeat split. Qed.

(** C8 at a Hard reset of CP-2, which is connected, on a transport with no
    call outstanding: the method returns nil and one call is outstanding;
    the transport confirms it with a timeout, the continuation logs the
    error, and the transport is as before the call, with nothing left to
    confirm. *)
Lemma reset_of_a_connected_charge_point :
  let t := service.mkTransport ["CP-1"; "CP-2"] [] in
  let timed_out := Some (ErrTransport "timeout") in
  let r := service.invoke service.transport_call "CP-2" (service.InvReset "Hard") (t, []) in
  r.2 = None
  ∧ r.1.2 = [("CP-2", service.CmdReset "Hard")]
  ∧ ∃ failed,
      service.outstanding r.1.1 =
        [("CP-2", service.CmdReset "Hard", service.callback failed)]
      ∧ service.transport_complete 0 timed_out r.1.1 = (t, service.callback failed timed_out)
      ∧ service.transport_complete 0 timed_out t = (t, mret tt)
      ∧ errlog (exec (service.callback failed timed_out) fresh_world) =
          [(failed, ErrTransport "timeout")].
Proof.
  cbv zeta.
  destruct (invoke_fails_at_once_or_hands_over_one_continuation "CP-2"
              (service.InvReset "Hard") (service.mkTransport ["CP-1"; "CP-2"] []) []
              eq_refl) as (Hsent & _ & Hconnected).
  destruct Hconnected as (Hr & failed & Ht & Hfire).
  { apply elem_of_cons. right. apply elem_of_cons. left. reflexivity. }
  destruct (Hfire (Some (ErrTransport "timeout"))) as (Hfired & Hnothing & Hlog).
  split; [exact Hr|]. split; [exact Hsent|]. exists failed.
  split; [rewrite Ht; reflexivity|]. split; [exact Hfired|]. split; [exact Hnothing|].
  exact (proj1 (Hlog fresh_world)).
Defined.

(** X19 at a charge point and a transaction that are not on file. *)
Lemma missing_records_are_answered_with_500 :
  (handlers.GetChargePoint (request_for "CP-9") (fresh_world, idle_transport)).2 =
    handlers.sendErrorResponse "Failed to get charge point" 500
  ∧ (@handlers.GetTransaction unit example_strconv (request_for "4711")
       (fresh_world, idle_transport)).2 =
      handlers.sendErrorResponse "Failed to get transaction" 500.
Proof.
  destruct (@a_record_that_is_missing_is_answered_with_500_never_404 unit example_strconv
              (request_for "CP-9") (fresh_world, idle_transport))
    as (_ & _ & Hcp & _).
  destruct (@a_record_that_is_missing_is_answered_with_500_never_404 unit example_strconv
              (request_for "4711") (fresh_world, idle_transport))
    as (_ & _ & _ & Htx).
  split.
  - apply Hcp; [discriminate | reflexivity | reflexivity].
  - apply (Htx 4711); [discriminate | reflexivity | reflexivity | reflexivity].
Defined.

(** X20 at a charge point that is not on file. *)
Lemma connectors_of_an_unknown_charge_point :
  (handlers.GetConnectors (request_for "CP-9") (fresh_world, idle_transport)).2 =
    handlers.sendResponse
      (handlers.Response.mk true "" (Some (handlers.DataConnectors [])))
  ∧ errlog (handlers.GetConnectors (request_for "CP-9") (fresh_world, idle_transport)).1.1 =
      errlog fresh_world.
Proof.
  apply (GetConnectors_of_an_unknown_charge_point_is_an_empty_success
           (request_for "CP-9") (fresh_world, idle_transport));
    [discriminate | reflexivity | intros connectorID; reflexivity].
Defined.

(** X21 at the BootNotification of CP-1. *)
Lemma acme_is_served_after_its_boot :
  ∃ cp,
    (handlers.GetChargePoint (request_for "CP-1")
       (exec (@ocpp.OnBootNotification example_runtime example_config "CP-1" boot_acme)
          fresh_world, idle_transport)).2 =
      handlers.sendResponse
        (handlers.Response.mk true "" (Some (handlers.DataChargePoint cp)))
    ∧ ChargePoint.ID cp = "CP-1"
    ∧ ChargePoint.Vendor cp = "Acme"
    ∧ ChargePoint.Model cp = "X1"
    ∧ ChargePoint.SerialNumber cp = "SN-1"
    ∧ ChargePoint.FirmwareVersion cp = "1.0"
    ∧ ChargePoint.RegistrationStatus cp = "Accepted"
    ∧ ChargePoint.IsConnected cp = true.
Proof.
  apply (@a_booted_charge_point_is_served_by_the_API example_runtime unit example_config
           boot_acme (request_for "CP-1") fresh_world idle_transport);
    [discriminate | intros k; reflexivity].
Defined.

(** X22 at the first StartTransaction of a process, by CP-1 for its
    connector 1, both on file, and the route of transaction 1001. *)
Lemma transaction_1001_is_served_after_its_start :
  eval (@ocpp.OnStartTransaction example_runtime "CP-1" start_request) world_with_connectors =
    (Some (StartTransactionConfirmation.mk (IdTagInfo.mk "Accepted") 1001), None)
  ∧ (@handlers.GetTransaction unit example_strconv (request_for "1001")
       (exec (@ocpp.OnStartTransaction example_runtime "CP-1" start_request) world_with_connectors,
        idle_transport)).2 =
      handlers.sendResponse
        (handlers.Response.mk true ""
           (Some (handlers.DataTransaction
                    (Transaction.mk 1001 "CP-1" 1 "TAG1" 1700000000 0 100 0 "InProgress"
                       (example_clock 1) (example_clock 1))))).
Proof.
  apply (@a_started_transaction_is_served_by_the_API example_runtime unit example_strconv
           "CP-1" start_request (request_for "1001") world_with_connectors idle_transport);
    [discriminate | reflexivity | reflexivity | intros k; reflexivity].
Defined.

(** X23 at the StatusNotification of connector 1 of CP-1. *)
Lemma connector_1_is_served_after_its_status :
  ∃ connectors created,
    (handlers.GetConnectors (request_for "CP-1")
       (exec (@ocpp.OnStatusNotification example_runtime "CP-1" status_request) world_with_charge_point,
        idle_transport)).2 =
      handlers.sendResponse
        (handlers.Response.mk true "" (Some (handlers.DataConnectors connectors)))
    ∧ Connector.mk 1 "CP-1" "Charging" "NoError" created (example_clock 1) ∈ connectors.
Proof.
  apply (@a_reported_connector_is_served_by_the_API example_runtime unit status_request
           (request_for "CP-1") world_with_charge_point idle_transport);
    [discriminate | intros k; reflexivity].
Defined.

(** X24 at an environment whose server port is set but empty: the default
    8887 is not taken. *)
Lemma an_empty_server_port_fails :
  ∃ e, @config.LoadConfig example_strconv empty_port_env = inl e.
Proof.
  destruct (@LoadConfig_fails_exactly_when_a_number_does_not_parse example_strconv
              empty_port_env) as (_ & _ & Hempty).
  apply (Hempty "SERVER_PORT" "8887" strconv.ErrSyntax);
    [left | reflexivity | reflexivity].
Defined.

(** X25 at an environment that sets the interval to 300. *)
Lemma interval_300_reaches_the_boot_confirmation :
  ∃ interval currentTime,
    @Atoi example_strconv (default "600" (example_env !! "HEARTBEAT_INTERVAL")) = inr interval
    ∧ eval (@ocpp.OnBootNotification example_runtime
              (config.central_system
                 (config.mk 8887 8888 "/ocpp" "localhost" 5432 "postgres" "postgres" "cpms"
                    "disable" 300 "info"))
              "CP-1" boot_acme) fresh_world =
        (Some (BootNotificationConfirmation.mk currentTime interval "Accepted"), None).
Proof.
  apply (@the_heartbeat_interval_of_the_environment_reaches_the_devices example_runtime
           example_strconv example_env); vm_compute; reflexivity.
Defined.

(** X27 at a Heartbeat request of CP-1 and a runtime whose [json.Marshal]
    fails. *)
Lemma a_heartbeat_that_does_not_marshal_is_audited_as_an_empty_object :
  ocpp_messages
    (db (exec (@ocpp.logMessage failing_runtime "CP-1" "Request" "Heartbeat" ""
                 (PRequest ReqHeartbeat) "Inbound") world_with_charge_point)) =
    ocpp_messages (db world_with_charge_point) ++
    [OCPPMessageRow.mk "CP-1" "Request" "Heartbeat" "" (json_Marshal_string "{}") "Inbound"
       (example_clock 0)]
  ∧ errlog
      (exec (@ocpp.logMessage failing_runtime "CP-1" "Request" "Heartbeat" ""
               (PRequest ReqHeartbeat) "Inbound") world_with_charge_point) =
      errlog world_with_charge_point ++ [("Failed to marshal OCPP message payload", ErrMarshal)].
Proof.
  exact (@logMessage_audits_a_message_that_does_not_marshal failing_runtime "CP-1" "Request"
           "Heartbeat" "" (PRequest ReqHeartbeat) "Inbound" world_with_charge_point eq_refl eq_refl).
Defined.

(** X26 at three StartTransaction requests of a fresh process, with a
    connection and a Heartbeat in between. *)
Lemma three_starts_in_turn_get_1001_to_1003 :
  let evs := [ocpp.Connect "CP-1";
              ocpp.Inbound "CP-1" (ReqStartTransaction start_request);
              ocpp.Inbound "CP-2" (ReqStartTransaction start_request);
              ocpp.Inbound "CP-1" ReqHeartbeat;
              ocpp.Inbound "CP-3" (ReqStartTransaction start_request)] in
  issued_ids (eval (@ocpp.deliver_all example_runtime example_config evs) fresh_world) =
    [1001; 1002; 1003]
  ∧ lastTransactionID (exec (@ocpp.deliver_all example_runtime example_config evs) fresh_world)
    = 1003.
Proof.
  apply (@ids_of_events_delivered_in_turn_are_consecutive example_runtime example_config
           [ocpp.Connect "CP-1";
            ocpp.Inbound "CP-1" (ReqStartTransaction start_request);
            ocpp.Inbound "CP-2" (ReqStartTransaction start_request);
            ocpp.Inbound "CP-1" ReqHeartbeat;
            ocpp.Inbound "CP-3" (ReqStartTransaction start_request)] fresh_world);
    vm_compute; discriminate.
Defined.
